(** * Vishwakarma Venture backend: OTP authentication flow and rate limiter

    A shallow embedding of the Express application: the rate limiter
    middleware, the request validators, the Twilio Verify adapter, the JWT
    helpers, the authentication middleware and the handlers of the
    [/api/auth] router.  Every section names the source file it follows.

    Conventions.
    - A JavaScript string is a [string]; its characters are code units and
      [String.length] is the JavaScript [length].
    - [Date.now()] is an integer number of milliseconds, a [Z], passed to
      every function that reads the clock.
    - A JavaScript object used as a dictionary (request and response bodies,
      the [Map] of the rate limiter, a stored document) is a [gmap] on its
      keys.
    - What a middleware does with [next] and [res] is its result: [Next]
      or [Respond r]; state that outlives a request (the limiter's map, the
      user collection) is passed in and returned. *)

From Stdlib Require Import ZArith String Ascii List Bool Lia.
From Stdlib Require Import Floats.PrimFloat.
From stdpp Require Import base option list gmap fin_maps strings pretty.

Set Warnings "-register-all".

Local Open Scope string_scope.
Local Open Scope Z_scope.

(** ** JavaScript strings and the regular expressions of the source *)

Module Js.

Definition code (c : ascii) : N := N_of_ascii c.

(** [\d] *)
Definition is_digit (c : ascii) : bool :=
  (48 <=? code c)%N && (code c <=? 57)%N.

(** [[6-9]] *)
Definition is_6_to_9 (c : ascii) : bool :=
  (54 <=? code c)%N && (code c <=? 57)%N.

(** [\s] on code units below 256: tab, line feed, vertical tab, form
    feed, carriage return, space and no-break space. *)
Definition is_space (c : ascii) : bool :=
  ((9 <=? code c)%N && (code c <=? 13)%N)
  || (code c =? 32)%N || (code c =? 160)%N.

Fixpoint filter_chars (keep : ascii -> bool) (s : string) : string :=
  match s with
  | EmptyString => EmptyString
  | String c s' =>
      if keep c then String c (filter_chars keep s') else filter_chars keep s'
  end.

Fixpoint all_chars (p : ascii -> bool) (s : string) : bool :=
  match s with
  | EmptyString => true
  | String c s' => p c && all_chars p s'
  end.

(** [s.replace(/\D/g, '')] *)
Definition strip_non_digits (s : string) : string := filter_chars is_digit s.

(** [s.replace(/[^\d+]/g, '')] *)
Definition strip_non_digits_plus (s : string) : string :=
  filter_chars (fun c => is_digit c || (code c =? 43)%N) s.

(** [s.startsWith(p)] *)
Definition startsWith (p s : string) : bool := String.prefix p s.

Definition len (s : string) : Z := Z.of_nat (String.length s).

Fixpoint drop_while (p : ascii -> bool) (s : string) : string :=
  match s with
  | EmptyString => EmptyString
  | String c s' => if p c then drop_while p s' else s
  end.

(** validator.js [trim]: [str.replace(/^\s+|\s+$/g, '')] *)
Definition trim (s : string) : string :=
  String.rev (drop_while is_space (String.rev (drop_while is_space s))).

(** [/^\d{6}$/.test(s)] *)
Definition matches_six_digits (s : string) : bool :=
  (String.length s =? 6)%nat && all_chars is_digit s.

(** [/^[6-9]\d{9}$/.test(s)] *)
Definition matches_mobile (s : string) : bool :=
  match s with
  | String c r => is_6_to_9 c && (String.length r =? 9)%nat && all_chars is_digit r
  | EmptyString => false
  end.

(** [/^\+91[6-9]\d{9}$/.test(s)] *)
Definition matches_plus91_mobile (s : string) : bool :=
  match s with
  | String "+" (String "9" (String "1" r)) => matches_mobile r
  | _ => false
  end.

(** [/^(\+91)?[6-9]\d{9}$/.test(s)] *)
Definition matches_optional_plus91_mobile (s : string) : bool :=
  matches_plus91_mobile s || matches_mobile s.

(** [hay.includes(needle)] *)
Fixpoint includes (needle hay : string) : bool :=
  String.prefix needle hay
  || match hay with
     | EmptyString => false
     | String _ r => includes needle r
     end.

(** [parts.join(sep)] *)
Fixpoint join (sep : string) (parts : list string) : string :=
  match parts with
  | [] => ""
  | [x] => x
  | x :: rest => x +:+ sep +:+ join sep rest
  end.

(** [Math.ceil(a / b)] for integers [a] and [b > 0]. *)
Definition ceil_div (a b : Z) : Z := - ((- a) / b).

End Js.

(** ** JavaScript values, truthiness and responses *)

(** The values of request bodies, response bodies and stored documents:
    what [express.json()] produces, and [Date] objects ([None] is the
    invalid date). *)
Inductive value : Type :=
| JNull
| JBool (b : bool)
| JNum (x : float)
| JStr (s : string)
| JDate (ms : option Z)
| JArr (items : list value)
| JObj (fields : list (string * value)).

(** The value of [if (v)]. *)
Definition truthy (v : value) : bool :=
  match v with
  | JNull => false
  | JBool b => b
  | JNum x => negb (PrimFloat.eqb x 0%float || PrimFloat.is_nan x)
  | JStr s => negb (String.eqb s "")
  | JDate _ | JArr _ | JObj _ => true
  end.

(** [if (o.k)]: a missing property reads as [undefined]. *)
Definition truthy_field (o : gmap string value) (k : string) : bool :=
  match o !! k with
  | Some v => truthy v
  | None => false
  end.

(** [v === s] for a string [s]. *)
Definition is_string (s : string) (v : value) : bool :=
  match v with
  | JStr t => String.eqb t s
  | _ => false
  end.

(** The value of the [code] or [status] property of an error, where a
    library sets one: a number (Twilio's RestException, the MongoDB
    driver) or a string (Node's system errors, 'ECONNREFUSED'). *)
Inductive code_value :=
| NumCode (n : Z)
| StrCode (s : string).

#[global] Instance code_value_eq_dec : EqDecision code_value.
Proof. solve_decision. Defined.

(** The value of [if (c)]. *)
Definition code_truthy (c : code_value) : bool :=
  match c with
  | NumCode n => negb (n =? 0)
  | StrCode s => negb (String.eqb s "")
  end.

(** The property name [o[c]] reads: the string itself, the decimal
    digits of an integer. *)
Definition code_key (c : code_value) : string :=
  match c with
  | NumCode n => pretty n
  | StrCode s => s
  end.

(** A thrown [Error]: its [name] and [message], and the [code] and
    [status] properties some libraries add ([None]: the property is
    missing). *)
Record js_error := JsError {
  err_name : string;
  err_message : string;
  err_code : option code_value;
  err_status : option code_value;
  (** the messages of [Object.values(error.errors)] *)
  err_errors : list string
}.

Definition Error (msg : string) : js_error := JsError "Error" msg None None [].

(** A call that returns or throws. *)
Abbreviation result A := (js_error + A)%type.

Record response := Response {
  status : Z;
  body : gmap string value
}.

(** [res.status(code).json({ success: false, message })] *)
Definition failure (code : Z) (msg : string) : response :=
  Response code (<["message" := JStr msg]> {["success" := JBool false]}).

(** What a middleware or handler did: called [next()], answered, or called
    [next(error)] (which reaches the application's error handler). *)
Inductive outcome :=
| Next
| Respond (r : response)
| NextError (error : js_error).

(** The status code a client sees, when the request was answered. *)
Definition status_of (o : outcome) : option Z :=
  match o with
  | Respond r => Some (status r)
  | _ => None
  end.

(** ** middleware/rateLimiter.js (src/unnamed/part_003) *)

Module RateLimiter.

Record config := Config {
  maxAttempts : Z;
  windowMs : Z;
  blockDurationMs : Z
}.

Definition RATE_LIMIT_CONFIG : config :=
  {| maxAttempts := 3;
     windowMs := 60 * 1000;
     blockDurationMs := 5 * 60 * 1000 |}.

Record entry := Entry {
  count : Z;
  resetTime : Z;
  blocked : bool
}.

(** [rateLimitStore]: the module-level [Map]. *)
Abbreviation store := (gmap string entry).

Definition expired (now : Z) (e : entry) : Prop := now > resetTime e.

Global Instance expired_dec now e : Decision (expired now e).
Proof. unfold expired. apply _. Defined.

(** [cleanupExpiredEntries]: deletes every entry with
    [now > value.resetTime]. *)
Definition cleanupExpiredEntries (now : Z) (st : store) : store :=
  filter (fun kv => ~ expired now kv.2) st.

Definition blocked_message (remainingTime : Z) : string :=
  "Too many requests. Please try again in " +:+ pretty remainingTime
    +:+ " seconds.".

Definition exceeded_message : string :=
  "Too many OTP requests. Please try again in 5 minutes.".

(** [otpRateLimiter(req, res, next)] with [req.body.phone = phone] at
    clock reading [now].  [entry.count++] writes through the object held
    by the map, and every path that changes the entry also calls
    [rateLimitStore.set(key, entry)]: the map after the call is the map
    before it with the entry of [key] replaced. *)
Definition otpRateLimiter (now : Z) (phone : option string) (st : store)
  : outcome * store :=
  match phone with
  | None => (Next, st)
  | Some "" => (Next, st)
  | Some phone =>
      let key := Js.strip_non_digits phone in
      let fresh :=
        {| count := 1;
           resetTime := now + windowMs RATE_LIMIT_CONFIG;
           blocked := false |} in
      match st !! key with
      | None => (Next, <[key := fresh]> st)
      | Some entry =>
          if bool_decide (now > resetTime entry) then
            (Next, <[key := fresh]> st)
          else if blocked entry then
            let remainingTime := Js.ceil_div (resetTime entry - now) 1000 in
            (Respond (failure 429 (blocked_message remainingTime)), st)
          else
            let entry1 :=
              {| count := count entry + 1;
                 resetTime := resetTime entry;
                 blocked := blocked entry |} in
            if bool_decide (count entry1 > maxAttempts RATE_LIMIT_CONFIG) then
              let entry2 :=
                {| count := count entry1;
                   resetTime := now + blockDurationMs RATE_LIMIT_CONFIG;
                   blocked := true |} in
              (Respond (failure 429 exceeded_message), <[key := entry2]> st)
            else
              (Next, <[key := entry1]> st)
      end
  end.

(** [getRemainingAttempts(phone)] *)
Definition getRemainingAttempts (now : Z) (phone : string) (st : store) : Z :=
  let key := Js.strip_non_digits phone in
  match st !! key with
  | None => maxAttempts RATE_LIMIT_CONFIG
  | Some entry =>
      if bool_decide (now > resetTime entry) then maxAttempts RATE_LIMIT_CONFIG
      else Z.max 0 (maxAttempts RATE_LIMIT_CONFIG - count entry)
  end.

(** *** The policy in the words of the specification

    [check(identifier) -> Allow | Deny]: the reference the middleware is
    compared with.  The two denials are kept apart because only the
    first reports the remaining seconds. *)
Inductive verdict :=
| Allow
| DenyBlocked (retryAfterSeconds : Z)
| DenyExceeded.

Inductive standing :=
| Absent
| Lapsed
| InBlockWindow (e : entry)
| Counting (e : entry).

Definition standing_of (now : Z) (o : option entry) : standing :=
  match o with
  | None => Absent
  | Some e =>
      if Z.ltb (resetTime e) now then Lapsed
      else if blocked e then InBlockWindow e
      else Counting e
  end.

Definition policy (now : Z) (identifier : string) (st : store)
  : verdict * store :=
  match standing_of now (st !! identifier) with
  | Absent | Lapsed =>
      (Allow, <[identifier := Entry 1 (now + 60000) false]> st)
  | InBlockWindow e =>
      (DenyBlocked (Js.ceil_div (resetTime e - now) 1000), st)
  | Counting e =>
      if Z.ltb 3 (count e + 1)
      then (DenyExceeded, <[identifier := Entry (count e + 1) (now + 300000) true]> st)
      else (Allow, <[identifier := Entry (count e + 1) (resetTime e) false]> st)
  end.

Definition outcome_of (v : verdict) : outcome :=
  match v with
  | Allow => Next
  | DenyBlocked s => Respond (failure 429 (blocked_message s))
  | DenyExceeded => Respond (failure 429 exceeded_message)
  end.

(** One operation on the map: a check for a phone number, or a sweep. *)
Inductive op :=
| Check (now : Z) (phone : string)
| Sweep (now : Z).

Definition apply_op (o : op) (st : store) : store :=
  match o with
  | Check now phone => (otpRateLimiter now (Some phone) st).2
  | Sweep now => cleanupExpiredEntries now st
  end.

Definition op_time (o : op) : Z :=
  match o with
  | Check now _ => now
  | Sweep now => now
  end.

(** The maps the process can hold: it starts empty. *)
Inductive reachable : store -> Prop :=
| reachable_empty : reachable ∅
| reachable_step o st : reachable st -> reachable (apply_op o st).

(** Every stored count is at least 1. *)
Definition counts_positive (st : store) : Prop :=
  forall k e, st !! k = Some e -> 1 <= count e.

(** The map after four checks of one number within a minute. *)
Definition blocked_example : store :=
  apply_op (Check 30000 "+919876543210")
    (apply_op (Check 20000 "+919876543210")
       (apply_op (Check 10000 "+919876543210")
          (apply_op (Check 0 "+919876543210") ∅))).

End RateLimiter.

(** ** middleware/validators.js *)

Module Validators.

(** [normalizePhone]: rewrites [req.body.phone] when it is truthy. *)
Definition normalizePhone (phone : option string) : option string :=
  match phone with
  | None => None
  | Some "" => Some ""
  | Some phone =>
      let phone := Js.strip_non_digits_plus phone in
      Some
        (if negb (Js.startsWith "+91" phone) then
           if Js.startsWith "91" phone && (Js.len phone =? 12)%Z then
             "+" +:+ phone
           else if (Js.len phone =? 10)%Z then
             "+91" +:+ phone
           else phone
         else phone)
  end.

(** An express-validator chain on one field: [trim()] replaces the
    field by its trimmed string (a missing field reads as the empty
    string), then every validator of the chain that fails adds its
    message, in the order of the chain. *)
Definition sanitized (field : option string) : string :=
  Js.trim (default "" field).

Definition check (ok : bool) (msg : string) : list string :=
  if ok then [] else [msg].

Definition notEmpty (s : string) : bool := negb (String.eqb s "").

(** [sendOtpValidation] *)
Definition sendOtpValidation (phone : option string) : string * list string :=
  let phone := sanitized phone in
  (phone,
   (check (notEmpty phone) "Phone number is required"
    ++ check (Js.matches_optional_plus91_mobile phone)
         "Invalid Indian phone number. Must start with 6-9 and be 10 digits.")%list).

(** [verifyOtpValidation] *)
Definition verifyOtpValidation (phone otp : option string)
  : string * string * list string :=
  let phone := sanitized phone in
  let otp := sanitized otp in
  (phone, otp,
   ((check (notEmpty phone) "Phone number is required"
    ++ check (Js.matches_plus91_mobile phone)
         "Invalid phone number format. Must be +91XXXXXXXXXX")
   ++ (check (notEmpty otp) "OTP is required"
       ++ check (Js.len otp =? 6)%Z "OTP must be 6 digits"
       ++ check (Js.matches_six_digits otp) "OTP must contain only digits"))%list).

(** [registerUserValidation] *)
Definition registerUserValidation (phone name : option string)
  : string * string * list string :=
  let phone := sanitized phone in
  let name := sanitized name in
  (phone, name,
   ((check (notEmpty phone) "Phone number is required"
    ++ check (Js.matches_plus91_mobile phone)
         "Invalid phone number format. Must be +91XXXXXXXXXX")
   ++ (check (notEmpty name) "Name is required"
       ++ check (2 <=? Js.len name)%Z "Name must be at least 2 characters"))%list).

(** [handleValidationErrors]: answers 400 with the first message, or
    calls [next()] ([None]). *)
Definition handleValidationErrors (errors : list string) : option response :=
  match errors with
  | [] => None
  | firstError :: _ => Some (failure 400 firstError)
  end.

End Validators.

(** ** Process environment ([process.env]) *)

Record environment := Environment {
  env_TWILIO_ACCOUNT_SID : option string;
  env_TWILIO_AUTH_TOKEN : option string;
  env_TWILIO_VERIFY_SERVICE_SID : option string;
  env_SMS_MODE : option string;
  env_JWT_SECRET : option string;
  (** the timespan the variable denotes, in seconds *)
  env_JWT_EXPIRES_IN : option Z
}.

(** [process.env.X || fallback] *)
Definition or_else (x : option string) (fallback : string) : string :=
  match x with
  | None | Some "" => fallback
  | Some s => s
  end.

(** [!process.env.X] *)
Definition unset (x : option string) : bool :=
  match x with
  | None | Some "" => true
  | Some _ => false
  end.

(** A configuration in test mode, with the service identifier set. *)
Definition test_env : environment :=
  {| env_TWILIO_ACCOUNT_SID := None;
     env_TWILIO_AUTH_TOKEN := None;
     env_TWILIO_VERIFY_SERVICE_SID := Some "VA00000000000000000000000000000000";
     env_SMS_MODE := Some "test";
     env_JWT_SECRET := None;
     env_JWT_EXPIRES_IN := None |}.

(** Test mode again, the service identifier missing. *)
Definition test_env_without_service : environment :=
  {| env_TWILIO_ACCOUNT_SID := None;
     env_TWILIO_AUTH_TOKEN := None;
     env_TWILIO_VERIFY_SERVICE_SID := None;
     env_SMS_MODE := Some "test";
     env_JWT_SECRET := None;
     env_JWT_EXPIRES_IN := None |}.

(** ** services/twilioService.js *)

Module TwilioService.

Record verification := Verification {
  v_status : string;
  v_to : string;
  v_channel : string;
  v_valid : bool
}.

Record verification_check := VerificationCheck {
  c_status : string;
  c_valid : bool
}.

(** The [twilio] package, as the calls the service makes: the
    constructor [twilio(accountSid, authToken)], which returns a client or
    throws (on an account SID it does not accept), and the two calls of the
    Verify API, each of which returns what the provider answers or
    throws. *)
Record provider := Provider {
  twilio_constructor : string -> string -> option js_error;
  verifications_create : string -> string -> result verification;
  verificationChecks_create : string -> string -> result string
}.

(** [getClient]: the client is built on the first call that succeeds
    and kept; the environment does not change and the constructor is a
    function of the credentials, so every call succeeds or every call
    throws the same error. *)
Definition getClient (env : environment) (twilio : provider) : result unit :=
  let accountSid := env_TWILIO_ACCOUNT_SID env in
  let authToken := env_TWILIO_AUTH_TOKEN env in
  if unset accountSid || unset authToken
  then inl (Error "Twilio credentials not configured")
  else
    match twilio_constructor twilio (default "" accountSid)
            (default "" authToken) with
    | Some e => inl e
    | None => inr tt
    end.

(** [sendOTP(phoneNumber)] *)
Definition sendOTP (env : environment) (twilio : provider)
    (phoneNumber : string) : result verification :=
  if unset (env_TWILIO_VERIFY_SERVICE_SID env) then
    inl (Error "Twilio Verify Service SID not configured")
  else
    let smsMode := or_else (env_SMS_MODE env) "live" in
    if String.eqb smsMode "test" then
      inr {| v_status := "pending"; v_to := phoneNumber;
             v_channel := "sms"; v_valid := true |}
    else
      match getClient env twilio with
      | inl e => inl e
      | inr _ =>
          match verifications_create twilio phoneNumber "sms" with
          | inl e => inl e
          | inr v =>
              inr {| v_status := v_status v; v_to := v_to v;
                     v_channel := v_channel v; v_valid := v_valid v |}
          end
      end.

(** [verifyOTP(phoneNumber, otp)] *)
Definition verifyOTP (env : environment) (twilio : provider)
    (phoneNumber otp : string) : result verification_check :=
  if unset (env_TWILIO_VERIFY_SERVICE_SID env) then
    inl (Error "Twilio Verify Service SID not configured")
  else
    let smsMode := or_else (env_SMS_MODE env) "live" in
    if String.eqb smsMode "test" then
      if (Js.len otp =? 6)%Z && Js.matches_six_digits otp then
        inr {| c_status := "approved"; c_valid := true |}
      else
        inr {| c_status := "pending"; c_valid := false |}
    else
      match getClient env twilio with
      | inl e => inl e
      | inr _ =>
          match verificationChecks_create twilio phoneNumber otp with
          | inl e => inl e
          | inr st =>
              inr {| c_status := st; c_valid := String.eqb st "approved" |}
          end
      end.

(** The error of a connection that is refused, as Node reports it. *)
Definition ECONNREFUSED : js_error :=
  JsError "Error" "connect ECONNREFUSED" (Some (StrCode "ECONNREFUSED")) None [].

(** A provider that cannot be reached. *)
Definition unreachable : provider :=
  {| twilio_constructor := fun _ _ => None;
     verifications_create := fun _ _ => inl ECONNREFUSED;
     verificationChecks_create := fun _ _ => inl ECONNREFUSED |}.

(** The object literal [errorMessages]; the keys of an object are
    strings. *)
Definition errorMessages : list (string * string) :=
  [ ("20003", "Authentication failed. Check Twilio credentials.");
    ("20404", "Twilio Verify service not found.");
    ("21211", "Invalid phone number format.");
    ("21408", "Phone number not verified for trial account.");
    ("21610", "SMS sending blocked for this number.");
    ("21614", "Invalid mobile number.");
    ("60200", "Invalid parameter.");
    ("60203", "Max send attempts reached. Try again later.");
    ("60212", "Too many requests. Please wait before retrying.");
    ("20429", "Invalid verification code.");
    ("60202", "Too many attempts. Please request a new code.") ].

(** The properties every object literal inherits from
    [Object.prototype]: eleven functions and the accessor [__proto__],
    which reads as [Object.prototype] itself. All are truthy. *)
Definition Object_prototype : list string :=
  [ "constructor"; "__defineGetter__"; "__defineSetter__"; "hasOwnProperty";
    "__lookupGetter__"; "__lookupSetter__"; "isPrototypeOf";
    "propertyIsEnumerable"; "toString"; "valueOf"; "__proto__";
    "toLocaleString" ].

(** What reading a property of [errorMessages] gives. *)
Inductive property :=
| Own (msg : string)
| Inherited (name : string)
| Undefined.

(** [errorMessages[code]]; a missing [code] reads the property
    "undefined", which no object has. *)
Definition errorMessages_get (code : option code_value) : property :=
  match code with
  | Some c =>
      let key := code_key c in
      match List.find (fun kv => String.eqb (fst kv) key) errorMessages with
      | Some kv => Own (snd kv)
      | None =>
          if existsb (String.eqb key) Object_prototype then Inherited key
          else Undefined
      end
  | None => Undefined
  end.

(** [a || b] on two optional codes. *)
Definition first_truthy (a b : option code_value) : option code_value :=
  match a with
  | Some c => if code_truthy c then Some c else b
  | None => b
  end.

(** [error.code || error.status] as a condition. *)
Definition has_code_or_status (error : js_error) : bool :=
  match first_truthy (err_code error) (err_status error) with
  | Some c => code_truthy c
  | None => false
  end.

(** What [parseTwilioError] returns: a string, or the member of
    [Object.prototype] a code names. *)
Inductive message :=
| Text (s : string)
| Member (name : string).

(** [parseTwilioError(error)] *)
Definition parseTwilioError (error : js_error) : message :=
  let code := first_truthy (err_code error) (err_status error) in
  let own := or_else (Some (err_message error)) "Failed to verify OTP" in
  match errorMessages_get code with
  | Own msg => if String.eqb msg "" then Text own else Text msg
  | Inherited name => Member name
  | Undefined => Text own
  end.

End TwilioService.

(** ** utils/jwt.js *)

Module Jwt.

(** The claims of a token: the payload of [generateToken] with the
    [iat] and [exp] that [jwt.sign] adds, both in seconds. *)
Record claims := Claims {
  userId : string;
  phone : string;
  iat : Z;
  exp : Z
}.

(** The jsonwebtoken package, which the repository only calls.  A token
    is the compact serialisation of the claims and of a signature over
    them; [parse] reads a serialisation back. *)
Record jsonwebtoken := JsonWebToken {
  hmac : string -> claims -> string;
  compact : claims -> string -> string;
  parse : string -> option (claims * string)
}.

(** What the package guarantees of its own output: it parses to what was
    serialised, and it is a non-empty word without spaces. *)
Definition lawful (lib : jsonwebtoken) : Prop :=
  forall c sg,
    parse lib (compact lib c sg) = Some (c, sg)
    /\ compact lib c sg <> ""
    /\ Js.all_chars (fun ch => negb (Ascii.eqb ch " ")) (compact lib c sg) = true.

Definition JsonWebTokenError (msg : string) : js_error :=
  JsError "JsonWebTokenError" msg None None [].

Definition TokenExpiredError : js_error :=
  JsError "TokenExpiredError" "jwt expired" None None [].

(** [Math.floor(Date.now() / 1000)] *)
Definition clockTimestamp (now : Z) : Z := now / 1000.

(** [jwt.sign({ userId, phone }, secret, { expiresIn })] *)
Definition sign (lib : jsonwebtoken) (now : Z) (userId phone : string)
    (secret : string) (expiresIn : Z) : string :=
  let timestamp := clockTimestamp now in
  let c := {| userId := userId; phone := phone;
              iat := timestamp; exp := timestamp + expiresIn |} in
  compact lib c (hmac lib secret c).

(** [jwt.verify(token, secret)]: the token is decoded, then its
    signature is checked, then its expiry. *)
Definition verify (lib : jsonwebtoken) (now : Z) (token secret : string)
  : result claims :=
  match parse lib token with
  | None => inl (JsonWebTokenError "jwt malformed")
  | Some (c, sg) =>
      if negb (String.eqb sg (hmac lib secret c)) then
        inl (JsonWebTokenError "invalid signature")
      else if (exp c <=? clockTimestamp now)%Z then
        inl TokenExpiredError
      else inr c
  end.

Definition JWT_SECRET (env : environment) : string :=
  or_else (env_JWT_SECRET env) "your-secret-key-change-in-production".

(** [process.env.JWT_EXPIRES_IN || '7d'], in seconds. *)
Definition JWT_EXPIRES_IN (env : environment) : Z :=
  default (7 * 24 * 60 * 60) (env_JWT_EXPIRES_IN env).

(** [generateToken(userId, phone)] *)
Definition generateToken (lib : jsonwebtoken) (env : environment) (now : Z)
    (userId phone : string) : string :=
  sign lib now userId phone (JWT_SECRET env) (JWT_EXPIRES_IN env).

(** [verifyToken(token)] *)
Definition verifyToken (lib : jsonwebtoken) (env : environment) (now : Z)
    (token : string) : result claims :=
  verify lib now token (JWT_SECRET env).

(** *** A serialisation that satisfies the laws

    The claims and the signature are numbered (they are countable) and
    the number is written in binary. *)
Fixpoint bits (p : positive) : string :=
  match p with
  | xH => "1"
  | xO q => String "0" (bits q)
  | xI q => String "1" (bits q)
  end.

Fixpoint unbits (s : string) : option positive :=
  match s with
  | "1" => Some xH
  | String "0" r => xO <$> unbits r
  | String "1" r => xI <$> unbits r
  | _ => None
  end.

Definition tuple_of (c : claims) (sg : string)
  : string * string * Z * Z * string :=
  (userId c, phone c, iat c, exp c, sg).

Definition of_tuple (t : string * string * Z * Z * string)
  : claims * string :=
  let '(u, p, i, e, sg) := t in (Claims u p i e, sg).

Definition binary_compact (c : claims) (sg : string) : string :=
  bits (encode (tuple_of c sg)).

Definition binary_parse (s : string) : option (claims * string) :=
  p ← unbits s; of_tuple <$> decode p.

Definition binary_hmac (secret : string) (c : claims) : string :=
  bits (encode (secret, tuple_of c "")).

Definition binary : jsonwebtoken :=
  {| hmac := binary_hmac; compact := binary_compact; parse := binary_parse |}.

End Jwt.

(** ** middleware/auth.js *)

Module Auth.

(** [s.split(sep)] for a one-character separator. *)
Fixpoint split (sep : ascii) (s : string) : list string :=
  match s with
  | EmptyString => [""]
  | String c r =>
      if Ascii.eqb c sep then "" :: split sep r
      else match split sep r with
           | h :: t => String c h :: t
           | [] => [String c ""]
           end
  end.

(** [req.user] *)
Record user := User {
  userId : string;
  phone : string
}.

(** [authenticate]: [inr u] is [next()] with [req.user = u]. *)
Definition authenticate (lib : Jwt.jsonwebtoken) (env : environment)
    (now : Z) (authorization : option string) : response + user :=
  match authorization with
  | None | Some "" => inl (failure 401 "Authorization token is required")
  | Some authHeader =>
      match split " " authHeader with
      | [bearer; token] =>
          if negb (String.eqb bearer "Bearer") then
            inl (failure 401
                   "Invalid authorization header format. Use: Bearer <token>")
          else if String.eqb token "" then
            inl (failure 401 "Token is required")
          else
            match Jwt.verifyToken lib env now token with
            | inr decoded =>
                inr {| userId := Jwt.userId decoded;
                       phone := Jwt.phone decoded |}
            | inl error =>
                if String.eqb (err_name error) "TokenExpiredError" then
                  inl (failure 401 "Token has expired. Please login again.")
                else if String.eqb (err_name error) "JsonWebTokenError" then
                  inl (failure 401 "Invalid token")
                else inl (failure 401 "Authentication failed")
            end
      | _ =>
          inl (failure 401
                 "Invalid authorization header format. Use: Bearer <token>")
      end
  end.

End Auth.

(** ** models/User.js (src/unnamed/part_000) and the collection behind it *)

Module Users.

(** A stored document. *)
Abbreviation document := (gmap string value).

(** What mongoose does with the schema of [User] before a write: strict
    filtering, casting and the validators of a new document, and the
    same for the [$set] of an update run with [runValidators]; each
    returns the document to write or throws.  And what it does with the
    id of a query by id: [cast_id] tells whether the string casts to an
    [ObjectId]. *)
Record mongoose := Mongoose {
  cast_document : document -> result document;
  cast_update : document -> result document;
  cast_id : string -> bool
}.

(** [s] between double quotes. *)
Definition quoted (s : string) : string :=
  String (Ascii.ascii_of_nat 34) (s +:+ String (Ascii.ascii_of_nat 34) "").

(** The message of mongoose for a value it cannot cast to the type of
    a path. *)
Definition cast_failed (kind value type path : string) : string :=
  "Cast to " +:+ kind +:+ " failed for value " +:+ quoted value
  +:+ " (type " +:+ type +:+ ") at path " +:+ quoted path.

(** The error it throws when the value is the id of a query. *)
Definition CastError (id : string) : js_error :=
  JsError "CastError"
    (cast_failed "ObjectId" id "string" "_id" +:+ " for model " +:+ quoted "User")
    None None [].

(** The collection, and the number of [ObjectId]s handed out so far. *)
Record database := Database {
  users : list document;
  ids_issued : N
}.

Definition has_string (field s : string) (d : document) : bool :=
  match d !! field with
  | Some v => is_string s v
  | None => false
  end.

(** [User.findOne({ phone })] *)
Definition findOne (phone : string) (db : database) : option document :=
  List.find (has_string "phone" phone) (users db).

(** [User.findById(id)] *)
Definition findById (id : string) (db : database) : option document :=
  List.find (has_string "_id" id) (users db).

(** [new User(fields)]: the document gets its [_id] and the default of
    [joinedDate] when it is constructed. *)
Definition new_User (now : Z) (fields : document) (db : database)
  : document * database :=
  let id := pretty (ids_issued db) in
  (<["_id" := JStr id]> (<["joinedDate" := JDate (Some now)]> fields),
   {| users := users db; ids_issued := N.succ (ids_issued db) |}).

(** The error of the unique index on [phone]. *)
Definition duplicate_key : js_error :=
  JsError "MongoServerError" "E11000 duplicate key error"
    (Some (NumCode 11000)) None [].

(** Another document holds the phone number of [d]. *)
Definition phone_taken (d : document) (others : list document) : bool :=
  match d !! "phone" with
  | Some (JStr p) => existsb (has_string "phone" p) others
  | _ => false
  end.

(** [user.save()] for a new document: validation, then the insert,
    which the unique index on [phone] can refuse. *)
Definition save (m : mongoose) (now : Z) (d : document) (db : database)
  : result document * database :=
  match cast_document m d with
  | inl e => (inl e, db)
  | inr d =>
      if phone_taken d (users db) then (inl duplicate_key, db)
      else
        let stored :=
          <["__v" := JNum 0%float]>
            (<["updatedAt" := JDate (Some now)]>
               (<["createdAt" := JDate (Some now)]> d)) in
        (inr stored,
         {| users := (users db ++ [stored])%list;
            ids_issued := ids_issued db |})
  end.

Definition is_id (id : string) (d : document) : bool := has_string "_id" id d.

(** [User.findByIdAndUpdate(id, { $set: update },
    { new: true, runValidators: true })]: the id is cast first, then the
    update; [inr None] when no document has the id. *)
Definition findByIdAndUpdate (m : mongoose) (now : Z) (id : string)
    (update : document) (db : database)
  : result (option document) * database :=
  if negb (cast_id m id) then (inl (CastError id), db)
  else
  match cast_update m update with
  | inl e => (inl e, db)
  | inr update =>
      match findById id db with
      | None => (inr None, db)
      | Some d =>
          let d' := <["updatedAt" := JDate (Some now)]> (update ∪ d) in
          if phone_taken d' (List.filter (fun x => negb (is_id id x)) (users db))
          then (inl duplicate_key, db)
          else
            (inr (Some d'),
             {| users := (fun x => if is_id id x then d' else x) <$> users db;
                ids_issued := ids_issued db |})
      end
  end.

(** The schema takes the document [d]: validation passes, and the
    document to write holds the phone number [phone] and the [_id] of
    [d]. *)
Definition takes (m : mongoose) (phone : string) (d : document) : Prop :=
  exists d' : document,
    cast_document m d = inr d'
    /\ d' !! "phone" = Some (JStr phone)
    /\ d' !! "_id" = d !! "_id".

(** A schema that takes every document and every update as it is, and
    every id. *)
Definition permissive : mongoose :=
  {| cast_document := inr; cast_update := inr; cast_id := fun _ => true |}.

(** The error of [validate()]: [errors] holds one message per path
    that failed. *)
Definition ValidationError (failed : list (string * string)) : js_error :=
  JsError "ValidationError"
    ("User validation failed: "
     +:+ Js.join ", " ((fun pm => pm.1 +:+ ": " +:+ pm.2) <$> failed))
    None None (snd <$> failed).

(** [required: true] on a [String] path: the value must be a string
    that is not empty. *)
Definition required (path : string) (d : document)
  : list (string * string) :=
  match d !! path with
  | Some (JStr s) =>
      if String.eqb s "" then [(path, "Path `" +:+ path +:+ "` is required.")]
      else []
  | _ => [(path, "Path `" +:+ path +:+ "` is required.")]
  end.

(** A [Date] path does not take the invalid date, nor a [Number] path
    NaN. *)
Definition castable_value (path kind : string) (d : document)
  : list (string * string) :=
  match d !! path with
  | Some (JDate None) => [(path, cast_failed kind "Invalid Date" "Date" path)]
  | Some (JNum x) =>
      if PrimFloat.is_nan x then [(path, cast_failed kind "NaN" "number" path)]
      else []
  | _ => []
  end.

(** A schema with the validators of models/User.js on the paths the
    register handler sets from checked or converted values: [phone] and
    [name] are required, [dateOfBirth] is a [Date], [numberOfChildren] a
    [Number]; a new document that fails is refused with a
    [ValidationError], an update whose value does not cast with a
    [CastError]. It changes no document it takes, and takes every id. *)
Definition strict : mongoose :=
  {| cast_document := fun d =>
       match (required "phone" d ++ required "name" d
              ++ castable_value "dateOfBirth" "date" d
              ++ castable_value "numberOfChildren" "Number" d)%list with
       | [] => inr d
       | failed => inl (ValidationError failed)
       end;
     cast_update := fun d =>
       match (castable_value "dateOfBirth" "date" d
              ++ castable_value "numberOfChildren" "Number" d)%list with
       | [] => inr d
       | failed :: _ => inl (JsError "CastError" failed.2 None None [])
       end;
     cast_id := fun _ => true |}.

(** A [new Date(v)] for the examples below: the string "2001-02-03" is
    the date 981158400000; every other string is taken for no date, as
    "soon" is. *)
Definition new_Date_of (v : value) : value :=
  match v with
  | JStr s => if String.eqb s "2001-02-03" then JDate (Some 981158400000)
              else JDate None
  | JDate ms => JDate ms
  | _ => JDate None
  end.

(** A collection with one profile. *)
Definition one_profile : database :=
  {| users := [ <["_id" := JStr "0"]>
                  (<["phone" := JStr "+919876543210"]>
                     {["name" := JStr "Asha"]}) ];
     ids_issued := 1 |}.

(** [.select('-__v')] followed by [toObject()] *)
Definition select_without_v (d : document) : document := delete "__v" d.

End Users.

(** ** routes/auth.js (src/unnamed/part_002) *)

Module AuthRoutes.

Section Router.

(** The process environment and the packages the router calls. *)
Variable env : environment.
Variable jwt : Jwt.jsonwebtoken.
Variable twilio : TwilioService.provider.
Variable orm : Users.mongoose.
(** [new Date(v)] and [parseInt(v)] *)
Variable new_Date : value -> value.
Variable parseInt : value -> value.

(** [res.status(400).json({ success: false, message })] for what
    [parseTwilioError] returned: [JSON.stringify] leaves out a property
    whose value is a function, and writes [Object.prototype] as an empty
    object. *)
Definition otp_failure (message : TwilioService.message) : response :=
  match message with
  | TwilioService.Text msg => failure 400 msg
  | TwilioService.Member name =>
      if String.eqb name "__proto__" then
        Response 400 (<["message" := JObj []]> {["success" := JBool false]})
      else Response 400 {["success" := JBool false]}
  end.

(** The [catch] block shared by the two OTP handlers. *)
Definition otp_catch (error : js_error) : outcome :=
  if TwilioService.has_code_or_status error then
    Respond (otp_failure (TwilioService.parseTwilioError error))
  else if Js.includes "not configured" (err_message error) then
    Respond (failure 500 "SMS service not configured")
  else NextError error.

(** Handler of [POST /send-otp]. *)
Definition send_otp_handler (phone : string) : outcome :=
  match TwilioService.sendOTP env twilio phone with
  | inr result =>
      if String.eqb (TwilioService.v_status result) "pending" then
        Respond (Response 200
                   (<["message" := JStr "OTP sent successfully"]>
                      {["success" := JBool true]}))
      else Respond (failure 500 "Failed to send OTP. Please try again.")
  | inl error => otp_catch error
  end.

(** [POST /send-otp]: [normalizePhone], [sendOtpValidation],
    [handleValidationErrors], [otpRateLimiter], handler. *)
Definition send_otp (now : Z) (phone : option string)
    (limits : RateLimiter.store) : outcome * RateLimiter.store :=
  let phone := Validators.normalizePhone phone in
  let '(phone, errors) := Validators.sendOtpValidation phone in
  match Validators.handleValidationErrors errors with
  | Some r => (Respond r, limits)
  | None =>
      match RateLimiter.otpRateLimiter now (Some phone) limits with
      | (Next, limits) => (send_otp_handler phone, limits)
      | (answered, limits) => (answered, limits)
      end
  end.

(** [user._id.toString()] *)
Definition id_of (user : Users.document) : result string :=
  match user !! "_id" with
  | Some (JStr id) => inr id
  | _ => inl (JsError "TypeError" "Cannot read properties of undefined"
                None None [])
  end.

(** Handler of [POST /verify-otp]. *)
Definition verify_otp_handler (now : Z) (phone otp : string)
    (db : Users.database) : outcome * Users.database :=
  match TwilioService.verifyOTP env twilio phone otp with
  | inl error => (otp_catch error, db)
  | inr result =>
      if negb (TwilioService.c_valid result)
         || negb (String.eqb (TwilioService.c_status result) "approved")
      then (Respond (failure 400 "Invalid OTP. Please try again."), db)
      else
        match Users.findOne phone db with
        | Some user =>
            match id_of user with
            | inl error => (otp_catch error, db)
            | inr id =>
                let token := Jwt.generateToken jwt env now id phone in
                (Respond (Response 200
                            (<["isNewUser" := JBool false]>
                               (<["token" := JStr token]>
                                  {["success" := JBool true]}))), db)
            end
        | None =>
            (Respond (Response 200
                        (<["isNewUser" := JBool true]>
                           {["success" := JBool true]})), db)
        end
  end.

(** [POST /verify-otp]: [verifyOtpValidation],
    [handleValidationErrors], handler. *)
Definition verify_otp (now : Z) (phone otp : option string)
    (db : Users.database) : outcome * Users.database :=
  let '(phone, otp, errors) := Validators.verifyOtpValidation phone otp in
  match Validators.handleValidationErrors errors with
  | Some r => (Respond r, db)
  | None => verify_otp_handler now phone otp db
  end.

(** The same request sent at each of [times], one after the other. *)
Fixpoint send_otp_each (times : list Z) (phone : option string)
    (limits : RateLimiter.store) : list outcome * RateLimiter.store :=
  match times with
  | [] => ([], limits)
  | now :: rest =>
      let '(o, limits) := send_otp now phone limits in
      let '(os, limits) := send_otp_each rest phone limits in
      (o :: os, limits)
  end.

(** The optional properties the register handler copies as they are. *)
Definition copied_fields : list string :=
  [ "gender"; "aadhaar"; "fatherName"; "motherName";
    "relationshipWithHead"; "gothra"; "education"; "upanayana";
    "maritalStatus"; "occupation"; "occupationDetails"; "annualIncome";
    "taxPayer"; "houseType"; "residenceAddress"; "familyHouse";
    "rationCardType"; "specialPerson" ].

(** [v ? f(v) : null] for the property [k] of [o]. *)
Definition converted (f : value -> value) (o : gmap string value)
    (k : string) : value :=
  match o !! k with
  | Some v => if truthy v then f v else JNull
  | None => JNull
  end.

(** The object passed to [new User(...)]: a property that is
    [undefined] is not set. *)
Definition register_fields (phone name : string)
    (body : gmap string value) : Users.document :=
  <["phone" := JStr phone]>
    (<["name" := JStr name]>
       (<["dateOfBirth" := converted new_Date body "dateOfBirth"]>
          (<["numberOfChildren" := converted parseInt body "numberOfChildren"]>
             (<["isProfileComplete" := JBool true]>
                (filter (fun kv => kv.1 ∈ copied_fields) body))))).

Definition already_exists : response :=
  failure 400 "User with this phone number already exists".

(** The [catch] block of the register handler. *)
Definition register_catch (error : js_error) : outcome :=
  if bool_decide (err_code error = Some (NumCode 11000)) then
    Respond already_exists
  else if String.eqb (err_name error) "ValidationError" then
    Respond (failure 400 (Js.join ", " (err_errors error)))
  else NextError error.

(** Handler of [POST /register-user], up to [await user.save()]: the
    lookup, and the construction of the document when the phone number
    is free. *)
Definition register_lookup (now : Z) (phone name : string)
    (body : gmap string value) (db : Users.database)
  : (outcome + Users.document) * Users.database :=
  match Users.findOne phone db with
  | Some existingUser => (inl (Respond already_exists), db)
  | None =>
      let '(user, db) :=
        Users.new_User now (register_fields phone name body) db in
      (inr user, db)
  end.

(** The rest of the handler: the write and the answer. *)
Definition register_save (now : Z) (phone : string)
    (user : Users.document) (db : Users.database)
  : outcome * Users.database :=
  match Users.save orm now user db with
  | (inl error, db) => (register_catch error, db)
  | (inr saved, db) =>
      match id_of saved with
      | inl error => (register_catch error, db)
      | inr id =>
          let token := Jwt.generateToken jwt env now id phone in
          (Respond (Response 201
                      (<["token" := JStr token]>
                         {["success" := JBool true]})), db)
      end
  end.

(** The handler when nothing else runs between its lookup (at
    [t_lookup]) and its write (at [t_save]). *)
Definition register_user_handler (t_lookup t_save : Z)
    (phone name : string) (body : gmap string value)
    (db : Users.database) : outcome * Users.database :=
  match register_lookup t_lookup phone name body db with
  | (inl answered, db) => (answered, db)
  | (inr user, db) => register_save t_save phone user db
  end.

(** [POST /register-user]: [normalizePhone], [registerUserValidation],
    [handleValidationErrors], handler. *)
Definition register_user (t_lookup t_save : Z) (phone name : option string)
    (body : gmap string value) (db : Users.database)
  : outcome * Users.database :=
  let phone := Validators.normalizePhone phone in
  let '(phone, name, errors) :=
    Validators.registerUserValidation phone name in
  match Validators.handleValidationErrors errors with
  | Some r => (Respond r, db)
  | None => register_user_handler t_lookup t_save phone name body db
  end.

(** *** Two register requests in flight

    A handler runs until it awaits the collection, so two requests
    interleave at their two calls of it: the lookup and the write. *)
Inductive progress :=
| Arrived (phone name : string) (body : gmap string value)
| Saving (phone : string) (user : Users.document)
| Answered (o : outcome).

Definition advance (now : Z) (p : progress) (db : Users.database)
  : progress * Users.database :=
  match p with
  | Arrived phone name body =>
      match register_lookup now phone name body db with
      | (inl answered, db) => (Answered answered, db)
      | (inr user, db) => (Saving phone user, db)
      end
  | Saving phone user =>
      let '(answered, db) := register_save now phone user db in
      (Answered answered, db)
  | Answered _ => (p, db)
  end.

Inductive caller := Earlier | Later.

Global Instance caller_eq_dec : EqDecision caller.
Proof. solve_decision. Defined.

Record in_flight := InFlight {
  collection : Users.database;
  earlier : progress;
  later : progress
}.

(** The event [(who, now)]: the request [who] resumes at [now]. *)
Definition resume (s : in_flight) (ev : caller * Z) : in_flight :=
  match ev.1 with
  | Earlier =>
      let '(p, db) := advance ev.2 (earlier s) (collection s) in
      {| collection := db; earlier := p; later := later s |}
  | Later =>
      let '(p, db) := advance ev.2 (later s) (collection s) in
      {| collection := db; earlier := earlier s; later := p |}
  end.

Definition run (schedule : list (caller * Z)) (s : in_flight) : in_flight :=
  fold_left resume schedule s.

(** The request that reaches its write first: the first to resume for
    the second time. *)
Fixpoint first_to_write (resumed_earlier resumed_later : bool)
    (schedule : list caller) : option caller :=
  match schedule with
  | [] => None
  | Earlier :: rest =>
      if resumed_earlier then Some Earlier
      else first_to_write true resumed_later rest
  | Later :: rest =>
      if resumed_later then Some Later
      else first_to_write resumed_earlier true rest
  end.

Definition other (who : caller) : caller :=
  match who with
  | Earlier => Later
  | Later => Earlier
  end.

Definition progress_of (who : caller) (s : in_flight) : progress :=
  match who with
  | Earlier => earlier s
  | Later => later s
  end.

(** The 201 answer of the register handler. *)
Definition created (o : outcome) : Prop :=
  exists token,
    o = Respond (Response 201
                   (<["token" := JStr token]> {["success" := JBool true]})).

(** The schema takes the document the register handler builds for the
    request, whenever it builds it. *)
Definition storable (phone name : string) (body : gmap string value) : Prop :=
  forall (now : Z) (db : Users.database),
    Users.takes orm phone
      (Users.new_User now (register_fields phone name body) db).1.

(** The answer a request has got, if it has one. *)
Definition answer (p : progress) : option outcome :=
  match p with
  | Answered o => Some o
  | _ => None
  end.

(** Where a register request for [phone] stands: before its lookup, before
    its write (holding a document with an id, which the schema takes),
    answered 201, or answered "already exists". *)
Inductive stage := AtLookup | AtSave | Registered | Refused.

Definition in_stage (phone : string) (g : stage) (p : progress) : Prop :=
  match g with
  | AtLookup =>
      exists name body, p = Arrived phone name body /\ storable phone name body
  | AtSave =>
      exists (user : Users.document) id,
        p = Saving phone user
        /\ Users.takes orm phone user
        /\ user !! "_id" = Some (JStr id)
  | Registered => exists o, p = Answered o /\ created o
  | Refused => p = Answered (Respond already_exists)
  end.

(** Some profile holds the phone number. *)
Definition taken_in (phone : string) (db : Users.database) : bool :=
  match Users.findOne phone db with
  | Some _ => true
  | None => false
  end.

(** The stage a request moves to when it resumes, and whether the phone
    number is taken afterwards. *)
Definition stage_after (taken : bool) (g : stage) : stage * bool :=
  match g, taken with
  | AtLookup, false => (AtSave, false)
  | AtLookup, true => (Refused, true)
  | AtSave, false => (Registered, true)
  | AtSave, true => (Refused, true)
  | Registered, _ => (Registered, taken)
  | Refused, _ => (Refused, taken)
  end.

(** Two requests in flight, reduced to their stages. *)
Record summary := Summary {
  taken : bool;
  stage_earlier : stage;
  stage_later : stage
}.

Definition summary_resume (a : summary) (who : caller) : summary :=
  match who with
  | Earlier =>
      let '(g, t) := stage_after (taken a) (stage_earlier a) in
      {| taken := t; stage_earlier := g; stage_later := stage_later a |}
  | Later =>
      let '(g, t) := stage_after (taken a) (stage_later a) in
      {| taken := t; stage_earlier := stage_earlier a; stage_later := g |}
  end.

Definition summarises (phone : string) (a : summary) (s : in_flight) : Prop :=
  taken_in phone (collection s) = taken a
  /\ in_stage phone (stage_earlier a) (earlier s)
  /\ in_stage phone (stage_later a) (later s).

(** *** [PUT /update-profile] *)

(** The deletions made on the copy of [req.body]. *)
Definition strip_update (body : gmap string value) : gmap string value :=
  let updateData := body in
  let updateData :=
    if truthy_field updateData "phone" then delete "phone" updateData
    else updateData in
  let updateData :=
    if truthy_field updateData "_id" then delete "_id" updateData
    else updateData in
  delete "joinedDate"
    (delete "updatedAt" (delete "createdAt" (delete "__v" updateData))).

(** [updateData.dateOfBirth = new Date(updateData.dateOfBirth)] when the
    property is a non-empty string. *)
Definition parse_dateOfBirth (updateData : gmap string value)
  : gmap string value :=
  match updateData !! "dateOfBirth" with
  | Some (JStr s) =>
      if truthy (JStr s) then <["dateOfBirth" := new_Date (JStr s)]> updateData
      else updateData
  | _ => updateData
  end.

Definition no_fields : response := failure 400 "No fields to update".

(** The [catch] block of the update handler. *)
Definition update_catch (error : js_error) : outcome :=
  if String.eqb (err_name error) "ValidationError" then
    Respond (failure 400
               ("Validation error: " +:+ Js.join ", " (err_errors error)))
  else if String.eqb (err_name error) "CastError" then
    Respond (failure 400 "Invalid user ID")
  else NextError error.

(** [{ success: true, user: userObject }] *)
Definition user_response (user : Users.document) : response :=
  Response 200
    (<["user" := JObj (map_to_list (Users.select_without_v user))]>
       {["success" := JBool true]}).

(** Handler of [PUT /update-profile] for [req.user.userId = userId]. *)
Definition update_profile_handler (now : Z) (userId : string)
    (body : gmap string value) (db : Users.database)
  : outcome * Users.database :=
  let updateData := strip_update body in
  if bool_decide (size updateData = 0%nat) then (Respond no_fields, db)
  else
    let updateData := parse_dateOfBirth updateData in
    match Users.findByIdAndUpdate orm now userId updateData db with
    | (inl error, db) => (update_catch error, db)
    | (inr None, db) => (Respond (failure 404 "User not found"), db)
    | (inr (Some user), db) => (Respond (user_response user), db)
    end.

(** [PUT /update-profile]: [authenticate], handler. *)
Definition update_profile (now : Z) (authorization : option string)
    (body : gmap string value) (db : Users.database)
  : outcome * Users.database :=
  match Auth.authenticate jwt env now authorization with
  | inl r => (Respond r, db)
  | inr user => update_profile_handler now (Auth.userId user) body db
  end.

End Router.

End AuthRoutes.

(** ** routes/auth.js, [GET /me] *)

Module Me.

(** Handler of [GET /me], given what
    [User.findById(userId).select('-__v')] returned or threw. *)
Definition me_handler (found : result (option Users.document)) : outcome :=
  match found with
  | inr None => Respond (failure 404 "User not found")
  | inr (Some user) => Respond (AuthRoutes.user_response user)
  | inl error =>
      if String.eqb (err_name error) "CastError" then
        Respond (failure 400 "Invalid user ID")
      else NextError error
  end.

(** [User.findById(userId).select('-__v')] as the handler awaits it:
    mongoose casts [userId] to an [ObjectId] before it asks the
    collection, and throws a [CastError] for a string that is none. *)
Definition findById (orm : Users.mongoose) (userId : string)
    (db : Users.database) : result (option Users.document) :=
  if Users.cast_id orm userId then inr (Users.findById userId db)
  else inl (Users.CastError userId).

(** [GET /me]: [authenticate], handler. *)
Definition me (jwt : Jwt.jsonwebtoken) (env : environment)
    (orm : Users.mongoose) (now : Z)
    (authorization : option string) (db : Users.database) : outcome :=
  match Auth.authenticate jwt env now authorization with
  | inl r => Respond r
  | inr user => me_handler (findById orm (Auth.userId user) db)
  end.

End Me.

(** ** routes/users.js *)

Module UsersRoutes.

(** The fields of [.select('name phone email occupation residenceAddress
    dateOfBirth')]; an inclusive selection keeps [_id] as well. *)
Definition selected_fields : list string :=
  [ "_id"; "name"; "phone"; "email"; "occupation"; "residenceAddress";
    "dateOfBirth" ].

Definition select_listed (d : Users.document) : Users.document :=
  filter (fun kv => kv.1 ∈ selected_fields) d.

(** [User.find().select(...).sort({ name: 1 }).lean()]; [by_name] is the
    order the database puts the documents in. *)
Definition find_listed (by_name : list Users.document -> list Users.document)
    (db : Users.database) : list Users.document :=
  by_name (select_listed <$> Users.users db).

(** What the handler of [GET /api/users] puts in its 200 answer:
    [users] and [total: users.length]. *)
Definition list_users (by_name : list Users.document -> list Users.document)
    (db : Users.database) : list Users.document * nat :=
  let users := find_listed by_name db in
  (users, length users).

End UsersRoutes.

(** ** routes/health.js (src/unnamed/part_001) *)

Module Health.

(** The object sent by [GET /health]. *)
Record healthCheck := HealthCheck {
  success : bool;
  timestamp : string;
  uptime : float;
  server_status : string;
  server_environment : string;
  database_status : string;
  database_connected : bool
}.

(** The table [dbStatus]. *)
Definition dbStatus (dbState : Z) : option string :=
  if dbState =? 0 then Some "disconnected"
  else if dbState =? 1 then Some "connected"
  else if dbState =? 2 then Some "connecting"
  else if dbState =? 3 then Some "disconnecting"
  else None.

(** The handler: the status code and the object, for the connection state
    [dbState], the clock and uptime readings and [NODE_ENV]. *)
Definition health (dbState : Z) (iso_now : string) (process_uptime : float)
    (NODE_ENV : option string) : Z * healthCheck :=
  let healthCheck :=
    {| success := true;
       timestamp := iso_now;
       uptime := process_uptime;
       server_status := "healthy";
       server_environment := or_else NODE_ENV "development";
       database_status := or_else (dbStatus dbState) "unknown";
       database_connected := dbState =? 1 |} in
  let healthCheck :=
    if negb (dbState =? 1) then
      {| success := success healthCheck;
         timestamp := timestamp healthCheck;
         uptime := uptime healthCheck;
         server_status := "degraded";
         server_environment := server_environment healthCheck;
         database_status := database_status healthCheck;
         database_connected := database_connected healthCheck |}
    else healthCheck in
  (200, healthCheck).

End Health.

(** The test configuration with another signing secret. *)
Definition rotated_env : environment :=
  {| env_TWILIO_ACCOUNT_SID := None;
     env_TWILIO_AUTH_TOKEN := None;
     env_TWILIO_VERIFY_SERVICE_SID := env_TWILIO_VERIFY_SERVICE_SID test_env;
     env_SMS_MODE := Some "test";
     env_JWT_SECRET := Some "rotated-secret";
     env_JWT_EXPIRES_IN := None |}.

(** ** Stated once for the properties below *)

Module Facts.

(** The phone numbers held by the profiles of a collection. *)
Definition phone_of (d : Users.document) : option string :=
  match d !! "phone" with
  | Some (JStr p) => Some p
  | _ => None
  end.

Definition phones (db : Users.database) : list string :=
  omap phone_of (Users.users db).

(** The keys the update handler deletes whatever their value. *)
Definition system_fields : list string :=
  [ "__v"; "createdAt"; "updatedAt"; "joinedDate" ].

(** The keys the register handler reads from the body or sets itself. *)
Definition registered_fields : list string :=
  ([ "phone"; "name"; "dateOfBirth"; "numberOfChildren"; "isProfileComplete" ]
   ++ AuthRoutes.copied_fields)%list.

(** What the limiter keeps of every stored entry: a count from 1 to 4,
    which is 4 exactly when the entry is blocked. *)
Definition well_counted (e : RateLimiter.entry) : Prop :=
  1 <= RateLimiter.count e <= 4
  /\ (RateLimiter.blocked e = true <-> RateLimiter.count e = 4).

(** Checks for one phone number at each of [times], one after the
    other: the outcomes and the map left behind. *)
Fixpoint check_each (times : list Z) (phone : string)
    (st : gmap string RateLimiter.entry)
  : list outcome * gmap string RateLimiter.entry :=
  match times with
  | [] => ([], st)
  | now :: rest =>
      let '(o, st) := RateLimiter.otpRateLimiter now (Some phone) st in
      let '(os, st) := check_each rest phone st in
      (o :: os, st)
  end.

End Facts.

(** * Properties *)

(** ** Rate limiter *)

Lemma otpRateLimiter_policy (now : Z) (phone : string)
    (st : gmap string RateLimiter.entry) :
  phone <> "" ->
  RateLimiter.otpRateLimiter now (Some phone) st =
    (RateLimiter.outcome_of
       (RateLimiter.policy now (Js.strip_non_digits phone) st).1,
     (RateLimiter.policy now (Js.strip_non_digits phone) st).2).
Proof.
  intros Hphone. destruct phone as [|c phone]; [congruence|].
  unfold RateLimiter.otpRateLimiter, RateLimiter.policy, RateLimiter.standing_of.
  set (key := Js.strip_non_digits (String c phone)).
  destruct (st !! key) as [e|] eqn:Hkey; [|reflexivity].
  destruct (Z.ltb_spec (RateLimiter.resetTime e) now) as [Hlt|Hge].
  - rewrite bool_decide_eq_true_2 by lia. reflexivity.
  - rewrite bool_decide_eq_false_2 by lia.
    destruct (RateLimiter.blocked e) eqn:Hb; [reflexivity|].
    cbn [RateLimiter.count RateLimiter.maxAttempts RateLimiter.RATE_LIMIT_CONFIG
         RateLimiter.resetTime RateLimiter.blockDurationMs].
    destruct (Z.ltb_spec 3 (RateLimiter.count e + 1)) as [Hc|Hc].
    + rewrite bool_decide_eq_true_2 by lia. reflexivity.
    + rewrite bool_decide_eq_false_2 by lia. reflexivity.
Qed.

Lemma ceil_div_least (a : Z) :
  1000 * (Js.ceil_div a 1000 - 1) < a <= 1000 * Js.ceil_div a 1000.
Proof.
  unfold Js.ceil_div.
  pose proof (Z.div_mod (- a) 1000 ltac:(lia)).
  pose proof (Z.mod_pos_bound (- a) 1000 ltac:(lia)). lia.
Qed.

Lemma otpRateLimiter_empty_phone (now : Z) (st : gmap string RateLimiter.entry) :
  RateLimiter.otpRateLimiter now (Some "") st = (Next, st).
Proof. reflexivity. Qed.

(** C1: for a request that carries a phone number, the middleware is the
    reference policy on the digits of the number: a missing or lapsed
    entry is replaced by a fresh one (count 1, 60 seconds) and the request
    passes; a blocked entry within its window answers 429 with
    [ceil((resetTime - now) / 1000)] seconds (the least integer that is at
    least the quotient); otherwise the count grows by
    one, and above 3 the entry becomes blocked for 300 seconds and the
    request is refused, else it passes with the new count stored.  An
    entry created at [T] is replaced at any check after [T + 60000]
    without a sweep. *)
Theorem C1_limiter_is_reference_policy (now : Z) (phone : string)
    (st : gmap string RateLimiter.entry) :
  phone <> "" ->
  let identifier := Js.strip_non_digits phone in
  let fresh := RateLimiter.Entry 1 (now + 60000) false in
  RateLimiter.otpRateLimiter now (Some phone) st =
    (RateLimiter.outcome_of (RateLimiter.policy now identifier st).1,
     (RateLimiter.policy now identifier st).2)
  /\ (forall e, st !! identifier = Some e -> RateLimiter.resetTime e < now ->
        RateLimiter.otpRateLimiter now (Some phone) st =
          (Next, <[identifier := fresh]> st))
  /\ (forall T, st !! identifier = None -> T + 60000 < now ->
        let st1 := (RateLimiter.otpRateLimiter T (Some phone) st).2 in
        RateLimiter.otpRateLimiter now (Some phone) st1 =
          (Next, <[identifier := fresh]> st1))
  /\ (forall a, 1000 * (Js.ceil_div a 1000 - 1) < a <= 1000 * Js.ceil_div a 1000).
Proof.
  intros Hphone identifier fresh. split; [|split; [|split]]; [| | |apply ceil_div_least].
  - apply otpRateLimiter_policy, Hphone.
  - intros e He Hlt. rewrite otpRateLimiter_policy by exact Hphone.
    unfold RateLimiter.policy, RateLimiter.standing_of. fold identifier.
    rewrite He. destruct (Z.ltb_spec (RateLimiter.resetTime e) now); [reflexivity|lia].
  - intros T Hnone HT st1.
    assert (Hst1 : st1 !! identifier = Some (RateLimiter.Entry 1 (T + 60000) false)).
    { subst st1. rewrite otpRateLimiter_policy by exact Hphone.
      unfold RateLimiter.policy, RateLimiter.standing_of. fold identifier.
      rewrite Hnone. cbn. apply lookup_insert_eq. }
    rewrite otpRateLimiter_policy by exact Hphone.
    unfold RateLimiter.policy, RateLimiter.standing_of. fold identifier.
    rewrite Hst1. cbn [RateLimiter.resetTime].
    destruct (Z.ltb_spec (T + 60000) now); [reflexivity|lia].
Qed.

Lemma C1_limiter_is_reference_policy_witness :
  "+919876543210" <> ""
  /\ RateLimiter.otpRateLimiter 301000 (Some "+919876543210")
       {[ "919876543210" := RateLimiter.Entry 4 600000 true ]}
     = (Respond (failure 429
          "Too many requests. Please try again in 299 seconds."),
        {[ "919876543210" := RateLimiter.Entry 4 600000 true ]}).
Proof.
  split; [discriminate|].
  refine (eq_trans
    (proj1 (C1_limiter_is_reference_policy 301000 "+919876543210"
              {[ "919876543210" := RateLimiter.Entry 4 600000 true ]} _)) _);
    [discriminate|reflexivity].
Defined.

Lemma policy_lookup_ne (now : Z) (id k : string)
    (st : gmap string RateLimiter.entry) :
  id <> k -> (RateLimiter.policy now id st).2 !! k = st !! k.
Proof.
  intros Hne. unfold RateLimiter.policy.
  destruct (RateLimiter.standing_of now (st !! id)) as [| |e|e]; cbn;
    [by rewrite lookup_insert_ne..|reflexivity|].
  destruct (3 <? _); cbn; by rewrite lookup_insert_ne.
Qed.

Lemma policy_counts_positive (now : Z) (id : string)
    (st : gmap string RateLimiter.entry) :
  RateLimiter.counts_positive st -> RateLimiter.counts_positive (RateLimiter.policy now id st).2.
Proof.
  intros Hst k e'. destruct (decide (id = k)) as [->|Hne].
  - unfold RateLimiter.policy, RateLimiter.standing_of.
    destruct (st !! k) as [e|] eqn:Hk; cbn.
    + specialize (Hst k e Hk).
      destruct (_ <? now); cbn; [rewrite lookup_insert_eq; intros [= <-]; cbn; lia|].
      destruct (RateLimiter.blocked e); cbn; [rewrite Hk; intros [= <-]; exact Hst|].
      destruct (3 <? _); cbn; rewrite lookup_insert_eq; intros [= <-]; cbn; lia.
    + rewrite lookup_insert_eq. intros [= <-]. cbn. lia.
  - rewrite policy_lookup_ne by exact Hne. apply Hst.
Qed.

Lemma apply_op_counts_positive (o : RateLimiter.op)
    (st : gmap string RateLimiter.entry) :
  RateLimiter.counts_positive st -> RateLimiter.counts_positive (RateLimiter.apply_op o st).
Proof.
  intros Hst. destruct o as [now phone|now]; cbn [RateLimiter.apply_op].
  - destruct (decide (phone = "")) as [->|Hphone]; [exact Hst|].
    rewrite otpRateLimiter_policy by exact Hphone. cbn [snd].
    by apply policy_counts_positive.
  - intros k e [Hk _]%map_lookup_filter_Some. by apply (Hst k).
Qed.

Lemma reachable_counts_positive (st : gmap string RateLimiter.entry) :
  RateLimiter.reachable st -> RateLimiter.counts_positive st.
Proof.
  induction 1 as [|o st _ IH].
  - intros k e Hk. by rewrite lookup_empty in Hk.
  - by apply apply_op_counts_positive.
Qed.

(** What one operation at time [now] may do to an entry [e] that is
    blocked: leave it, or (only after its [resetTime]) replace it by a
    fresh entry or delete it. *)
Lemma blocked_entry_step (o : RateLimiter.op) (k : string)
    (e : RateLimiter.entry) (st : gmap string RateLimiter.entry) :
  st !! k = Some e -> RateLimiter.blocked e = true ->
  RateLimiter.apply_op o st !! k = Some e
  \/ RateLimiter.resetTime e < RateLimiter.op_time o
     /\ (RateLimiter.apply_op o st !! k = None
         \/ RateLimiter.apply_op o st !! k =
              Some (RateLimiter.Entry 1 (RateLimiter.op_time o + 60000) false)).
Proof.
  intros Hk Hb.
  destruct o as [now phone|now]; cbn [RateLimiter.apply_op RateLimiter.op_time].
  - destruct (decide (phone = "")) as [->|Hphone]; [by left|].
    rewrite otpRateLimiter_policy by exact Hphone. cbn [snd].
    destruct (decide (Js.strip_non_digits phone = k)) as [->|Hne].
    + unfold RateLimiter.policy, RateLimiter.standing_of. rewrite Hk, Hb.
      destruct (Z.ltb_spec (RateLimiter.resetTime e) now); cbn.
      * right. split; [lia|]. right. apply lookup_insert_eq.
      * by left.
    + left. by rewrite policy_lookup_ne.
  - unfold RateLimiter.cleanupExpiredEntries.
    destruct (decide (RateLimiter.expired now e)) as [Hex|Hex].
    + right. unfold RateLimiter.expired in Hex. split; [lia|]. left.
      apply map_lookup_filter_None. right. intros x Hx. cbn.
      assert (x = e) as -> by congruence. tauto.
    + left. apply map_lookup_filter_Some. by split.
Qed.

(** C9: every entry of a map the limiter can hold has a count of at least
    1; and a check or a sweep leaves a blocked entry as it is (same count,
    still blocked) unless its [resetTime] has passed, in which case the
    entry may also be replaced by a fresh, unblocked entry of count 1 or be
    deleted.  In particular no operation within the block window changes
    the entry. *)
Theorem C9_count_positive_and_block_holds (o : RateLimiter.op) (k : string)
    (e : RateLimiter.entry) (st : gmap string RateLimiter.entry) :
  RateLimiter.reachable st ->
  st !! k = Some e ->
  1 <= RateLimiter.count e
  /\ (forall e', RateLimiter.apply_op o st !! k = Some e' ->
        1 <= RateLimiter.count e')
  /\ (RateLimiter.blocked e = true ->
        (RateLimiter.op_time o <= RateLimiter.resetTime e ->
           RateLimiter.apply_op o st !! k = Some e)
        /\ (forall e', RateLimiter.apply_op o st !! k = Some e' ->
              e' = e
              \/ RateLimiter.resetTime e < RateLimiter.op_time o
                 /\ e' = RateLimiter.Entry 1 (RateLimiter.op_time o + 60000) false)
        /\ (RateLimiter.apply_op o st !! k = None ->
              RateLimiter.resetTime e < RateLimiter.op_time o)).
Proof.
  intros Hreach Hk. split; [|split].
  - by apply (reachable_counts_positive st Hreach k).
  - intros e'. apply (apply_op_counts_positive o st).
    by apply reachable_counts_positive.
  - intros Hb. pose proof (blocked_entry_step o k e st Hk Hb) as Hstep.
    split; [|split].
    + intros Hle. destruct Hstep as [H|[Hlt _]]; [exact H|lia].
    + intros e' He'. destruct Hstep as [H|[Hlt [H|H]]].
      * left. congruence.
      * congruence.
      * right. split; [exact Hlt|congruence].
    + intros Hnone. destruct Hstep as [H|[Hlt _]]; [congruence|exact Hlt].
Qed.

Lemma C9_count_positive_and_block_holds_witness :
  RateLimiter.blocked_example !! "919876543210" = Some (RateLimiter.Entry 4 330000 true)
  /\ RateLimiter.apply_op (RateLimiter.Check 40000 "+919876543210")
       RateLimiter.blocked_example !! "919876543210"
     = Some (RateLimiter.Entry 4 330000 true).
Proof.
  assert (Hk : RateLimiter.blocked_example !! "919876543210"
               = Some (RateLimiter.Entry 4 330000 true)) by (vm_compute; reflexivity).
  split; [exact Hk|].
  refine (proj1 (proj2 (proj2
    (C9_count_positive_and_block_holds
       (RateLimiter.Check 40000 "+919876543210") "919876543210"
       (RateLimiter.Entry 4 330000 true) RateLimiter.blocked_example _ Hk)) eq_refl) _).
  - unfold RateLimiter.blocked_example. repeat apply RateLimiter.reachable_step.
    apply RateLimiter.reachable_empty.
  - cbn. lia.
Defined.

(** ** Send-code end to end *)

Lemma policy_fresh (now : Z) (id : string) (st : gmap string RateLimiter.entry) :
  (forall e, st !! id = Some e -> RateLimiter.resetTime e < now) ->
  RateLimiter.policy now id st =
    (RateLimiter.Allow, <[id := RateLimiter.Entry 1 (now + 60000) false]> st).
Proof.
  intros Hlapsed. unfold RateLimiter.policy, RateLimiter.standing_of.
  destruct (st !! id) as [e|]; [|reflexivity].
  specialize (Hlapsed e eq_refl).
  destruct (Z.ltb_spec (RateLimiter.resetTime e) now); [reflexivity|lia].
Qed.

Lemma policy_counting (now c r : Z) (id : string)
    (st : gmap string RateLimiter.entry) :
  st !! id = Some (RateLimiter.Entry c r false) -> now <= r ->
  RateLimiter.policy now id st =
    if 3 <? c + 1
    then (RateLimiter.DenyExceeded,
          <[id := RateLimiter.Entry (c + 1) (now + 300000) true]> st)
    else (RateLimiter.Allow, <[id := RateLimiter.Entry (c + 1) r false]> st).
Proof.
  intros Hid Hle. unfold RateLimiter.policy, RateLimiter.standing_of.
  rewrite Hid. cbn.
  destruct (Z.ltb_spec r now); [lia|reflexivity].
Qed.

(** The route for a request whose phone number passes validation and for
    which the gateway reports [pending]. *)
Lemma send_otp_accepted (env : environment) (twilio : TwilioService.provider)
    (now : Z) (phone : option string) (p : string)
    (limits : gmap string RateLimiter.entry) :
  Validators.sendOtpValidation (Validators.normalizePhone phone) = (p, []) ->
  (exists v, TwilioService.sendOTP env twilio p = inr v
             /\ TwilioService.v_status v = "pending") ->
  exists ok,
    AuthRoutes.send_otp env twilio now phone limits =
      (match (RateLimiter.policy now (Js.strip_non_digits p) limits).1 with
       | RateLimiter.Allow => Respond (Response 200 ok)
       | v => RateLimiter.outcome_of v
       end,
       (RateLimiter.policy now (Js.strip_non_digits p) limits).2).
Proof.
  intros Hvalid (v & Hsend & Hpending).
  exists (<["message" := JStr "OTP sent successfully"]> {["success" := JBool true]}).
  assert (Hp : p <> "").
  { intros ->. unfold Validators.sendOtpValidation in Hvalid.
    injection Hvalid as Hs He. rewrite Hs in He. discriminate He. }
  unfold AuthRoutes.send_otp. rewrite Hvalid. cbn [Validators.handleValidationErrors].
  rewrite otpRateLimiter_policy by exact Hp.
  destruct (RateLimiter.policy now (Js.strip_non_digits p) limits) as [[|s|] st'];
    cbn; try reflexivity.
  unfold AuthRoutes.send_otp_handler. rewrite Hsend, Hpending. reflexivity.
Qed.

(** C2, as the code has it: with a phone number that passes validation, a
    gateway that reports [pending] and no live entry for the number, four
    requests within the minute that the first one opens are answered 200,
    200, 200 and 429, and a request more than 300 seconds after the
    refusal is answered 200 again. *)
Theorem C2_fourth_request_is_refused (env : environment)
    (twilio : TwilioService.provider) (phone : option string) (p : string)
    (t1 t2 t3 t4 t5 : Z) (limits : gmap string RateLimiter.entry) :
  Validators.sendOtpValidation (Validators.normalizePhone phone) = (p, []) ->
  (exists v, TwilioService.sendOTP env twilio p = inr v
             /\ TwilioService.v_status v = "pending") ->
  (forall e, limits !! Js.strip_non_digits p = Some e ->
             RateLimiter.resetTime e < t1) ->
  t1 <= t2 <= t3 -> t3 <= t4 <= t1 + 60000 -> t4 + 300000 < t5 ->
  status_of <$> (AuthRoutes.send_otp_each env twilio [t1; t2; t3; t4; t5]
                   phone limits).1
  = [Some 200; Some 200; Some 200; Some 429; Some 200].
Proof.
  intros Hvalid Hgate Hfree H123 H34 H5.
  set (id := Js.strip_non_digits p) in *.
  pose proof (fun now st => send_otp_accepted env twilio now phone p st Hvalid Hgate)
    as Hroute. fold id in Hroute.
  cbn [AuthRoutes.send_otp_each].
  destruct (Hroute t1 limits) as [ok1 ->].
  rewrite (policy_fresh t1 id limits Hfree). cbn [fst snd].
  set (st1 := <[id:=_]> limits).
  destruct (Hroute t2 st1) as [ok2 ->].
  rewrite (policy_counting t2 1 (t1 + 60000) id st1)
    by (try apply lookup_insert_eq; lia).
  change (3 <? 1 + 1) with false. cbn [fst snd].
  set (st2 := <[id:=_]> st1).
  destruct (Hroute t3 st2) as [ok3 ->].
  rewrite (policy_counting t3 2 (t1 + 60000) id st2)
    by (try apply lookup_insert_eq; lia).
  change (3 <? 2 + 1) with false. cbn [fst snd].
  set (st3 := <[id:=_]> st2).
  destruct (Hroute t4 st3) as [ok4 ->].
  rewrite (policy_counting t4 3 (t1 + 60000) id st3)
    by (try apply lookup_insert_eq; lia).
  change (3 <? 3 + 1) with true. cbn [fst snd].
  set (st4 := <[id:=_]> st3).
  destruct (Hroute t5 st4) as [ok5 ->].
  rewrite (policy_fresh t5 id st4).
  - reflexivity.
  - intros e. subst st4. rewrite lookup_insert_eq. intros [= <-]. cbn. lia.
Qed.

Lemma C2_fourth_request_is_refused_witness :
  status_of <$> (AuthRoutes.send_otp_each test_env TwilioService.unreachable
                   [0; 20000; 40000; 50000; 351000]
                   (Some "98765 43210") ∅).1
  = [Some 200; Some 200; Some 200; Some 429; Some 200].
Proof.
  apply (C2_fourth_request_is_refused test_env TwilioService.unreachable
           (Some "98765 43210") "+919876543210" 0 20000 40000 50000 351000 ∅).
  - vm_compute. reflexivity.
  - eexists. split; reflexivity.
  - intros e He. rewrite lookup_empty in He. discriminate He.
  - lia.
  - lia.
  - lia.
Defined.

(** C2 as stated fails: the third request within the minute is answered
    200, not 429. *)
Lemma C2_third_request_is_accepted :
  status_of <$> (AuthRoutes.send_otp_each test_env TwilioService.unreachable
                   [0; 20000; 40000; 341000]
                   (Some "+919876543210") ∅).1
  = [Some 200; Some 200; Some 200; Some 200]
  /\ status_of <$> (AuthRoutes.send_otp_each test_env TwilioService.unreachable
                      [0; 20000; 40000; 341000]
                      (Some "+919876543210") ∅).1
     <> [Some 200; Some 200; Some 429; Some 200].
Proof.
  assert (H : status_of <$> (AuthRoutes.send_otp_each test_env
                TwilioService.unreachable [0; 20000; 40000; 341000]
                (Some "+919876543210") ∅).1
              = [Some 200; Some 200; Some 200; Some 200])
    by (vm_compute; reflexivity).
  split; [exact H|]. rewrite H. discriminate.
Qed.

(** ** Phone normalization *)

Lemma filter_chars_all (keep : ascii -> bool) (s : string) :
  Js.all_chars keep s = true -> Js.filter_chars keep s = s.
Proof.
  induction s as [|c s IH]; cbn; [reflexivity|].
  intros [Hc Hs]%andb_true_iff. rewrite Hc. f_equal. by apply IH.
Qed.

Lemma all_chars_filter (keep : ascii -> bool) (s : string) :
  Js.all_chars keep (Js.filter_chars keep s) = true.
Proof.
  induction s as [|c s IH]; cbn; [reflexivity|].
  destruct (keep c) eqn:Hc; cbn; [by rewrite Hc|exact IH].
Qed.

Lemma all_chars_weaken (p q : ascii -> bool) (s : string) :
  (forall c, p c = true -> q c = true) ->
  Js.all_chars p s = true -> Js.all_chars q s = true.
Proof.
  intros Hpq. induction s as [|c s IH]; cbn; [reflexivity|].
  intros [Hc Hs]%andb_true_iff. rewrite (Hpq c Hc). by apply IH.
Qed.

Lemma strip_non_digits_plus_idem (s : string) :
  Js.strip_non_digits_plus (Js.strip_non_digits_plus s) = Js.strip_non_digits_plus s.
Proof. apply filter_chars_all, all_chars_filter. Qed.

Lemma is_6_to_9_digit (c : ascii) : Js.is_6_to_9 c = true -> Js.is_digit c = true.
Proof.
  unfold Js.is_6_to_9, Js.is_digit.
  intros [H1 H2]%andb_true_iff. apply andb_true_iff.
  apply N.leb_le in H1. split; [apply N.leb_le; lia|exact H2].
Qed.

(** A string matched by [/^[6-9]\d{9}$/] has ten characters, all digits,
    and does not begin with a plus sign or with ["+91"]. *)
Lemma matches_mobile_shape (n : string) :
  Js.matches_mobile n = true ->
  Js.len n = 10
  /\ Js.all_chars Js.is_digit n = true
  /\ Js.startsWith "+91" n = false.
Proof.
  destruct n as [|c r]; [discriminate|]. cbn [Js.matches_mobile].
  intros [[Hc Hlen]%andb_true_iff Hr]%andb_true_iff.
  apply Nat.eqb_eq in Hlen. split; [|split].
  - unfold Js.len. cbn [String.length]. lia.
  - cbn. by rewrite (is_6_to_9_digit c Hc), Hr.
  - unfold Js.startsWith. cbn [String.prefix].
    destruct (Ascii.ascii_dec "+" c) as [<-|]; [discriminate Hc|reflexivity].
Qed.

Lemma strip_digits_id (n : string) :
  Js.all_chars Js.is_digit n = true -> Js.strip_non_digits_plus n = n.
Proof.
  intros Hn. apply filter_chars_all.
  apply (all_chars_weaken Js.is_digit); [|exact Hn].
  intros c ->. reflexivity.
Qed.

Lemma normalizePhone_idempotent (p : option string) :
  Validators.normalizePhone (Validators.normalizePhone p) = Validators.normalizePhone p.
Proof.
  destruct p as [[|c s]|]; [reflexivity| |reflexivity].
  cbn [Validators.normalizePhone].
  set (q := Js.strip_non_digits_plus (String c s)).
  assert (Hq : Js.strip_non_digits_plus q = q) by apply strip_non_digits_plus_idem.
  clearbody q.
  destruct (Js.startsWith "+91" q) eqn:H91; cbn [negb].
  - destruct q as [|c' q']; [discriminate H91|].
    cbn [Validators.normalizePhone]. rewrite Hq, H91. reflexivity.
  - destruct (Js.startsWith "91" q && (Js.len q =? 12)) eqn:H12.
    + apply andb_true_iff in H12 as [H12 _].
      change ("+" +:+ q) with (String "+" q).
      cbn [Validators.normalizePhone].
      change (Js.strip_non_digits_plus (String "+" q))
        with (String "+" (Js.strip_non_digits_plus q)).
      rewrite Hq.
      change (Js.startsWith "+91" (String "+" q)) with (Js.startsWith "91" q).
      rewrite H12. reflexivity.
    + destruct (Js.len q =? 10) eqn:H10.
      * change ("+91" +:+ q) with (String "+" (String "9" (String "1" q))).
        cbn [Validators.normalizePhone].
        change (Js.strip_non_digits_plus (String "+" (String "9" (String "1" q))))
          with (String "+" (String "9" (String "1" (Js.strip_non_digits_plus q)))).
        rewrite Hq.
        change (Js.startsWith "+91" (String "+" (String "9" (String "1" q))))
          with (String.prefix "" q).
        destruct q; reflexivity.
      * destruct q as [|c' q']; [reflexivity|].
        cbn [Validators.normalizePhone]. rewrite Hq, H91, H12, H10. reflexivity.
Qed.

(** C7: every way of writing an Indian mobile number [n] (ten digits, the
    first of them 6 to 9) -- bare, with 91 or with +91 in front, with any
    separators that are neither digits nor plus signs -- is normalized to
    ["+91" ++ n], which is +91 followed by ten digits starting with 6 to 9;
    the three spellings of 9876543210 give ["+919876543210"]; and
    normalizing twice is normalizing once. *)
Theorem C7_normalizePhone_canonical (s n : string) :
  Js.matches_mobile n = true ->
  Js.strip_non_digits_plus s = n
  \/ Js.strip_non_digits_plus s = "91" +:+ n
  \/ Js.strip_non_digits_plus s = "+91" +:+ n ->
  Validators.normalizePhone (Some s) = Some ("+91" +:+ n)
  /\ Js.matches_plus91_mobile ("+91" +:+ n) = true
  /\ Validators.normalizePhone (Some ("+91" +:+ n)) = Some ("+91" +:+ n)
  /\ Validators.normalizePhone (Some "9876543210") = Some "+919876543210"
  /\ Validators.normalizePhone (Some "919876543210") = Some "+919876543210"
  /\ Validators.normalizePhone (Some "+919876543210") = Some "+919876543210"
  /\ (forall p, Validators.normalizePhone (Validators.normalizePhone p)
                = Validators.normalizePhone p).
Proof.
  intros Hn Hs.
  destruct (matches_mobile_shape n Hn) as (Hlen & Hdigits & Hplus).
  assert (Hcanon : forall s', s' <> "" ->
            Js.strip_non_digits_plus s' = n
            \/ Js.strip_non_digits_plus s' = "91" +:+ n
            \/ Js.strip_non_digits_plus s' = "+91" +:+ n ->
            Validators.normalizePhone (Some s') = Some ("+91" +:+ n)).
  { intros [|c s'] Hne Hs'; [congruence|].
    cbn [Validators.normalizePhone].
    destruct Hs' as [->|[->| ->]].
    - rewrite Hplus. cbn [negb]. rewrite Hlen. cbn [Z.eqb Pos.eqb].
      rewrite andb_false_r. reflexivity.
    - change (Js.startsWith "+91" ("91" +:+ n)) with false. cbn [negb].
      change (Js.startsWith "91" ("91" +:+ n)) with (String.prefix "" n).
      assert (Hl : Js.len ("91" +:+ n) = 12).
      { unfold Js.len in *. change ("91" +:+ n) with (String "9" (String "1" n)).
        cbn [String.length]. lia. }
      rewrite Hl. destruct n; reflexivity.
    - change (Js.startsWith "+91" ("+91" +:+ n)) with (String.prefix "" n).
      destruct n; reflexivity. }
  assert (Hne : s <> "").
  { intros ->. cbn in Hs. destruct n; [discriminate Hn|].
    destruct Hs as [Hs|[Hs|Hs]]; discriminate Hs. }
  split; [exact (Hcanon s Hne Hs)|].
  split; [exact Hn|].
  split.
  { apply Hcanon; [discriminate|]. right. right.
    change (Js.strip_non_digits_plus ("+91" +:+ n))
      with ("+91" +:+ Js.strip_non_digits_plus n).
    by rewrite strip_digits_id. }
  repeat split; try reflexivity.
  apply normalizePhone_idempotent.
Qed.

Lemma C7_normalizePhone_canonical_witness :
  Validators.normalizePhone (Some "(+91) 98765-43210") = Some "+919876543210".
Proof.
  refine (proj1 (C7_normalizePhone_canonical "(+91) 98765-43210" "9876543210" _ _)).
  - reflexivity.
  - right. right. reflexivity.
Defined.

(** ** Verify-code *)

Lemma verifyOTP_test_mode (env : environment) (twilio : TwilioService.provider)
    (phone otp : string) :
  unset (env_TWILIO_VERIFY_SERVICE_SID env) = false ->
  env_SMS_MODE env = Some "test" ->
  TwilioService.verifyOTP env twilio phone otp =
    inr (if Js.matches_six_digits otp
         then TwilioService.VerificationCheck "approved" true
         else TwilioService.VerificationCheck "pending" false).
Proof.
  intros Hsid Hmode. unfold TwilioService.verifyOTP. rewrite Hsid, Hmode. cbn.
  unfold Js.matches_six_digits, Js.len.
  destruct (Nat.eqb_spec (String.length otp) 6) as [->|Hlen]; cbn.
  - destruct (Js.all_chars Js.is_digit otp); reflexivity.
  - destruct (Z.eqb_spec (Z.of_nat (String.length otp)) 6); [lia|reflexivity].
Qed.

(** The endpoint answers 400 for every submitted code that is not six
    decimal digits once trimmed: its validators refuse it. *)
Lemma verify_otp_refuses (env : environment) (jwt : Jwt.jsonwebtoken)
    (twilio : TwilioService.provider) (now : Z) (phone otp : option string)
    (db : Users.database) :
  Js.matches_six_digits (Validators.sanitized otp) = false ->
  status_of (AuthRoutes.verify_otp env jwt twilio now phone otp db).1 = Some 400.
Proof.
  intros Hotp. unfold AuthRoutes.verify_otp, Validators.verifyOtpValidation.
  rewrite Hotp.
  destruct (Validators.notEmpty (Validators.sanitized phone)),
    (Js.matches_plus91_mobile (Validators.sanitized phone)),
    (Validators.notEmpty (Validators.sanitized otp)),
    (Js.len (Validators.sanitized otp) =? 6); reflexivity.
Qed.

(** C8, as the code has it: in test mode with the service identifier
    configured the result of [verifyOTP] depends on the code alone:
    approved and valid when the code is six decimal digits, pending and
    not valid otherwise, whatever the provider and the phone number; a
    code that is not valid makes the verify-code handler answer 400; the
    endpoint, which trims the submitted code first, answers 400 for every
    code that is not six decimal digits once trimmed; "123456" is approved
    while "12a456" and "12345" are answered 400. *)
Theorem C8_test_mode_verification (env : environment)
    (twilio : TwilioService.provider) (phone otp : string) :
  unset (env_TWILIO_VERIFY_SERVICE_SID env) = false ->
  env_SMS_MODE env = Some "test" ->
  TwilioService.verifyOTP env twilio phone otp =
    inr (if Js.matches_six_digits otp
         then TwilioService.VerificationCheck "approved" true
         else TwilioService.VerificationCheck "pending" false)
  /\ (forall twilio' phone',
        TwilioService.verifyOTP env twilio' phone' otp =
        TwilioService.verifyOTP env twilio phone otp)
  /\ (Js.matches_six_digits otp = false ->
      forall jwt now db,
        AuthRoutes.verify_otp_handler env jwt twilio now phone otp db =
          (Respond (failure 400 "Invalid OTP. Please try again."), db))
  /\ (forall jwt now submitted_phone submitted db,
        Js.matches_six_digits (Validators.sanitized submitted) = false ->
        status_of (AuthRoutes.verify_otp env jwt twilio now
                     submitted_phone submitted db).1 = Some 400)
  /\ Js.matches_six_digits "123456" = true
  /\ Js.matches_six_digits "12a456" = false
  /\ Js.matches_six_digits "12345" = false.
Proof.
  intros Hsid Hmode. split; [|split; [|split; [|split]]].
  - by apply verifyOTP_test_mode.
  - intros twilio' phone'. by rewrite !verifyOTP_test_mode.
  - intros Hotp jwt now db. unfold AuthRoutes.verify_otp_handler.
    rewrite verifyOTP_test_mode, Hotp by assumption. reflexivity.
  - intros jwt now submitted_phone submitted db. apply verify_otp_refuses.
  - repeat split.
Qed.

Lemma C8_test_mode_verification_witness :
  TwilioService.verifyOTP test_env TwilioService.unreachable
    "+919876543210" "123456"
  = inr (TwilioService.VerificationCheck "approved" true).
Proof.
  refine (proj1 (C8_test_mode_verification test_env TwilioService.unreachable
                   "+919876543210" "123456" _ _)); reflexivity.
Defined.

(** C8 as stated fails: in test mode without the service identifier the
    six-digit code "123456" is not reported approved; [verifyOTP] throws
    and the endpoint answers 500.  And with the identifier, the submitted
    code " 123456", which is not six decimal digits, is answered 200: the
    validator has trimmed it. *)
Lemma C8_test_mode_without_service_id :
  env_SMS_MODE test_env_without_service = Some "test"
  /\ Js.matches_six_digits "123456" = true
  /\ TwilioService.verifyOTP test_env_without_service TwilioService.unreachable
       "+919876543210" "123456"
     = inl (Error "Twilio Verify Service SID not configured")
  /\ TwilioService.verifyOTP test_env_without_service TwilioService.unreachable
       "+919876543210" "123456"
     <> inr (TwilioService.VerificationCheck "approved" true)
  /\ (AuthRoutes.verify_otp test_env_without_service Jwt.binary
        TwilioService.unreachable 1700000000000
        (Some "+919876543210") (Some "123456") (Users.Database [] 0)).1
     = Respond (failure 500 "SMS service not configured")
  /\ Js.matches_six_digits " 123456" = false
  /\ status_of
       (AuthRoutes.verify_otp test_env Jwt.binary TwilioService.unreachable
          1700000000000 (Some "+919876543210") (Some " 123456")
          (Users.Database [] 0)).1
     = Some 200.
Proof. repeat split; try reflexivity. discriminate. Qed.

(** C6: when the gateway reports the code approved, the verify-code
    handler answers 200 with [token] (issued for the id of the profile
    that holds the phone number) and [isNewUser: false] if such a profile
    exists, and with [isNewUser: true] and no [token] otherwise; in both
    cases the collection is returned as it was. *)
Theorem C6_verify_otp_approved (env : environment) (jwt : Jwt.jsonwebtoken)
    (twilio : TwilioService.provider) (now : Z) (phone otp : string)
    (db : Users.database) (result : TwilioService.verification_check) :
  TwilioService.verifyOTP env twilio phone otp = inr result ->
  TwilioService.c_valid result = true ->
  TwilioService.c_status result = "approved" ->
  (forall user id,
     Users.findOne phone db = Some user -> user !! "_id" = Some (JStr id) ->
     AuthRoutes.verify_otp_handler env jwt twilio now phone otp db =
       (Respond (Response 200
          (<["isNewUser" := JBool false]>
             (<["token" := JStr (Jwt.generateToken jwt env now id phone)]>
                {["success" := JBool true]}))), db))
  /\ (Users.findOne phone db = None ->
      exists r,
        AuthRoutes.verify_otp_handler env jwt twilio now phone otp db
          = (Respond r, db)
        /\ status r = 200
        /\ body r !! "success" = Some (JBool true)
        /\ body r !! "isNewUser" = Some (JBool true)
        /\ body r !! "token" = None
        /\ dom (body r) = {[ "success"; "isNewUser" ]}).
Proof.
  intros Hcheck Hvalid Happroved. split.
  - intros user id Huser Hid. unfold AuthRoutes.verify_otp_handler.
    rewrite Hcheck, Hvalid, Happroved, Huser. cbn.
    unfold AuthRoutes.id_of. rewrite Hid. reflexivity.
  - intros Hnone. eexists. split.
    + unfold AuthRoutes.verify_otp_handler.
      rewrite Hcheck, Hvalid, Happroved, Hnone. reflexivity.
    + cbn. repeat split; reflexivity.
Qed.

Lemma C6_verify_otp_approved_witness :
  (exists r,
     AuthRoutes.verify_otp_handler test_env Jwt.binary TwilioService.unreachable
       1700000000000 "+919876543210" "123456" (Users.Database [] 0)
     = (Respond r, Users.Database [] 0)
     /\ status r = 200
     /\ body r !! "success" = Some (JBool true)
     /\ body r !! "isNewUser" = Some (JBool true)
     /\ body r !! "token" = None
     /\ dom (body r) = {[ "success"; "isNewUser" ]})
  /\ AuthRoutes.verify_otp_handler test_env Jwt.binary TwilioService.unreachable
       1700000000000 "+919876543210" "123456" Users.one_profile
     = (Respond (Response 200
          (<["isNewUser" := JBool false]>
             (<["token" := JStr (Jwt.generateToken Jwt.binary test_env
                                   1700000000000 "0" "+919876543210")]>
                {["success" := JBool true]}))), Users.one_profile).
Proof.
  split.
  - exact (proj2 (C6_verify_otp_approved test_env Jwt.binary
                    TwilioService.unreachable 1700000000000 "+919876543210"
                    "123456" (Users.Database [] 0)
                    (TwilioService.VerificationCheck "approved" true)
                    eq_refl eq_refl eq_refl) eq_refl).
  - refine (proj1 (C6_verify_otp_approved test_env Jwt.binary
                     TwilioService.unreachable 1700000000000 "+919876543210"
                     "123456" Users.one_profile
                     (TwilioService.VerificationCheck "approved" true)
                     eq_refl eq_refl eq_refl) _ "0" _ _);
      vm_compute; reflexivity.
Defined.

(** ** Session tokens *)

Lemma unbits_bits (p : positive) : Jwt.unbits (Jwt.bits p) = Some p.
Proof.
  induction p as [p IH|p IH|]; cbn; [| |reflexivity].
  - destruct (Jwt.bits p) eqn:Hb; [destruct p; discriminate Hb|].
    by rewrite IH.
  - by rewrite IH.
Qed.

Lemma bits_word (p : positive) :
  Jwt.bits p <> ""
  /\ Js.all_chars (fun ch => negb (Ascii.eqb ch " ")) (Jwt.bits p) = true.
Proof.
  split; [destruct p; discriminate|].
  induction p as [p IH|p IH|]; cbn; [exact IH|exact IH|reflexivity].
Qed.

Lemma binary_lawful : Jwt.lawful Jwt.binary.
Proof.
  intros c sg. cbn. unfold Jwt.binary_compact, Jwt.binary_parse.
  split; [|apply bits_word].
  rewrite unbits_bits. cbn. rewrite decode_encode. cbn.
  by destruct c.
Qed.

Lemma split_word (s : string) :
  Js.all_chars (fun ch => negb (Ascii.eqb ch " ")) s = true ->
  Auth.split " " s = [s].
Proof.
  induction s as [|c s IH]; cbn; [reflexivity|].
  intros [Hc Hs]%andb_true_iff. apply negb_true_iff in Hc.
  rewrite Hc, (IH Hs). reflexivity.
Qed.

Lemma authenticate_bearer (jwt : Jwt.jsonwebtoken) (env : environment)
    (now : Z) (token : string) :
  token <> "" ->
  Js.all_chars (fun ch => negb (Ascii.eqb ch " ")) token = true ->
  Auth.authenticate jwt env now (Some ("Bearer " +:+ token)) =
    match Jwt.verifyToken jwt env now token with
    | inr decoded => inr (Auth.User (Jwt.userId decoded) (Jwt.phone decoded))
    | inl error =>
        if String.eqb (err_name error) "TokenExpiredError" then
          inl (failure 401 "Token has expired. Please login again.")
        else if String.eqb (err_name error) "JsonWebTokenError" then
          inl (failure 401 "Invalid token")
        else inl (failure 401 "Authentication failed")
    end.
Proof.
  intros Hne Hword.
  change ("Bearer " +:+ token)
    with (String "B" (String "e" (String "a" (String "r" (String "e"
            (String "r" (String " " token))))))).
  cbn [Auth.authenticate Auth.split Ascii.eqb Bool.eqb].
  rewrite (split_word token Hword). cbn [negb String.eqb Ascii.eqb Bool.eqb].
  apply String.eqb_neq in Hne. rewrite Hne. reflexivity.
Qed.

Lemma failure_message_inj (code : Z) (m1 m2 : string) :
  failure code m1 = failure code m2 -> m1 = m2.
Proof.
  intros H. apply (f_equal (fun r => body r !! "message")) in H.
  cbn in H. rewrite !lookup_insert_eq in H. congruence.
Qed.

(** C4: with a lawful token format and a positive lifetime, a token issued
    for [(S, P)] at [now] verifies at [now] to claims with that subject id
    and phone (and [authenticate] accepts it as that user); from
    [now + lifetime] on its verification throws [TokenExpiredError], which
    [authenticate] answers with "Token has expired. Please login again.";
    a token that does not parse or whose signature is wrong throws
    [JsonWebTokenError], answered with "Invalid token"; the two errors and
    the two answers differ. *)
Theorem C4_issue_verify_round_trip (jwt : Jwt.jsonwebtoken) (env : environment)
    (now : Z) (S P : string) :
  Jwt.lawful jwt ->
  0 < Jwt.JWT_EXPIRES_IN env ->
  let token := Jwt.generateToken jwt env now S P in
  (exists c, Jwt.verifyToken jwt env now token = inr c
             /\ Jwt.userId c = S /\ Jwt.phone c = P)
  /\ Auth.authenticate jwt env now (Some ("Bearer " +:+ token))
     = inr (Auth.User S P)
  /\ (forall later, now + 1000 * Jwt.JWT_EXPIRES_IN env <= later ->
        Jwt.verifyToken jwt env later token = inl Jwt.TokenExpiredError
        /\ Auth.authenticate jwt env later (Some ("Bearer " +:+ token))
           = inl (failure 401 "Token has expired. Please login again."))
  /\ (forall t forged,
        (Jwt.parse jwt forged = None
         \/ exists c sg, Jwt.parse jwt forged = Some (c, sg)
                         /\ sg <> Jwt.hmac jwt (Jwt.JWT_SECRET env) c) ->
        (exists msg, Jwt.verifyToken jwt env t forged
                     = inl (Jwt.JsonWebTokenError msg))
        /\ (forged <> "" ->
            Js.all_chars (fun ch => negb (Ascii.eqb ch " ")) forged = true ->
            Auth.authenticate jwt env t (Some ("Bearer " +:+ forged))
            = inl (failure 401 "Invalid token")))
  /\ (forall msg, Jwt.TokenExpiredError <> Jwt.JsonWebTokenError msg)
  /\ failure 401 "Token has expired. Please login again."
     <> failure 401 "Invalid token".
Proof.
  intros Hlaw Hlife token.
  set (stamp := Jwt.clockTimestamp now).
  set (c := Jwt.Claims S P stamp (stamp + Jwt.JWT_EXPIRES_IN env)).
  set (sg := Jwt.hmac jwt (Jwt.JWT_SECRET env) c).
  assert (Htoken : token = Jwt.compact jwt c sg) by reflexivity.
  destruct (Hlaw c sg) as (Hparse & Hne & Hword). rewrite <- Htoken in *.
  assert (Hverify : forall t, Jwt.verifyToken jwt env t token =
            if stamp + Jwt.JWT_EXPIRES_IN env <=? Jwt.clockTimestamp t
            then inl Jwt.TokenExpiredError else inr c).
  { intros t. unfold Jwt.verifyToken, Jwt.verify. rewrite Hparse.
    fold sg. rewrite String.eqb_refl. reflexivity. }
  assert (Hnow : Jwt.verifyToken jwt env now token = inr c).
  { rewrite Hverify. fold stamp.
    destruct (Z.leb_spec (stamp + Jwt.JWT_EXPIRES_IN env) stamp); [lia|reflexivity]. }
  split; [by exists c|].
  split.
  { rewrite authenticate_bearer by assumption. by rewrite Hnow. }
  split.
  { intros later Hlater.
    assert (Hexp : Jwt.verifyToken jwt env later token = inl Jwt.TokenExpiredError).
    { rewrite Hverify.
      destruct (Z.leb_spec (stamp + Jwt.JWT_EXPIRES_IN env)
                  (Jwt.clockTimestamp later)) as [|Hlt]; [reflexivity|].
      exfalso. unfold stamp, Jwt.clockTimestamp in Hlt.
      pose proof (Z.div_le_mono _ _ 1000 ltac:(lia) Hlater) as Hmono.
      rewrite (Z.mul_comm 1000), Z.div_add in Hmono by lia. lia. }
    split; [exact Hexp|].
    rewrite authenticate_bearer by assumption. by rewrite Hexp. }
  split.
  { intros t forged Hforged.
    assert (Hinvalid : exists msg, Jwt.verifyToken jwt env t forged
                                   = inl (Jwt.JsonWebTokenError msg)).
    { unfold Jwt.verifyToken, Jwt.verify.
      destruct Hforged as [->|(c' & sg' & -> & Hsg)]; [by eexists|].
      apply String.eqb_neq in Hsg. rewrite Hsg. by eexists. }
    split; [exact Hinvalid|].
    intros Hne' Hword'. destruct Hinvalid as [msg Hmsg].
    rewrite authenticate_bearer by assumption. by rewrite Hmsg. }
  split; [discriminate|].
  intros H%failure_message_inj. discriminate H.
Qed.

Lemma C4_issue_verify_round_trip_witness :
  Auth.authenticate Jwt.binary test_env 1700000000000
    (Some ("Bearer " +:+
           Jwt.generateToken Jwt.binary test_env 1700000000000 "7" "+919876543210"))
  = inr (Auth.User "7" "+919876543210").
Proof.
  refine (proj1 (proj2 (C4_issue_verify_round_trip Jwt.binary test_env
                          1700000000000 "7" "+919876543210" binary_lawful _))).
  reflexivity.
Defined.

(** ** Update-profile *)

Lemma strip_update_lookup (body : gmap string value) (k : string) :
  k <> "phone" -> k <> "_id" -> k <> "__v" -> k <> "createdAt" ->
  k <> "updatedAt" -> k <> "joinedDate" ->
  AuthRoutes.strip_update body !! k = body !! k.
Proof.
  intros. unfold AuthRoutes.strip_update.
  rewrite !lookup_delete_ne by congruence.
  destruct (truthy_field body "phone");
    [destruct (truthy_field (delete "phone" body) "_id")
    |destruct (truthy_field body "_id")];
    rewrite ?lookup_delete_ne by congruence; reflexivity.
Qed.

Lemma strip_update_phone (body : gmap string value) :
  AuthRoutes.strip_update body !! "phone" =
    if truthy_field body "phone" then None else body !! "phone".
Proof.
  unfold AuthRoutes.strip_update.
  rewrite !lookup_delete_ne by discriminate.
  destruct (truthy_field body "phone").
  - destruct (truthy_field (delete "phone" body) "_id");
      rewrite ?lookup_delete_ne by discriminate; apply lookup_delete_eq.
  - destruct (truthy_field body "_id");
      rewrite ?lookup_delete_ne by discriminate; reflexivity.
Qed.

Lemma strip_update_only_falsy_phone (v : value) :
  truthy v = false ->
  AuthRoutes.strip_update {["phone" := v]} = {["phone" := v]}.
Proof.
  intros Hv. unfold AuthRoutes.strip_update, truthy_field.
  rewrite lookup_singleton_eq, Hv.
  rewrite lookup_singleton_ne by discriminate.
  rewrite !delete_singleton_ne by discriminate. reflexivity.
Qed.

(** An answer of the update handler that comes after the call of the
    collection is never the "No fields to update" answer. *)
Lemma update_outcome_not_no_fields (orm : Users.mongoose) (now : Z)
    (userId : string) (updateData : gmap string value) (db : Users.database) :
  (match Users.findByIdAndUpdate orm now userId updateData db with
   | (inl error, db) => (AuthRoutes.update_catch error, db)
   | (inr None, db) => (Respond (failure 404 "User not found"), db)
   | (inr (Some user), db) => (Respond (AuthRoutes.user_response user), db)
   end).1 <> Respond AuthRoutes.no_fields.
Proof.
  destruct (Users.findByIdAndUpdate orm now userId updateData db)
    as [[error|[user|]] db']; cbn [fst].
  - unfold AuthRoutes.update_catch.
    destruct (String.eqb (err_name error) "ValidationError").
    + intros [= H%failure_message_inj]; try discriminate H.
    + destruct (String.eqb (err_name error) "CastError").
      * intros [= H%failure_message_inj]; try discriminate H.
      * discriminate.
  - discriminate.
  - discriminate.
Qed.

(** C10: the phone field is deleted from the update exactly when its value
    is truthy; for a body whose only key is [phone] with a falsy value the
    update keeps the field, the handler does not answer "No fields to
    update" and its answer is that of [findByIdAndUpdate] called with the
    phone field in the update. *)
Theorem C10_falsy_phone_is_kept (orm : Users.mongoose)
    (new_Date : value -> value) (now : Z) (userId : string) (v : value)
    (db : Users.database) :
  truthy v = false ->
  AuthRoutes.strip_update {["phone" := v]} = {["phone" := v]}
  /\ AuthRoutes.update_profile_handler orm new_Date now userId {["phone" := v]} db
     = match Users.findByIdAndUpdate orm now userId {["phone" := v]} db with
       | (inl error, db) => (AuthRoutes.update_catch error, db)
       | (inr None, db) => (Respond (failure 404 "User not found"), db)
       | (inr (Some user), db) => (Respond (AuthRoutes.user_response user), db)
       end
  /\ (AuthRoutes.update_profile_handler orm new_Date now userId
        {["phone" := v]} db).1 <> Respond AuthRoutes.no_fields
  /\ (forall body : gmap string value,
        AuthRoutes.strip_update body !! "phone" =
          if truthy_field body "phone" then None else body !! "phone").
Proof.
  intros Hv.
  assert (Hhandler :
    AuthRoutes.update_profile_handler orm new_Date now userId {["phone" := v]} db
    = match Users.findByIdAndUpdate orm now userId {["phone" := v]} db with
      | (inl error, db) => (AuthRoutes.update_catch error, db)
      | (inr None, db) => (Respond (failure 404 "User not found"), db)
      | (inr (Some user), db) => (Respond (AuthRoutes.user_response user), db)
      end).
  { unfold AuthRoutes.update_profile_handler.
    rewrite (strip_update_only_falsy_phone v Hv), map_size_singleton.
    rewrite bool_decide_eq_false_2 by discriminate.
    unfold AuthRoutes.parse_dateOfBirth.
    rewrite lookup_singleton_ne by discriminate. reflexivity. }
  split; [by apply strip_update_only_falsy_phone|].
  split; [exact Hhandler|].
  split; [rewrite Hhandler; apply update_outcome_not_no_fields|].
  apply strip_update_phone.
Qed.

Lemma C10_falsy_phone_is_kept_witness :
  AuthRoutes.strip_update {["phone" := JStr ""]} = {["phone" := JStr ""]}.
Proof.
  refine (proj1 (C10_falsy_phone_is_kept Users.permissive (fun v => v) 0 "0"
                   (JStr "") Users.one_profile _)).
  reflexivity.
Defined.

(** C5 at the inputs where the code departs from it: for the body
    [{phone: ""}] the phone field stays in the update and the handler
    does not answer "No fields to update", whatever the schema and the
    collection; and for the body [{phone: 0}], with a schema that takes the
    update as it is, the stored phone number is overwritten. *)
Theorem C5_falsy_phone_reaches_the_update :
  AuthRoutes.strip_update {["phone" := JStr ""]} !! "phone" = Some (JStr "")
  /\ (forall orm new_Date now userId db,
        (AuthRoutes.update_profile_handler orm new_Date now userId
           {["phone" := JStr ""]} db).1 <> Respond AuthRoutes.no_fields)
  /\ Users.findById "0" Users.one_profile ≫= (.!! "phone")
     = Some (JStr "+919876543210")
  /\ Users.findById "0"
       (AuthRoutes.update_profile_handler Users.permissive (fun v => v)
          1700000000000 "0" {["phone" := JNum 0%float]} Users.one_profile).2
       ≫= (.!! "phone")
     = Some (JNum 0%float)
  /\ status_of
       (AuthRoutes.update_profile_handler Users.permissive (fun v => v)
          1700000000000 "0" {["phone" := JNum 0%float]} Users.one_profile).1
     = Some 200.
Proof.
  split; [reflexivity|]. split.
  - intros orm new_Date now userId db.
    unfold AuthRoutes.update_profile_handler.
    change (AuthRoutes.strip_update {["phone" := JStr ""]})
      with ({["phone" := JStr ""]} : gmap string value).
    rewrite map_size_singleton, bool_decide_eq_false_2 by discriminate.
    apply update_outcome_not_no_fields.
  - repeat split; vm_compute; reflexivity.
Qed.

(** ** Registration of a phone number that is already held *)

Lemma existsb_find {A} (f : A -> bool) (l : list A) :
  existsb f l = match List.find f l with Some _ => true | None => false end.
Proof. induction l as [|x l IH]; cbn; [reflexivity|]. by destruct (f x). Qed.

Lemma find_app_hit {A} (f : A -> bool) (l : list A) (x : A) :
  f x = true -> List.find f (l ++ [x])%list <> None.
Proof.
  intros Hx. induction l as [|y l IH]; cbn.
  - by rewrite Hx.
  - by destruct (f y).
Qed.

Lemma find_app_miss {A} (f : A -> bool) (l k : list A) :
  List.find f l = None -> List.find f (l ++ k)%list = List.find f k.
Proof.
  induction l as [|x l IH]; cbn; [reflexivity|].
  destruct (f x); [discriminate|exact IH].
Qed.

Lemma register_catch_duplicate (error : js_error) :
  err_code error = Some (NumCode 11000) ->
  AuthRoutes.register_catch error = Respond AuthRoutes.already_exists.
Proof.
  intros Hcode. unfold AuthRoutes.register_catch.
  by rewrite bool_decide_eq_true_2.
Qed.

(** One resumption of a register request, in terms of stages. *)
Lemma advance_stage (env : environment) (jwt : Jwt.jsonwebtoken)
    (orm : Users.mongoose) (new_Date parseInt : value -> value)
    (phone : string) (now : Z) (g : AuthRoutes.stage)
    (p : AuthRoutes.progress) (db : Users.database) :
  AuthRoutes.in_stage orm new_Date parseInt phone g p ->
  AuthRoutes.in_stage orm new_Date parseInt phone
    (AuthRoutes.stage_after (AuthRoutes.taken_in phone db) g).1
    (AuthRoutes.advance env jwt orm new_Date parseInt now p db).1
  /\ AuthRoutes.taken_in phone
       (AuthRoutes.advance env jwt orm new_Date parseInt now p db).2
     = (AuthRoutes.stage_after (AuthRoutes.taken_in phone db) g).2.
Proof.
  intros Hstage. unfold AuthRoutes.taken_in.
  destruct g; cbn [AuthRoutes.in_stage] in Hstage.
  - destruct Hstage as (name & body & -> & Hstorable).
    cbn [AuthRoutes.advance]. unfold AuthRoutes.register_lookup.
    destruct (Users.findOne phone db) as [existing|] eqn:Hfind; cbn.
    + by rewrite Hfind.
    + unfold Users.findOne in *. cbn. rewrite Hfind. split; [|reflexivity].
      eexists _, _. split; [reflexivity|]. split.
      * exact (Hstorable now db).
      * apply lookup_insert_eq.
  - destruct Hstage as (user & id & -> & (d & Hcast & Hdphone & Hdid) & Hid).
    cbn [AuthRoutes.advance]. unfold AuthRoutes.register_save, Users.save.
    rewrite Hcast. unfold Users.phone_taken. rewrite Hdphone, existsb_find.
    unfold Users.findOne.
    destruct (List.find (Users.has_string "phone" phone) (Users.users db))
      as [existing|] eqn:Hfind; cbn.
    + rewrite Hfind. split; reflexivity.
    + unfold AuthRoutes.id_of.
      rewrite !lookup_insert_ne by discriminate. rewrite Hdid, Hid. cbn.
      split; [eexists; split; [reflexivity|by eexists]|].
      match goal with
      | |- match List.find ?f (?l ++ [?x])%list with _ => _ end = _ =>
          pose proof (find_app_hit f l x) as Hhit;
          destruct (List.find f (l ++ [x])%list); [reflexivity|]
      end.
      exfalso. apply Hhit; [|reflexivity].
      unfold Users.has_string. rewrite !lookup_insert_ne by discriminate.
      rewrite Hdphone. cbn. apply String.eqb_refl.
  - destruct Hstage as (o & -> & Hcreated). cbn.
    split; [by exists o|]. by destruct (Users.findOne phone db).
  - rewrite Hstage. cbn. split; [reflexivity|].
    by destruct (Users.findOne phone db).
Qed.

Lemma resume_summarised (env : environment) (jwt : Jwt.jsonwebtoken)
    (orm : Users.mongoose) (new_Date parseInt : value -> value)
    (phone : string) (a : AuthRoutes.summary) (s : AuthRoutes.in_flight)
    (ev : AuthRoutes.caller * Z) :
  AuthRoutes.summarises orm new_Date parseInt phone a s ->
  AuthRoutes.summarises orm new_Date parseInt phone
    (AuthRoutes.summary_resume a ev.1)
    (AuthRoutes.resume env jwt orm new_Date parseInt s ev).
Proof.
  intros (Htaken & Hearlier & Hlater).
  destruct ev as [[|] now]; unfold AuthRoutes.resume, AuthRoutes.summary_resume;
    cbn [fst snd].
  - pose proof (advance_stage env jwt orm new_Date parseInt phone now _ _
                  (AuthRoutes.collection s) Hearlier) as [Hg Ht].
    rewrite Htaken in Hg, Ht.
    destruct (AuthRoutes.advance _ _ _ _ _ now (AuthRoutes.earlier s) _) as [p db].
    destruct (AuthRoutes.stage_after _ _) as [g t]. by repeat split.
  - pose proof (advance_stage env jwt orm new_Date parseInt phone now _ _
                  (AuthRoutes.collection s) Hlater) as [Hg Ht].
    rewrite Htaken in Hg, Ht.
    destruct (AuthRoutes.advance _ _ _ _ _ now (AuthRoutes.later s) _) as [p db].
    destruct (AuthRoutes.stage_after _ _) as [g t]. by repeat split.
Qed.

Lemma run_summarised (env : environment) (jwt : Jwt.jsonwebtoken)
    (orm : Users.mongoose) (new_Date parseInt : value -> value)
    (phone : string) (schedule : list (AuthRoutes.caller * Z))
    (a : AuthRoutes.summary) (s : AuthRoutes.in_flight) :
  AuthRoutes.summarises orm new_Date parseInt phone a s ->
  AuthRoutes.summarises orm new_Date parseInt phone
    (fold_left AuthRoutes.summary_resume (fst <$> schedule) a)
    (AuthRoutes.run env jwt orm new_Date parseInt schedule s).
Proof.
  revert a s.
  induction schedule as [|ev schedule IH]; intros a s Hs; [exact Hs|].
  cbn. apply IH. by apply resume_summarised.
Qed.

(** The six interleavings of two requests that resume twice each. *)
Lemma interleaving_cases (l : list AuthRoutes.caller) :
  l ≡ₚ [AuthRoutes.Earlier; AuthRoutes.Earlier; AuthRoutes.Later; AuthRoutes.Later] ->
  l ∈ [ [AuthRoutes.Earlier; AuthRoutes.Earlier; AuthRoutes.Later; AuthRoutes.Later];
        [AuthRoutes.Earlier; AuthRoutes.Later; AuthRoutes.Earlier; AuthRoutes.Later];
        [AuthRoutes.Earlier; AuthRoutes.Later; AuthRoutes.Later; AuthRoutes.Earlier];
        [AuthRoutes.Later; AuthRoutes.Earlier; AuthRoutes.Earlier; AuthRoutes.Later];
        [AuthRoutes.Later; AuthRoutes.Earlier; AuthRoutes.Later; AuthRoutes.Earlier];
        [AuthRoutes.Later; AuthRoutes.Later; AuthRoutes.Earlier; AuthRoutes.Earlier] ].
Proof.
  intros Hperm.
  assert (Hcount : length (filter (fun c => c = AuthRoutes.Earlier) l) = 2%nat)
    by (rewrite Hperm; reflexivity).
  apply Permutation_length in Hperm.
  destruct l as [|a [|b [|c [|d [|? ?]]]]]; try discriminate Hperm.
  destruct a, b, c, d; try discriminate Hcount; set_solver.
Qed.

(** What the two stages are once both requests have resumed twice. *)
Lemma summary_of_interleaving (l : list AuthRoutes.caller) (was_taken : bool) :
  l ≡ₚ [AuthRoutes.Earlier; AuthRoutes.Earlier; AuthRoutes.Later; AuthRoutes.Later] ->
  exists w,
    AuthRoutes.first_to_write false false l = Some w
    /\ fold_left AuthRoutes.summary_resume l
         (AuthRoutes.Summary was_taken AuthRoutes.AtLookup AuthRoutes.AtLookup)
       = if was_taken
         then AuthRoutes.Summary true AuthRoutes.Refused AuthRoutes.Refused
         else match w with
              | AuthRoutes.Earlier =>
                  AuthRoutes.Summary true AuthRoutes.Registered AuthRoutes.Refused
              | AuthRoutes.Later =>
                  AuthRoutes.Summary true AuthRoutes.Refused AuthRoutes.Registered
              end.
Proof.
  intros Hl%interleaving_cases.
  repeat (apply elem_of_cons in Hl as [->|Hl];
          [destruct was_taken; eexists; split; reflexivity|]).
  by apply elem_of_nil in Hl.
Qed.

Lemma resume_earlier (env : environment) (jwt : Jwt.jsonwebtoken)
    (orm : Users.mongoose) (new_Date parseInt : value -> value)
    (s : AuthRoutes.in_flight) (now : Z) :
  AuthRoutes.resume env jwt orm new_Date parseInt s (AuthRoutes.Earlier, now) =
    let r := AuthRoutes.advance env jwt orm new_Date parseInt now
               (AuthRoutes.earlier s) (AuthRoutes.collection s) in
    AuthRoutes.InFlight r.2 r.1 (AuthRoutes.later s).
Proof. unfold AuthRoutes.resume. cbn. by destruct (AuthRoutes.advance _ _ _ _ _ _ _ _). Qed.

Lemma resume_later (env : environment) (jwt : Jwt.jsonwebtoken)
    (orm : Users.mongoose) (new_Date parseInt : value -> value)
    (s : AuthRoutes.in_flight) (now : Z) :
  AuthRoutes.resume env jwt orm new_Date parseInt s (AuthRoutes.Later, now) =
    let r := AuthRoutes.advance env jwt orm new_Date parseInt now
               (AuthRoutes.later s) (AuthRoutes.collection s) in
    AuthRoutes.InFlight r.2 (AuthRoutes.earlier s) r.1.
Proof. unfold AuthRoutes.resume. cbn. by destruct (AuthRoutes.advance _ _ _ _ _ _ _ _). Qed.

(** A request that resumes twice with nothing in between has run the
    handler. *)
Lemma advance_twice (env : environment) (jwt : Jwt.jsonwebtoken)
    (orm : Users.mongoose) (new_Date parseInt : value -> value)
    (t_lookup t_save : Z) (phone name : string) (body : gmap string value)
    (db : Users.database) :
  let r := AuthRoutes.advance env jwt orm new_Date parseInt t_lookup
             (AuthRoutes.Arrived phone name body) db in
  let h := AuthRoutes.register_user_handler env jwt orm new_Date parseInt
             t_lookup t_save phone name body db in
  AuthRoutes.advance env jwt orm new_Date parseInt t_save r.1 r.2
  = (AuthRoutes.Answered h.1, h.2).
Proof.
  cbn zeta. unfold AuthRoutes.register_user_handler. cbn [AuthRoutes.advance].
  destruct (AuthRoutes.register_lookup _ _ _ _ _ _ _) as [[o|user] db'];
    cbn; [reflexivity|].
  by destruct (AuthRoutes.register_save _ _ _ _ _ _ _).
Qed.

(** A register request for a phone number no profile holds, with a
    document the schema takes: the handler answers 201 with a token for the
    id of the new profile, which is appended to the collection. *)
Lemma register_free_phone (env : environment) (jwt : Jwt.jsonwebtoken)
    (orm : Users.mongoose) (new_Date parseInt : value -> value)
    (t_lookup t_save : Z) (phone name : string) (body : gmap string value)
    (db : Users.database) :
  AuthRoutes.storable orm new_Date parseInt phone name body ->
  AuthRoutes.taken_in phone db = false ->
  let r := AuthRoutes.register_user_handler env jwt orm new_Date parseInt
             t_lookup t_save phone name body db in
  let id := pretty (Users.ids_issued db) in
  exists stored,
    r.1 = Respond (Response 201
                     (<["token" := JStr (Jwt.generateToken jwt env t_save id phone)]>
                        {["success" := JBool true]}))
    /\ Users.users r.2 = (Users.users db ++ [stored])%list
    /\ Users.findOne phone r.2 = Some stored
    /\ stored !! "_id" = Some (JStr id).
Proof.
  intros Hstorable Hfree r id. subst r id.
  unfold AuthRoutes.taken_in in Hfree.
  unfold AuthRoutes.register_user_handler, AuthRoutes.register_lookup.
  destruct (Users.findOne phone db) eqn:Hfind; [discriminate Hfree|].
  destruct (Hstorable t_lookup db) as (d & Hcast & Hdphone & Hdid).
  cbn [Users.new_User fst] in Hcast, Hdid |- *.
  rewrite lookup_insert_eq in Hdid.
  unfold AuthRoutes.register_save, Users.save. rewrite Hcast.
  unfold Users.phone_taken. rewrite Hdphone, existsb_find.
  cbn [Users.users]. unfold Users.findOne in Hfind. rewrite Hfind.
  set (stored := <["__v":=_]> _).
  assert (Hid : stored !! "_id" = Some (JStr (pretty (Users.ids_issued db)))).
  { unfold stored. rewrite !lookup_insert_ne by discriminate. exact Hdid. }
  assert (Hphone : Users.has_string "phone" phone stored = true).
  { unfold Users.has_string, stored. rewrite !lookup_insert_ne by discriminate.
    rewrite Hdphone. apply String.eqb_refl. }
  unfold AuthRoutes.id_of. rewrite Hid. cbn [fst snd].
  exists stored. split; [reflexivity|]. split; [reflexivity|].
  split; [|exact Hid].
  unfold Users.findOne. cbn [Users.users].
  rewrite find_app_miss by exact Hfind. cbn. by rewrite Hphone.
Qed.

(** The schema [Users.strict] takes the document of a request that gives
    a phone number and a name, and neither a date of birth nor a number of
    children. *)
Lemma strict_storable (new_Date parseInt : value -> value)
    (phone name : string) (body : gmap string value) :
  phone <> "" -> name <> "" ->
  body !! "dateOfBirth" = None -> body !! "numberOfChildren" = None ->
  AuthRoutes.storable Users.strict new_Date parseInt phone name body.
Proof.
  intros Hphone%String.eqb_neq Hname%String.eqb_neq Hdate Hchildren now db.
  eexists. split; [|split; [|reflexivity]].
  - cbn [Users.new_User fst Users.strict Users.cast_document].
    unfold Users.required, Users.castable_value, AuthRoutes.register_fields,
      AuthRoutes.converted.
    rewrite Hdate, Hchildren.
    repeat (rewrite lookup_insert_eq || rewrite lookup_insert_ne by discriminate).
    rewrite Hphone, Hname. reflexivity.
  - cbn [Users.new_User fst]. unfold AuthRoutes.register_fields.
    rewrite !lookup_insert_ne by discriminate. apply lookup_insert_eq.
Qed.

(** C3, as the code has it: two register requests for one phone number,
    each with a document the schema takes, interleaved in any of the ways
    their lookups and writes can fall. Both are answered; if a profile
    held the number before, both get 400 "User with this phone number
    already exists"; otherwise the request whose write comes first gets
    201, whether it arrived first or second, and the other gets that same
    400, be it from its lookup or from the write that the unique index
    refuses. Run one after the other, the first request is answered 201
    when the number is free and every later request for the number, with
    whatever name and body, is refused with that 400. The lookup that
    finds a profile and every error with code 11000 map to this one
    answer; neither goes to the error handler. *)
Theorem C3_first_write_is_registered_the_other_refused (env : environment)
    (jwt : Jwt.jsonwebtoken) (orm : Users.mongoose)
    (new_Date parseInt : value -> value) (db : Users.database)
    (phone nameE nameL : string) (bodyE bodyL : gmap string value)
    (schedule : list (AuthRoutes.caller * Z)) :
  AuthRoutes.storable orm new_Date parseInt phone nameE bodyE ->
  AuthRoutes.storable orm new_Date parseInt phone nameL bodyL ->
  fst <$> schedule
    ≡ₚ [AuthRoutes.Earlier; AuthRoutes.Earlier; AuthRoutes.Later; AuthRoutes.Later] ->
  let s := AuthRoutes.run env jwt orm new_Date parseInt schedule
             (AuthRoutes.InFlight db (AuthRoutes.Arrived phone nameE bodyE)
                (AuthRoutes.Arrived phone nameL bodyL)) in
  (exists oE oL,
     AuthRoutes.earlier s = AuthRoutes.Answered oE
     /\ AuthRoutes.later s = AuthRoutes.Answered oL
     /\ (AuthRoutes.taken_in phone db = true ->
         oE = Respond AuthRoutes.already_exists
         /\ oL = Respond AuthRoutes.already_exists)
     /\ (AuthRoutes.taken_in phone db = false ->
         exists w,
           AuthRoutes.first_to_write false false (fst <$> schedule) = Some w
           /\ AuthRoutes.created
                (match w with AuthRoutes.Earlier => oE | AuthRoutes.Later => oL end)
           /\ match w with AuthRoutes.Earlier => oL | AuthRoutes.Later => oE end
              = Respond AuthRoutes.already_exists))
  /\ (forall t1 t2 t3 t4 name body,
        let first := AuthRoutes.register_user_handler env jwt orm new_Date
                       parseInt t1 t2 phone nameE bodyE db in
        let second := AuthRoutes.register_user_handler env jwt orm new_Date
                        parseInt t3 t4 phone name body first.2 in
        second.1 = Respond AuthRoutes.already_exists
        /\ (AuthRoutes.taken_in phone db = false -> AuthRoutes.created first.1))
  /\ (forall error, err_code error = Some (NumCode 11000) ->
        AuthRoutes.register_catch error = Respond AuthRoutes.already_exists)
  /\ (forall now name body, AuthRoutes.taken_in phone db = true ->
        AuthRoutes.register_lookup new_Date parseInt now phone name body db
        = (inl (Respond AuthRoutes.already_exists), db))
  /\ AuthRoutes.register_catch Users.duplicate_key
     = Respond AuthRoutes.already_exists
  /\ AuthRoutes.already_exists
     = failure 400 "User with this phone number already exists".
Proof.
  intros HstorableE HstorableL Hperm s.
  assert (Hhit : forall now name body db',
            AuthRoutes.taken_in phone db' = true ->
            AuthRoutes.register_lookup new_Date parseInt now phone name body db'
            = (inl (Respond AuthRoutes.already_exists), db')).
  { intros now name body db' Htaken. unfold AuthRoutes.register_lookup.
    unfold AuthRoutes.taken_in in Htaken.
    by destruct (Users.findOne phone db'). }
  split; [|split; [|split; [|split; [|split]]]].
  - assert (Hstart : AuthRoutes.summarises orm new_Date parseInt phone
              (AuthRoutes.Summary (AuthRoutes.taken_in phone db)
                 AuthRoutes.AtLookup AuthRoutes.AtLookup)
              (AuthRoutes.InFlight db (AuthRoutes.Arrived phone nameE bodyE)
                 (AuthRoutes.Arrived phone nameL bodyL))).
    { split; [reflexivity|]. split; cbn; eauto. }
    pose proof (run_summarised env jwt orm new_Date parseInt phone schedule
                  _ _ Hstart) as Hsum.
    fold s in Hsum.
    destruct (summary_of_interleaving (fst <$> schedule)
                (AuthRoutes.taken_in phone db) Hperm) as (w & Hw & Hfold).
    rewrite Hfold in Hsum.
    destruct Hsum as (_ & HE & HL).
    destruct (AuthRoutes.taken_in phone db); cbn in HE, HL.
    + exists (Respond AuthRoutes.already_exists), (Respond AuthRoutes.already_exists).
      repeat split; try assumption. discriminate.
    + destruct w; cbn in HE, HL.
      * destruct HE as (oE & HE & Hcreated).
        exists oE, (Respond AuthRoutes.already_exists).
        repeat split; try assumption; try discriminate.
        intros _. exists AuthRoutes.Earlier. by repeat split.
      * destruct HL as (oL & HL & Hcreated).
        exists (Respond AuthRoutes.already_exists), oL.
        repeat split; try assumption; try discriminate.
        intros _. exists AuthRoutes.Later. by repeat split.
  - intros t1 t2 t3 t4 name body first second.
    assert (Hsecond : AuthRoutes.taken_in phone first.2 = true ->
                      second.1 = Respond AuthRoutes.already_exists).
    { intros Htaken. subst second.
      unfold AuthRoutes.register_user_handler. by rewrite Hhit. }
    destruct (AuthRoutes.taken_in phone db) eqn:Htaken.
    + split; [|discriminate]. apply Hsecond. subst first.
      unfold AuthRoutes.register_user_handler. by rewrite Hhit.
    + destruct (register_free_phone env jwt orm new_Date parseInt t1 t2 phone
                  nameE bodyE db HstorableE Htaken)
        as (stored & Hanswer & _ & Hfind & _).
      fold first in Hanswer, Hfind. split.
      * apply Hsecond. unfold AuthRoutes.taken_in. by rewrite Hfind.
      * intros _. rewrite Hanswer. by eexists.
  - apply register_catch_duplicate.
  - intros now name body. apply Hhit.
  - reflexivity.
  - reflexivity.
Qed.

Lemma C3_first_write_is_registered_the_other_refused_witness :
  exists oE oL,
    AuthRoutes.earlier
      (AuthRoutes.run test_env Jwt.binary Users.strict Users.new_Date_of
         (fun v => v)
         [(AuthRoutes.Earlier, 10); (AuthRoutes.Later, 20);
          (AuthRoutes.Later, 30); (AuthRoutes.Earlier, 40)]
         (AuthRoutes.InFlight (Users.Database [] 0)
            (AuthRoutes.Arrived "+919876543210" "Asha" {["gender" := JStr "F"]})
            (AuthRoutes.Arrived "+919876543210" "Ravi" ∅)))
    = AuthRoutes.Answered oE
    /\ AuthRoutes.later
         (AuthRoutes.run test_env Jwt.binary Users.strict Users.new_Date_of
            (fun v => v)
            [(AuthRoutes.Earlier, 10); (AuthRoutes.Later, 20);
             (AuthRoutes.Later, 30); (AuthRoutes.Earlier, 40)]
            (AuthRoutes.InFlight (Users.Database [] 0)
               (AuthRoutes.Arrived "+919876543210" "Asha" {["gender" := JStr "F"]})
               (AuthRoutes.Arrived "+919876543210" "Ravi" ∅)))
       = AuthRoutes.Answered oL
    /\ oE = Respond AuthRoutes.already_exists
    /\ AuthRoutes.created oL.
Proof.
  destruct (C3_first_write_is_registered_the_other_refused test_env Jwt.binary
              Users.strict Users.new_Date_of (fun v => v) (Users.Database [] 0)
              "+919876543210" "Asha" "Ravi" {["gender" := JStr "F"]} ∅
              [(AuthRoutes.Earlier, 10); (AuthRoutes.Later, 20);
               (AuthRoutes.Later, 30); (AuthRoutes.Earlier, 40)])
    as [(oE & oL & HE & HL & _ & Hfree) _].
  { apply strict_storable; [discriminate|discriminate|reflexivity|reflexivity]. }
  { apply strict_storable; [discriminate|discriminate|reflexivity|reflexivity]. }
  { cbn. constructor. symmetry.
    apply (Permutation_cons_append [AuthRoutes.Later; AuthRoutes.Later]
             AuthRoutes.Earlier). }
  destruct (Hfree eq_refl) as (w & Hw & Hcreated & Hrefused).
  injection Hw as <-.
  exists oE, oL. repeat split; assumption.
Defined.

(** C3, against the claim as it is worded. (1) Two requests with names
    and empty bodies: the one that arrives second writes first; it is
    answered 201 and the request that arrived first is refused. (2) One
    after the other through the whole route: the first request gives a date
    of birth that is no date, the schema refuses its document (400 with the
    message of the validator), and the second request for the same number is
    answered 201. (3) Both look up before either writes, and the document
    of the request that writes second is refused by the schema: it is
    answered 400 with the message of the validator, not "already
    exists". *)
Lemma C3_second_to_arrive_can_be_registered :
  let phone := "+919876543210" in
  let nowhere := Users.Database [] 0 in
  let no_date : gmap string value := {["dateOfBirth" := JStr "soon"]} in
  let run := AuthRoutes.run test_env Jwt.binary Users.strict Users.new_Date_of
               (fun v => v) in
  let register_user :=
    AuthRoutes.register_user test_env Jwt.binary Users.strict Users.new_Date_of
      (fun v => v) in
  let not_a_date :=
    Users.cast_failed "date" "Invalid Date" "Date" "dateOfBirth" in
  (let s := run [(AuthRoutes.Earlier, 10); (AuthRoutes.Later, 20);
                 (AuthRoutes.Later, 30); (AuthRoutes.Earlier, 40)]
              (AuthRoutes.InFlight nowhere
                 (AuthRoutes.Arrived phone "Asha" ∅)
                 (AuthRoutes.Arrived phone "Ravi" ∅)) in
   AuthRoutes.answer (AuthRoutes.earlier s)
   = Some (Respond AuthRoutes.already_exists)
   /\ status_of <$> AuthRoutes.answer (AuthRoutes.later s) = Some (Some 201))
  /\ (let first := register_user 10 20 (Some "9876543210") (Some "Asha")
                     no_date nowhere in
      let second := register_user 30 40 (Some "9876543210") (Some "Ravi")
                      ∅ first.2 in
      first.1 = Respond (failure 400 not_a_date)
      /\ Users.users first.2 = []
      /\ status_of second.1 = Some 201)
  /\ (let s := run [(AuthRoutes.Earlier, 10); (AuthRoutes.Later, 20);
                    (AuthRoutes.Earlier, 30); (AuthRoutes.Later, 40)]
                 (AuthRoutes.InFlight nowhere
                    (AuthRoutes.Arrived phone "Asha" ∅)
                    (AuthRoutes.Arrived phone "Ravi" no_date)) in
      status_of <$> AuthRoutes.answer (AuthRoutes.earlier s) = Some (Some 201)
      /\ AuthRoutes.answer (AuthRoutes.later s)
         = Some (Respond (failure 400 not_a_date))).
Proof. repeat split; vm_compute; reflexivity. Qed.

(** * Further properties of the code *)

(** ** Rate limiter: the sweep *)

Lemma cleanup_lookup (now : Z) (st : gmap string RateLimiter.entry) (k : string) :
  RateLimiter.cleanupExpiredEntries now st !! k =
    match st !! k with
    | Some e => if bool_decide (now > RateLimiter.resetTime e) then None else Some e
    | None => None
    end.
Proof.
  unfold RateLimiter.cleanupExpiredEntries.
  destruct (st !! k) as [e|] eqn:Hk.
  - case_bool_decide as Hex.
    + apply map_lookup_filter_None. right. intros x Hx. cbn.
      assert (x = e) as -> by congruence. unfold RateLimiter.expired. tauto.
    + apply map_lookup_filter_Some. split; [exact Hk|exact Hex].
  - apply map_lookup_filter_None. by left.
Qed.

Lemma standing_after_cleanup (now now' : Z) (st : gmap string RateLimiter.entry)
    (k : string) :
  now <= now' ->
  RateLimiter.standing_of now' (RateLimiter.cleanupExpiredEntries now st !! k) =
    match RateLimiter.standing_of now' (st !! k) with
    | RateLimiter.Lapsed =>
        if bool_decide (is_Some (RateLimiter.cleanupExpiredEntries now st !! k))
        then RateLimiter.Lapsed else RateLimiter.Absent
    | other => other
    end.
Proof.
  intros Hle. rewrite cleanup_lookup. unfold RateLimiter.standing_of.
  destruct (st !! k) as [e|]; [|reflexivity].
  case_bool_decide as Hex.
  - destruct (Z.ltb_spec (RateLimiter.resetTime e) now'); [|lia].
    rewrite bool_decide_eq_false_2; [reflexivity|]. by intros [? ?].
  - destruct (Z.ltb_spec (RateLimiter.resetTime e) now').
    + rewrite bool_decide_eq_true_2; [reflexivity|by eexists].
    + by destruct (RateLimiter.blocked e).
Qed.

(** X1: a sweep does not change what any later check answers: the
    limiter gives the same outcome on the swept map as on the map that was
    not swept. *)
Theorem X1_sweep_never_changes_a_verdict (now now' : Z) (phone : option string)
    (st : gmap string RateLimiter.entry) :
  now <= now' ->
  (RateLimiter.otpRateLimiter now' phone
     (RateLimiter.cleanupExpiredEntries now st)).1
  = (RateLimiter.otpRateLimiter now' phone st).1.
Proof.
  intros Hle. destruct phone as [phone|]; [|reflexivity].
  destruct (decide (phone = "")) as [->|Hphone]; [reflexivity|].
  rewrite !otpRateLimiter_policy by exact Hphone. cbn [fst].
  unfold RateLimiter.policy.
  rewrite (standing_after_cleanup now now' st _ Hle).
  destruct (RateLimiter.standing_of now' (st !! Js.strip_non_digits phone))
    as [| |e|e]; try reflexivity.
  - by case_bool_decide.
  - by destruct (3 <? RateLimiter.count e + 1).
Qed.

Lemma X1_sweep_never_changes_a_verdict_witness :
  (RateLimiter.otpRateLimiter 400000 (Some "+919876543210")
     (RateLimiter.cleanupExpiredEntries 300000 RateLimiter.blocked_example)).1
  = (RateLimiter.otpRateLimiter 400000 (Some "+919876543210")
       RateLimiter.blocked_example).1.
Proof.
  apply (X1_sweep_never_changes_a_verdict 300000 400000). lia.
Defined.

(** X2: a sweep keeps exactly the entries whose [resetTime] is not
    behind the clock, unchanged; sweeping again at the same time changes
    nothing, and an earlier sweep followed by a later one is the later
    one. *)
Theorem X2_sweeps_compose (t1 t2 : Z) (st : gmap string RateLimiter.entry) :
  t1 <= t2 ->
  (forall k e,
     RateLimiter.cleanupExpiredEntries t1 st !! k = Some e
     <-> st !! k = Some e /\ t1 <= RateLimiter.resetTime e)
  /\ RateLimiter.cleanupExpiredEntries t1 (RateLimiter.cleanupExpiredEntries t1 st)
     = RateLimiter.cleanupExpiredEntries t1 st
  /\ RateLimiter.cleanupExpiredEntries t2 (RateLimiter.cleanupExpiredEntries t1 st)
     = RateLimiter.cleanupExpiredEntries t2 st.
Proof.
  intros Hle.
  assert (Hcompose : forall a b, a <= b ->
            RateLimiter.cleanupExpiredEntries b (RateLimiter.cleanupExpiredEntries a st)
            = RateLimiter.cleanupExpiredEntries b st).
  { intros a b Hab. apply map_eq. intros k. rewrite !cleanup_lookup.
    destruct (st !! k) as [e|]; [|reflexivity].
    repeat case_bool_decide; try reflexivity; lia. }
  split; [|split].
  - intros k e. rewrite cleanup_lookup.
    destruct (st !! k) as [e'|].
    + case_bool_decide as Hex.
      * split; [discriminate|]. intros [[= ->] ?]. lia.
      * split; [intros [= ->]; split; [reflexivity|lia]|].
        by intros [[= ->] _].
    + split; [discriminate|]. by intros [? _].
  - apply Hcompose. lia.
  - by apply Hcompose.
Qed.

Lemma X2_sweeps_compose_witness :
  RateLimiter.cleanupExpiredEntries 400000
    (RateLimiter.cleanupExpiredEntries 100000 RateLimiter.blocked_example)
  = RateLimiter.cleanupExpiredEntries 400000 RateLimiter.blocked_example.
Proof.
  apply (X2_sweeps_compose 100000 400000 RateLimiter.blocked_example). lia.
Defined.

(** ** Rate limiter: counts and remaining attempts *)

Lemma policy_well_counted (now : Z) (id : string)
    (st : gmap string RateLimiter.entry) :
  (forall k e, st !! k = Some e -> Facts.well_counted e) ->
  forall k e, (RateLimiter.policy now id st).2 !! k = Some e ->
              Facts.well_counted e.
Proof.
  intros Hst k e'. destruct (decide (id = k)) as [->|Hne];
    [|rewrite policy_lookup_ne by exact Hne; apply Hst].
  assert (Hfresh : forall r, Facts.well_counted (RateLimiter.Entry 1 r false)).
  { intros r. unfold Facts.well_counted. cbn. split; [lia|]. split; [discriminate|lia]. }
  unfold RateLimiter.policy, RateLimiter.standing_of.
  destruct (st !! k) as [e|] eqn:Hk; cbn.
  - destruct (Hst k e Hk) as [Hrange Hblocked].
    destruct (_ <? now); cbn; [rewrite lookup_insert_eq; intros [= <-]; apply Hfresh|].
    destruct (RateLimiter.blocked e) eqn:Hb; cbn.
    + rewrite Hk. intros [= <-]. unfold Facts.well_counted. by rewrite Hb.
    + assert (RateLimiter.count e <> 4) by (intros Hc; apply Hblocked in Hc; discriminate).
      destruct (Z.ltb_spec 3 (RateLimiter.count e + 1)); cbn;
        rewrite lookup_insert_eq; intros [= <-]; unfold Facts.well_counted; cbn.
      * split; [lia|]. split; [lia|reflexivity].
      * split; [lia|]. split; [discriminate|lia].
  - rewrite lookup_insert_eq. intros [= <-]. apply Hfresh.
Qed.

Lemma reachable_well_counted (st : gmap string RateLimiter.entry) :
  RateLimiter.reachable st ->
  forall k e, st !! k = Some e -> Facts.well_counted e.
Proof.
  induction 1 as [|o st _ IH]; intros k e.
  - by rewrite lookup_empty.
  - destruct o as [now phone|now]; cbn [RateLimiter.apply_op].
    + destruct (decide (phone = "")) as [->|Hphone]; [apply IH|].
      rewrite otpRateLimiter_policy by exact Hphone. cbn [snd].
      by apply policy_well_counted.
    + rewrite cleanup_lookup. destruct (st !! k) as [e'|] eqn:Hk; [|discriminate].
      case_bool_decide; [discriminate|]. intros [= <-]. by apply (IH k).
Qed.

(** X3: in every map the limiter can hold, the count of an entry lies
    between 1 and 4 and is 4 exactly when the entry is blocked: no number
    has more than three requests counted without being blocked. *)
Theorem X3_blocked_exactly_at_four (st : gmap string RateLimiter.entry)
    (k : string) (e : RateLimiter.entry) :
  RateLimiter.reachable st ->
  st !! k = Some e ->
  1 <= RateLimiter.count e <= 4
  /\ (RateLimiter.blocked e = true <-> RateLimiter.count e = 4).
Proof. intros Hreach Hk. exact (reachable_well_counted st Hreach k e Hk). Qed.

Lemma blocked_example_reachable : RateLimiter.reachable RateLimiter.blocked_example.
Proof.
  unfold RateLimiter.blocked_example. repeat apply RateLimiter.reachable_step.
  apply RateLimiter.reachable_empty.
Qed.

Lemma X3_blocked_exactly_at_four_witness :
  RateLimiter.blocked_example !! "919876543210"
  = Some (RateLimiter.Entry 4 330000 true)
  /\ 1 <= RateLimiter.count (RateLimiter.Entry 4 330000 true) <= 4
  /\ (RateLimiter.blocked (RateLimiter.Entry 4 330000 true) = true
      <-> RateLimiter.count (RateLimiter.Entry 4 330000 true) = 4).
Proof.
  assert (Hk : RateLimiter.blocked_example !! "919876543210"
               = Some (RateLimiter.Entry 4 330000 true)) by (vm_compute; reflexivity).
  split; [exact Hk|].
  exact (X3_blocked_exactly_at_four RateLimiter.blocked_example "919876543210"
           (RateLimiter.Entry 4 330000 true) blocked_example_reachable Hk).
Defined.



(** X5: a check for one number leaves the entry of every other number,
    and so its remaining attempts, as they were. *)
Theorem X5_check_touches_one_entry (now t : Z) (phone other : string)
    (st : gmap string RateLimiter.entry) :
  Js.strip_non_digits phone <> Js.strip_non_digits other ->
  (RateLimiter.otpRateLimiter now (Some phone) st).2 !! Js.strip_non_digits other
  = st !! Js.strip_non_digits other
  /\ RateLimiter.getRemainingAttempts t other
       (RateLimiter.otpRateLimiter now (Some phone) st).2
     = RateLimiter.getRemainingAttempts t other st.
Proof.
  intros Hne.
  assert (Hsame :
    (RateLimiter.otpRateLimiter now (Some phone) st).2 !! Js.strip_non_digits other
    = st !! Js.strip_non_digits other).
  { destruct (decide (phone = "")) as [->|Hphone]; [reflexivity|].
    rewrite otpRateLimiter_policy by exact Hphone. cbn [snd].
    by apply policy_lookup_ne. }
  split; [exact Hsame|].
  unfold RateLimiter.getRemainingAttempts. by rewrite Hsame.
Qed.

Lemma X5_check_touches_one_entry_witness :
  (RateLimiter.otpRateLimiter 40000 (Some "9123456780")
     RateLimiter.blocked_example).2 !! "919876543210"
  = RateLimiter.blocked_example !! "919876543210".
Proof.
  apply (X5_check_touches_one_entry 40000 0 "9123456780" "+919876543210").
  discriminate.
Defined.

(** ** Send-code: what validation lets through *)

Lemma rev_app_rev_app (s t u : string) :
  String.rev_app (String.rev_app s t) u = String.rev_app t (s +:+ u).
Proof.
  revert t. induction s as [|a s IH]; intros t; [reflexivity|].
  cbn [String.rev_app]. rewrite IH. reflexivity.
Qed.

Lemma string_app_nil_r (s : string) : s +:+ "" = s.
Proof.
  induction s as [|a s IH]; [reflexivity|].
  change (String a (s +:+ "") = String a s). by rewrite IH.
Qed.

Lemma rev_involutive (s : string) : String.rev (String.rev s) = s.
Proof. unfold String.rev. rewrite rev_app_rev_app. exact (string_app_nil_r s). Qed.

Lemma all_chars_rev_app (p : ascii -> bool) (s t : string) :
  Js.all_chars p (String.rev_app s t) = Js.all_chars p s && Js.all_chars p t.
Proof.
  revert t. induction s as [|a s IH]; intros t; [reflexivity|].
  cbn [String.rev_app Js.all_chars]. rewrite IH. cbn.
  by destruct (p a), (Js.all_chars p s), (Js.all_chars p t).
Qed.

Lemma drop_while_none (p : ascii -> bool) (s : string) :
  Js.all_chars (fun c => negb (p c)) s = true -> Js.drop_while p s = s.
Proof.
  destruct s as [|c s]; [reflexivity|]. cbn.
  intros [Hc _]%andb_true_iff. apply negb_true_iff in Hc. by rewrite Hc.
Qed.

(** Trimming a string without white space gives the string back. *)
Lemma trim_no_space (s : string) :
  Js.all_chars (fun c => negb (Js.is_space c)) s = true -> Js.trim s = s.
Proof.
  intros Hs. unfold Js.trim. rewrite (drop_while_none _ s Hs).
  rewrite drop_while_none; [apply rev_involutive|].
  unfold String.rev. by rewrite all_chars_rev_app, Hs.
Qed.

Lemma digit_or_plus_not_space (c : ascii) :
  Js.is_digit c || (Js.code c =? 43)%N = true -> negb (Js.is_space c) = true.
Proof.
  unfold Js.is_digit, Js.is_space. generalize (Js.code c). intros n H.
  apply negb_true_iff.
  destruct (N.leb_spec 48 n), (N.leb_spec n 57), (N.eqb_spec n 43),
    (N.leb_spec 9 n), (N.leb_spec n 13), (N.eqb_spec n 32), (N.eqb_spec n 160);
    cbn in *; try reflexivity; try discriminate; lia.
Qed.

(** What [normalizePhone] hands on for a non-empty phone number: a string
    of digits and plus signs that is not a bare ten-digit mobile number. *)
Lemma normalizePhone_shape (c : ascii) (s : string) :
  exists p,
    Validators.normalizePhone (Some (String c s)) = Some p
    /\ Js.all_chars (fun ch => Js.is_digit ch || (Js.code ch =? 43)%N) p = true
    /\ Js.matches_mobile p = false.
Proof.
  cbn [Validators.normalizePhone].
  set (q := Js.strip_non_digits_plus (String c s)).
  assert (Hq : Js.all_chars (fun ch => Js.is_digit ch || (Js.code ch =? 43)%N) q = true)
    by apply all_chars_filter.
  clearbody q. eexists. split; [reflexivity|].
  destruct (Js.startsWith "+91" q) eqn:H91; cbn [negb].
  - split; [exact Hq|].
    destruct q as [|a q]; [reflexivity|].
    unfold Js.startsWith in H91. cbn [String.prefix] in H91.
    destruct (Ascii.ascii_dec "+" a) as [<-|]; [reflexivity|discriminate H91].
  - destruct (Js.startsWith "91" q && (Js.len q =? 12)).
    + split; [exact Hq|reflexivity].
    + destruct (Z.eqb_spec (Js.len q) 10) as [H10|H10].
      * split; [exact Hq|reflexivity].
      * split; [exact Hq|].
        destruct (Js.matches_mobile q) eqn:Hm; [|reflexivity].
        destruct (matches_mobile_shape q Hm) as [Hlen _]. congruence.
Qed.

Lemma matches_plus91_mobile_inv (p : string) :
  Js.matches_plus91_mobile p = true ->
  exists n, p = "+91" +:+ n /\ Js.matches_mobile n = true.
Proof.
  intros H.
  destruct p as [|a1 p]; [discriminate H|].
  destruct a1 as [[] [] [] [] [] [] [] []]; try discriminate H.
  destruct p as [|a2 p]; [discriminate H|].
  destruct a2 as [[] [] [] [] [] [] [] []]; try discriminate H.
  destruct p as [|a3 n]; [discriminate H|].
  destruct a3 as [[] [] [] [] [] [] [] []]; try discriminate H.
  exists n. split; [reflexivity|exact H].
Qed.

(** X6: a phone number that passes [normalizePhone] and
    [sendOtpValidation] is in the form +91 and ten digits (the bare
    ten-digit form that the pattern also allows never arrives), and the
    key under which the limiter counts it is 91 followed by those ten
    digits. *)
Theorem X6_validated_phone_is_canonical (phone : option string) (p : string) :
  Validators.sendOtpValidation (Validators.normalizePhone phone) = (p, []) ->
  exists n,
    p = "+91" +:+ n
    /\ Js.matches_mobile n = true
    /\ Js.strip_non_digits p = "91" +:+ n.
Proof.
  unfold Validators.sendOtpValidation. intros Hvalid.
  destruct phone as [[|c s]|]; [discriminate Hvalid| |discriminate Hvalid].
  destruct (normalizePhone_shape c s) as (p0 & Hnorm & Hchars & Hbare).
  rewrite Hnorm in Hvalid.
  assert (Htrim : Validators.sanitized (Some p0) = p0).
  { apply trim_no_space.
    revert Hchars. apply all_chars_weaken, digit_or_plus_not_space. }
  rewrite Htrim in Hvalid. injection Hvalid as -> Herrors.
  unfold Js.matches_optional_plus91_mobile in Herrors. rewrite Hbare in Herrors.
  destruct (Validators.notEmpty p); [|discriminate Herrors].
  destruct (Js.matches_plus91_mobile p) eqn:Hplus; [|discriminate Herrors].
  destruct (matches_plus91_mobile_inv p Hplus) as (n & -> & Hn).
  exists n. split; [reflexivity|]. split; [exact Hn|].
  destruct (matches_mobile_shape n Hn) as (_ & Hdigits & _).
  change (Js.strip_non_digits ("+91" +:+ n))
    with (String "9" (String "1" (Js.strip_non_digits n))).
  unfold Js.strip_non_digits. by rewrite (filter_chars_all _ n Hdigits).
Qed.

Lemma X6_validated_phone_is_canonical_witness :
  exists n,
    "+919876543210" = "+91" +:+ n
    /\ Js.matches_mobile n = true
    /\ Js.strip_non_digits "+919876543210" = "91" +:+ n.
Proof.
  apply (X6_validated_phone_is_canonical (Some "98765-43210") "+919876543210").
  vm_compute. reflexivity.
Defined.

(** X7: what a send-code request does to the limiter does not depend
    on the gateway or on the configuration: a request with a valid phone
    number is counted whether or not the code could be sent, and a request
    refused by validation is answered 400 and counts for nothing. *)
Theorem X7_attempts_count_whatever_the_gateway (env env' : environment)
    (twilio twilio' : TwilioService.provider) (now : Z) (phone : option string)
    (limits : gmap string RateLimiter.entry) :
  (AuthRoutes.send_otp env twilio now phone limits).2
  = (AuthRoutes.send_otp env' twilio' now phone limits).2
  /\ (forall p, Validators.sendOtpValidation (Validators.normalizePhone phone) = (p, []) ->
        (AuthRoutes.send_otp env twilio now phone limits).2
        = (RateLimiter.otpRateLimiter now (Some p) limits).2)
  /\ ((Validators.sendOtpValidation (Validators.normalizePhone phone)).2 <> [] ->
        status_of (AuthRoutes.send_otp env twilio now phone limits).1 = Some 400
        /\ (AuthRoutes.send_otp env twilio now phone limits).2 = limits).
Proof.
  unfold AuthRoutes.send_otp.
  destruct (Validators.sendOtpValidation (Validators.normalizePhone phone))
    as [p errors].
  destruct errors as [|e errors]; cbn [Validators.handleValidationErrors snd].
  - split; [|split].
    + by destruct (RateLimiter.otpRateLimiter now (Some p) limits) as [[| |] ?].
    + intros p' [= <-].
      by destruct (RateLimiter.otpRateLimiter now (Some p) limits) as [[| |] ?].
    + congruence.
  - split; [reflexivity|]. split; [discriminate|]. intros _. by split.
Qed.

(** ** Verification gateway adapter *)

(** X8: whatever the mode and the provider, a result of [verifyOTP] is
    valid exactly when its status is "approved"; so the two tests the
    verify-code handler makes agree, and a status other than "approved" is
    answered 400 "Invalid OTP. Please try again." with the collection
    untouched. *)
Theorem X8_valid_means_approved (env : environment) (jwt : Jwt.jsonwebtoken)
    (twilio : TwilioService.provider) (now : Z) (phone otp : string)
    (db : Users.database) (r : TwilioService.verification_check) :
  TwilioService.verifyOTP env twilio phone otp = inr r ->
  (TwilioService.c_valid r = true <-> TwilioService.c_status r = "approved")
  /\ (TwilioService.c_status r <> "approved" ->
      AuthRoutes.verify_otp_handler env jwt twilio now phone otp db
      = (Respond (failure 400 "Invalid OTP. Please try again."), db)).
Proof.
  intros Hr.
  assert (Hiff : TwilioService.c_valid r = true
                 <-> TwilioService.c_status r = "approved").
  { unfold TwilioService.verifyOTP in Hr.
    destruct (unset _); [discriminate Hr|].
    destruct (String.eqb _ "test").
    - destruct (_ && _); injection Hr as <-; cbn; split; congruence.
    - destruct (TwilioService.getClient env twilio); [discriminate Hr|].
      destruct (TwilioService.verificationChecks_create _ _ _) as [|st];
        [discriminate Hr|].
      injection Hr as <-. cbn. apply String.eqb_eq. }
  split; [exact Hiff|].
  intros Hne. unfold AuthRoutes.verify_otp_handler. rewrite Hr.
  apply String.eqb_neq in Hne. rewrite Hne.
  by rewrite orb_true_r.
Qed.

Lemma X8_valid_means_approved_witness :
  TwilioService.c_valid (TwilioService.VerificationCheck "pending" false) = true
  <-> TwilioService.c_status (TwilioService.VerificationCheck "pending" false)
      = "approved".
Proof.
  refine (proj1 (X8_valid_means_approved test_env Jwt.binary
                   TwilioService.unreachable 0 "+919876543210" "12a456"
                   (Users.Database [] 0)
                   (TwilioService.VerificationCheck "pending" false) _)).
  reflexivity.
Defined.

(** The configuration lacks what a call of the provider needs: the
    service identifier, or, outside test mode, one of the credentials. *)
Lemma misconfigured_throws (env : environment) (twilio : TwilioService.provider)
    (phone otp : string) :
  unset (env_TWILIO_VERIFY_SERVICE_SID env) = true
  \/ (String.eqb (or_else (env_SMS_MODE env) "live") "test" = false
      /\ (unset (env_TWILIO_ACCOUNT_SID env) = true
          \/ unset (env_TWILIO_AUTH_TOKEN env) = true)) ->
  exists what,
    Js.includes "not configured" what = true
    /\ TwilioService.sendOTP env twilio phone = inl (Error what)
    /\ TwilioService.verifyOTP env twilio phone otp = inl (Error what).
Proof.
  unfold TwilioService.sendOTP, TwilioService.verifyOTP, TwilioService.getClient.
  cbv zeta.
  intros [->|[-> Hcred]].
  - eexists. split; [|split; reflexivity]. reflexivity.
  - destruct (unset (env_TWILIO_VERIFY_SERVICE_SID env)).
    + eexists. split; [|split; reflexivity]. reflexivity.
    + assert (unset (env_TWILIO_ACCOUNT_SID env)
              || unset (env_TWILIO_AUTH_TOKEN env) = true) as ->
        by (destruct Hcred as [-> | ->]; [reflexivity|apply orb_true_r]).
      eexists. split; [|split; reflexivity]. reflexivity.
Qed.

(** X9: when the service identifier is missing, or a credential is
    missing outside test mode, the send-code and the verify-code handlers
    answer 500 "SMS service not configured", whatever the provider, the
    phone number and the code; the collection is not touched. *)
Theorem X9_missing_configuration_is_a_500 (env : environment)
    (jwt : Jwt.jsonwebtoken) (twilio : TwilioService.provider) (now : Z)
    (phone otp : string) (db : Users.database) :
  unset (env_TWILIO_VERIFY_SERVICE_SID env) = true
  \/ (String.eqb (or_else (env_SMS_MODE env) "live") "test" = false
      /\ (unset (env_TWILIO_ACCOUNT_SID env) = true
          \/ unset (env_TWILIO_AUTH_TOKEN env) = true)) ->
  AuthRoutes.send_otp_handler env twilio phone
  = Respond (failure 500 "SMS service not configured")
  /\ AuthRoutes.verify_otp_handler env jwt twilio now phone otp db
     = (Respond (failure 500 "SMS service not configured"), db).
Proof.
  intros Hmissing.
  destruct (misconfigured_throws env twilio phone otp Hmissing)
    as (what & Hwhat & Hsend & Hverify).
  unfold AuthRoutes.send_otp_handler, AuthRoutes.verify_otp_handler.
  rewrite Hsend, Hverify. unfold AuthRoutes.otp_catch. cbn.
  by rewrite Hwhat.
Qed.

Lemma X9_missing_configuration_is_a_500_witness :
  AuthRoutes.send_otp_handler test_env_without_service TwilioService.unreachable
    "+919876543210"
  = Respond (failure 500 "SMS service not configured").
Proof.
  refine (proj1 (X9_missing_configuration_is_a_500 test_env_without_service
                   Jwt.binary TwilioService.unreachable 0 "+919876543210"
                   "123456" (Users.Database [] 0) _)).
  left. reflexivity.
Defined.

(** X10: in test mode with the service identifier set, [sendOTP] never
    calls the provider and needs no credentials: it reports "pending" for
    the number it was given, and the send-code handler answers 200. *)
Theorem X10_test_mode_send_needs_no_provider (env : environment)
    (twilio : TwilioService.provider) (phone : string) :
  unset (env_TWILIO_VERIFY_SERVICE_SID env) = false ->
  env_SMS_MODE env = Some "test" ->
  TwilioService.sendOTP env twilio phone
  = inr (TwilioService.Verification "pending" phone "sms" true)
  /\ status_of (AuthRoutes.send_otp_handler env twilio phone) = Some 200.
Proof.
  intros Hsid Hmode.
  assert (Hsend : TwilioService.sendOTP env twilio phone
                  = inr (TwilioService.Verification "pending" phone "sms" true)).
  { unfold TwilioService.sendOTP. by rewrite Hsid, Hmode. }
  split; [exact Hsend|].
  unfold AuthRoutes.send_otp_handler. by rewrite Hsend.
Qed.

Lemma X10_test_mode_send_needs_no_provider_witness :
  status_of (AuthRoutes.send_otp_handler test_env TwilioService.unreachable
               "+919876543210") = Some 200.
Proof.
  refine (proj2 (X10_test_mode_send_needs_no_provider test_env
                   TwilioService.unreachable "+919876543210" _ _));
    reflexivity.
Defined.

(** A key of the table is read as the message listed under it. *)
Lemma errorMessages_listed (c : code_value) (msg : string) :
  In (code_key c, msg) TwilioService.errorMessages ->
  TwilioService.errorMessages_get (Some c) = TwilioService.Own msg
  /\ msg <> "".
Proof.
  unfold TwilioService.errorMessages_get. cbv zeta.
  generalize (code_key c). intros key Hin.
  unfold TwilioService.errorMessages in Hin. cbn [In] in Hin.
  repeat (destruct Hin as [[= <- <-]|Hin]; [by split|]).
  destruct Hin.
Qed.

(** X11: [parseTwilioError] reads the table with the effective code of
    the error ([code] when truthy, else [status]), a number or a string.
    When that code names a key of the table (the keys are the eleven
    numbers of the source, as strings) the result is the message listed
    under it; when it names no property, or the error has neither [code]
    nor [status], the result is the message of the error, or "Failed to
    verify OTP" when that is empty; a string result is never empty. The
    only other result is the member of [Object.prototype] that the code
    names, and then the answer carries no message string. The catch block
    of the OTP handlers answers 400, with that result, every error that
    carries a truthy code or status, even when its own message says "not
    configured", and so the error of a refused connection, whose code is
    a string; an error without a truthy code or status is never answered
    400. *)
Theorem X11_provider_errors_always_have_a_message (error : js_error) :
  let code := TwilioService.first_truthy (err_code error) (err_status error) in
  let own := or_else (Some (err_message error)) "Failed to verify OTP" in
  (forall c msg, code = Some c ->
     In (code_key c, msg) TwilioService.errorMessages ->
     TwilioService.parseTwilioError error = TwilioService.Text msg)
  /\ fst <$> TwilioService.errorMessages
     = pretty <$> [20003; 20404; 21211; 21408; 21610; 21614; 60200; 60203;
                   60212; 20429; 60202]
  /\ (TwilioService.errorMessages_get code = TwilioService.Undefined ->
      TwilioService.parseTwilioError error = TwilioService.Text own)
  /\ (err_code error = None -> err_status error = None ->
      TwilioService.parseTwilioError error = TwilioService.Text own)
  /\ TwilioService.parseTwilioError error <> TwilioService.Text ""
  /\ (forall name,
        TwilioService.parseTwilioError error = TwilioService.Member name ->
        In name TwilioService.Object_prototype
        /\ code_key <$> code = Some name
        /\ forall s, body (AuthRoutes.otp_failure (TwilioService.Member name))
                       !! "message" <> Some (JStr s))
  /\ (TwilioService.has_code_or_status error = true ->
      AuthRoutes.otp_catch error
      = Respond (AuthRoutes.otp_failure (TwilioService.parseTwilioError error))
      /\ status_of (AuthRoutes.otp_catch error) = Some 400
      /\ forall msg,
           TwilioService.parseTwilioError error = TwilioService.Text msg ->
           AuthRoutes.otp_catch error = Respond (failure 400 msg))
  /\ (TwilioService.has_code_or_status error = false ->
      status_of (AuthRoutes.otp_catch error) <> Some 400)
  /\ TwilioService.has_code_or_status TwilioService.ECONNREFUSED = true
  /\ AuthRoutes.otp_catch TwilioService.ECONNREFUSED
     = Respond (failure 400 "connect ECONNREFUSED").
Proof.
  intros code own.
  assert (Hown : own <> "").
  { subst own. unfold or_else. by destruct (err_message error). }
  repeat apply conj.
  - intros c msg Hc Hin. unfold TwilioService.parseTwilioError.
    fold code. rewrite Hc.
    destruct (errorMessages_listed c msg Hin) as [-> Hne].
    apply String.eqb_neq in Hne. by rewrite Hne.
  - reflexivity.
  - intros Hget. unfold TwilioService.parseTwilioError. fold code.
    by rewrite Hget.
  - intros Hc Hs. unfold TwilioService.parseTwilioError. by rewrite Hc, Hs.
  - unfold TwilioService.parseTwilioError. fold code own.
    destruct (TwilioService.errorMessages_get code) as [msg|name|].
    + destruct (String.eqb msg "") eqn:Hmsg.
      * intros [= H]. by apply Hown.
      * intros [= H]. apply String.eqb_neq in Hmsg. by apply Hmsg.
    + discriminate.
    + intros [= H]. by apply Hown.
  - intros name. unfold TwilioService.parseTwilioError. fold code own.
    destruct (TwilioService.errorMessages_get code) as [msg|name'|] eqn:Hget;
      [by destruct (String.eqb msg "")| |discriminate].
    intros [= ->].
    unfold TwilioService.errorMessages_get in Hget.
    destruct code as [c|]; [|discriminate Hget]. cbv zeta in Hget.
    destruct (List.find _ TwilioService.errorMessages); [discriminate Hget|].
    destruct (existsb _ _) eqn:Hex; [|discriminate Hget].
    injection Hget as <-.
    apply existsb_exists in Hex as (x & Hin & Hx%String.eqb_eq). subst x.
    split; [exact Hin|]. split; [reflexivity|].
    intros s. unfold AuthRoutes.otp_failure.
    destruct (String.eqb _ "__proto__"); by vm_compute.
  - intros Hcode. unfold AuthRoutes.otp_catch. rewrite Hcode.
    split; [reflexivity|]. split.
    + cbn. unfold AuthRoutes.otp_failure.
      destruct (TwilioService.parseTwilioError error) as [msg|name];
        [reflexivity|].
      by destruct (String.eqb name "__proto__").
    + by intros msg ->.
  - intros Hcode. unfold AuthRoutes.otp_catch. rewrite Hcode.
    by destruct (Js.includes _ _).
  - reflexivity.
  - reflexivity.
Qed.

(** ** Authentication middleware *)

Lemma split_not_nil (sep : ascii) (s : string) : Auth.split sep s <> [].
Proof.
  destruct s as [|c s]; cbn; [discriminate|].
  destruct (Ascii.eqb c sep); [discriminate|].
  by destruct (Auth.split sep s).
Qed.

Lemma split_one (sep : ascii) (s t : string) : Auth.split sep s = [t] -> s = t.
Proof.
  revert t. induction s as [|c s IH]; intros t; cbn; [congruence|].
  destruct (Ascii.eqb c sep).
  - intros [= _ H]. by apply split_not_nil in H.
  - destruct (Auth.split sep s) as [|h tl] eqn:Hs; [by apply split_not_nil in Hs|].
    intros [= <- ->]. by rewrite (IH h).
Qed.

Lemma split_two (sep : ascii) (s b t : string) :
  Auth.split sep s = [b; t] -> s = b +:+ String sep t.
Proof.
  revert b. induction s as [|c s IH]; intros b; cbn; [discriminate|].
  destruct (Ascii.eqb_spec c sep) as [->|Hne].
  - intros [= <- H]. by rewrite (split_one sep s t H).
  - destruct (Auth.split sep s) as [|h tl] eqn:Hs; [by apply split_not_nil in Hs|].
    intros [= <- ->]. by rewrite (IH h).
Qed.

(** X12: [authenticate] lets a request through only when its header is
    "Bearer ", one space and a non-empty token that [verifyToken] accepts,
    and then [req.user] holds the subject id and the phone of that token;
    every refusal it makes is a 401. *)
Theorem X12_authenticate_admits_only_verified_tokens (jwt : Jwt.jsonwebtoken)
    (env : environment) (now : Z) (authorization : option string) :
  (forall u, Auth.authenticate jwt env now authorization = inr u ->
     exists token c,
       authorization = Some ("Bearer " +:+ token)
       /\ token <> ""
       /\ Jwt.verifyToken jwt env now token = inr c
       /\ u = Auth.User (Jwt.userId c) (Jwt.phone c))
  /\ (forall r, Auth.authenticate jwt env now authorization = inl r ->
        status r = 401).
Proof.
  unfold Auth.authenticate.
  destruct authorization as [[|a h]|]; [split; [discriminate|by intros r [= <-]]| |
                                        split; [discriminate|by intros r [= <-]]].
  destruct (Auth.split " " (String a h)) as [|bearer [|token [|? ?]]] eqn:Hsplit;
    try (split; [discriminate|by intros r [= <-]]).
  destruct (String.eqb_spec bearer "Bearer") as [->|];
    cbn [negb]; [|split; [discriminate|by intros r [= <-]]].
  destruct (String.eqb_spec token "") as [->|Htoken];
    [split; [discriminate|by intros r [= <-]]|].
  apply split_two in Hsplit.
  destruct (Jwt.verifyToken jwt env now token) as [error|c] eqn:Hverify.
  - split.
    + destruct (String.eqb _ "TokenExpiredError");
        [discriminate|destruct (String.eqb _ "JsonWebTokenError"); discriminate].
    + destruct (String.eqb _ "TokenExpiredError");
        [by intros r [= <-]|
         destruct (String.eqb _ "JsonWebTokenError"); by intros r [= <-]].
  - split; [|discriminate].
    intros u [= <-]. exists token, c. by rewrite Hsplit.
Qed.

Lemma binary_hmac_inj (s1 s2 : string) (c : Jwt.claims) :
  s1 <> s2 -> Jwt.binary_hmac s1 c <> Jwt.binary_hmac s2 c.
Proof.
  intros Hne Heq. unfold Jwt.binary_hmac in Heq.
  apply (f_equal Jwt.unbits) in Heq. rewrite !unbits_bits in Heq.
  injection Heq as Heq. apply (inj encode) in Heq. congruence.
Qed.

(** X13: a token issued under one signing secret is refused under a
    secret that signs differently: its verification throws
    [JsonWebTokenError] "invalid signature" at any time, expired or not,
    and [authenticate] answers 401 "Invalid token". *)
Theorem X13_other_secret_is_invalid (jwt : Jwt.jsonwebtoken)
    (env env' : environment) (now t : Z) (S P : string) :
  Jwt.lawful jwt ->
  (forall c, Jwt.hmac jwt (Jwt.JWT_SECRET env) c
             <> Jwt.hmac jwt (Jwt.JWT_SECRET env') c) ->
  let token := Jwt.generateToken jwt env now S P in
  Jwt.verifyToken jwt env' t token
  = inl (Jwt.JsonWebTokenError "invalid signature")
  /\ Auth.authenticate jwt env' t (Some ("Bearer " +:+ token))
     = inl (failure 401 "Invalid token").
Proof.
  intros Hlaw Hsecret token.
  assert (Hverify : Jwt.verifyToken jwt env' t token
                    = inl (Jwt.JsonWebTokenError "invalid signature")).
  { unfold Jwt.verifyToken, Jwt.verify, token, Jwt.generateToken, Jwt.sign.
    destruct (Hlaw (Jwt.Claims S P (Jwt.clockTimestamp now)
                      (Jwt.clockTimestamp now + Jwt.JWT_EXPIRES_IN env))
                   (Jwt.hmac jwt (Jwt.JWT_SECRET env)
                      (Jwt.Claims S P (Jwt.clockTimestamp now)
                         (Jwt.clockTimestamp now + Jwt.JWT_EXPIRES_IN env))))
      as (-> & _).
    specialize (Hsecret (Jwt.Claims S P (Jwt.clockTimestamp now)
                           (Jwt.clockTimestamp now + Jwt.JWT_EXPIRES_IN env))).
    apply String.eqb_neq in Hsecret. by rewrite Hsecret. }
  split; [exact Hverify|].
  destruct (Hlaw (Jwt.Claims S P (Jwt.clockTimestamp now)
                    (Jwt.clockTimestamp now + Jwt.JWT_EXPIRES_IN env))
                 (Jwt.hmac jwt (Jwt.JWT_SECRET env)
                    (Jwt.Claims S P (Jwt.clockTimestamp now)
                       (Jwt.clockTimestamp now + Jwt.JWT_EXPIRES_IN env))))
    as (_ & Hne & Hword).
  rewrite authenticate_bearer by assumption. by rewrite Hverify.
Qed.

Lemma X13_other_secret_is_invalid_witness :
  Jwt.verifyToken Jwt.binary rotated_env 1700000000000
    (Jwt.generateToken Jwt.binary test_env 1700000000000 "7" "+919876543210")
  = inl (Jwt.JsonWebTokenError "invalid signature").
Proof.
  refine (proj1 (X13_other_secret_is_invalid Jwt.binary test_env rotated_env
                   1700000000000 1700000000000 "7" "+919876543210"
                   binary_lawful _)).
  intros c. apply binary_hmac_inj. discriminate.
Defined.

(** ** The collection under registration *)

Lemma has_phone_iff (d : Users.document) (p : string) :
  Users.has_string "phone" p d = true <-> Facts.phone_of d = Some p.
Proof.
  unfold Users.has_string, Facts.phone_of.
  destruct (d !! "phone") as [[| | |t| | |]|]; cbn; try (split; discriminate).
  rewrite String.eqb_eq. split; congruence.
Qed.

Lemma not_taken_not_held (p : string) (l : list Users.document) :
  existsb (Users.has_string "phone" p) l = false -> p ∉ omap Facts.phone_of l.
Proof.
  induction l as [|d l IH]; cbn; [intros _; apply not_elem_of_nil|].
  intros [Hd Hl]%orb_false_iff.
  destruct (Facts.phone_of d) as [q|] eqn:Hq; [|by apply IH].
  apply not_elem_of_cons. split; [|by apply IH].
  intros ->. apply has_phone_iff in Hq. congruence.
Qed.

Lemma save_keeps_phones_distinct (orm : Users.mongoose) (now : Z)
    (d : Users.document) (db : Users.database) :
  NoDup (Facts.phones db) -> NoDup (Facts.phones (Users.save orm now d db).2).
Proof.
  intros Hdb. unfold Users.save.
  destruct (Users.cast_document orm d) as [e|d']; [exact Hdb|].
  destruct (Users.phone_taken d' (Users.users db)) eqn:Htaken; [exact Hdb|].
  unfold Facts.phones. cbn [snd Users.users]. rewrite omap_app. cbn.
  set (stored := <["__v":=_]> _).
  assert (Hstored : Facts.phone_of stored = Facts.phone_of d').
  { unfold Facts.phone_of, stored. by rewrite !lookup_insert_ne by discriminate. }
  rewrite Hstored. unfold Users.phone_taken in Htaken. unfold Facts.phone_of.
  destruct (d' !! "phone") as [[| | |p| | |]|]; cbn;
    rewrite ?app_nil_r; try exact Hdb.
  apply NoDup_app. split; [exact Hdb|]. split.
  - intros q Hq [Heq|[]%elem_of_nil]%elem_of_cons. subst q.
    by apply (not_taken_not_held p (Users.users db)).
  - apply NoDup_singleton.
Qed.

(** X14: registration never makes two profiles hold one phone number:
    if the phone numbers of the collection are pairwise distinct before a
    register request, they are after it, whatever the request holds and
    whatever the schema does to the document. *)
Theorem X14_registration_keeps_phones_distinct (env : environment)
    (jwt : Jwt.jsonwebtoken) (orm : Users.mongoose)
    (new_Date parseInt : value -> value) (t_lookup t_save : Z)
    (phone name : option string) (body : gmap string value)
    (db : Users.database) :
  NoDup (Facts.phones db) ->
  NoDup (Facts.phones
           (AuthRoutes.register_user env jwt orm new_Date parseInt
              t_lookup t_save phone name body db).2).
Proof.
  intros Hdb. unfold AuthRoutes.register_user.
  destruct (Validators.registerUserValidation _ _) as [[p n] errors].
  destruct (Validators.handleValidationErrors errors); [exact Hdb|].
  unfold AuthRoutes.register_user_handler, AuthRoutes.register_lookup.
  destruct (Users.findOne p db); [exact Hdb|].
  cbn [Users.new_User]. unfold AuthRoutes.register_save.
  match goal with
  | |- context [Users.save orm t_save ?d ?db'] =>
      pose proof (save_keeps_phones_distinct orm t_save d db' Hdb) as Hsave;
      destruct (Users.save orm t_save d db') as [[error|saved] db'']
  end; cbn [snd] in Hsave |- *; [exact Hsave|].
  by destruct (AuthRoutes.id_of saved).
Qed.

Lemma X14_registration_keeps_phones_distinct_witness :
  NoDup (Facts.phones
           (AuthRoutes.register_user test_env Jwt.binary Users.permissive
              (fun v => v) (fun v => v) 10 20
              (Some "9123456780") (Some "Ravi") ∅ Users.one_profile).2).
Proof.
  apply X14_registration_keeps_phones_distinct.
  vm_compute. apply NoDup_singleton.
Defined.




(** ** Update-profile: what reaches the update, and what it changes *)

Lemma strip_update_id (body : gmap string value) :
  AuthRoutes.strip_update body !! "_id" =
    if truthy_field body "_id" then None else body !! "_id".
Proof.
  unfold AuthRoutes.strip_update.
  rewrite !lookup_delete_ne by discriminate.
  assert (Hid : forall m : gmap string value,
            truthy_field (delete "phone" m) "_id" = truthy_field m "_id").
  { intros m. unfold truthy_field. by rewrite lookup_delete_ne by discriminate. }
  destruct (truthy_field body "phone"); [rewrite Hid|];
    destruct (truthy_field body "_id");
    rewrite ?lookup_delete_eq, ?lookup_delete_ne by discriminate; reflexivity.
Qed.

Lemma strip_update_system (body : gmap string value) (k : string) :
  k ∈ Facts.system_fields -> AuthRoutes.strip_update body !! k = None.
Proof.
  unfold Facts.system_fields, AuthRoutes.strip_update. intros Hk.
  repeat (apply elem_of_cons in Hk as [->|Hk]);
    [..|by apply elem_of_nil in Hk];
    rewrite ?lookup_delete_eq, ?lookup_delete_ne by discriminate;
    rewrite ?lookup_delete_eq; reflexivity.
Qed.

Lemma strip_update_subseteq (body : gmap string value) :
  AuthRoutes.strip_update body ⊆ body.
Proof.
  unfold AuthRoutes.strip_update.
  do 4 (etrans; [apply delete_subseteq|]).
  destruct (truthy_field body "phone").
  - destruct (truthy_field (delete "phone" body) "_id");
      [etrans; [apply delete_subseteq|]|]; apply delete_subseteq.
  - destruct (truthy_field body "_id"); [apply delete_subseteq|reflexivity].
Qed.

(** The conversion of the date of birth touches that property only. *)
Lemma parse_dateOfBirth_lookup_ne (new_Date : value -> value)
    (updateData : gmap string value) (k : string) :
  k <> "dateOfBirth" ->
  AuthRoutes.parse_dateOfBirth new_Date updateData !! k = updateData !! k.
Proof.
  intros Hk. unfold AuthRoutes.parse_dateOfBirth.
  destruct (updateData !! "dateOfBirth") as [[| | |s| | |]|]; try reflexivity.
  destruct (truthy (JStr s)); [|reflexivity].
  by rewrite lookup_insert_ne.
Qed.

Lemma parse_dateOfBirth_lookup (new_Date : value -> value)
    (updateData : gmap string value) :
  AuthRoutes.parse_dateOfBirth new_Date updateData !! "dateOfBirth" =
    match updateData !! "dateOfBirth" with
    | Some (JStr s) =>
        if String.eqb s "" then Some (JStr "") else Some (new_Date (JStr s))
    | other => other
    end.
Proof.
  unfold AuthRoutes.parse_dateOfBirth.
  destruct (updateData !! "dateOfBirth") as [[| | |s| | |]|] eqn:Hd;
    try exact Hd.
  cbn [truthy]. destruct (String.eqb s "") eqn:Hs; cbn [negb].
  - apply String.eqb_eq in Hs as ->. exact Hd.
  - apply lookup_insert_eq.
Qed.

(** X16: what the update handler passes to [findByIdAndUpdate] as
    [$set], for a body of which something is left after the deletions:
    the body without [__v], [createdAt], [updatedAt] and [joinedDate],
    whatever their values, without [_id] and [phone] when their values are
    truthy (a falsy [_id] or [phone] stays), and with a [dateOfBirth] that
    is a non-empty string replaced by [new Date] of it. Every other
    property of the body is in the update unchanged, and the update has no
    property the body lacks. *)
Theorem X16_system_fields_never_reach_the_update (orm : Users.mongoose)
    (new_Date : value -> value) (now : Z) (userId : string)
    (body : gmap string value) (db : Users.database) :
  let update :=
    AuthRoutes.parse_dateOfBirth new_Date (AuthRoutes.strip_update body) in
  (size (AuthRoutes.strip_update body) <> 0%nat ->
   AuthRoutes.update_profile_handler orm new_Date now userId body db
   = match Users.findByIdAndUpdate orm now userId update db with
     | (inl error, db) => (AuthRoutes.update_catch error, db)
     | (inr None, db) => (Respond (failure 404 "User not found"), db)
     | (inr (Some user), db) => (Respond (AuthRoutes.user_response user), db)
     end)
  /\ (forall k, k ∈ Facts.system_fields -> update !! k = None)
  /\ update !! "_id" = (if truthy_field body "_id" then None else body !! "_id")
  /\ update !! "phone"
     = (if truthy_field body "phone" then None else body !! "phone")
  /\ update !! "dateOfBirth"
     = match body !! "dateOfBirth" with
       | Some (JStr s) =>
           if String.eqb s "" then Some (JStr "") else Some (new_Date (JStr s))
       | other => other
       end
  /\ (forall k, k ∉ "phone" :: "_id" :: "dateOfBirth" :: Facts.system_fields ->
        update !! k = body !! k)
  /\ (forall k, is_Some (update !! k) -> is_Some (body !! k)).
Proof.
  intros update.
  assert (Hother : forall k,
            k ∉ "phone" :: "_id" :: Facts.system_fields ->
            AuthRoutes.strip_update body !! k = body !! k).
  { intros k Hk. unfold Facts.system_fields in Hk.
    apply strip_update_lookup; intros ->; apply Hk;
      rewrite !elem_of_cons; tauto. }
  assert (Hdate : update !! "dateOfBirth"
                  = match body !! "dateOfBirth" with
                    | Some (JStr s) =>
                        if String.eqb s "" then Some (JStr "")
                        else Some (new_Date (JStr s))
                    | other => other
                    end).
  { unfold update. rewrite parse_dateOfBirth_lookup, Hother; [reflexivity|].
    unfold Facts.system_fields. rewrite !elem_of_cons, elem_of_nil.
    intros H. decompose [or] H; discriminate || assumption. }
  split; [|split; [|split; [|split; [|split; [|split]]]]].
  - intros Hsize. unfold AuthRoutes.update_profile_handler.
    by rewrite bool_decide_eq_false_2.
  - intros k Hk. unfold update.
    rewrite parse_dateOfBirth_lookup_ne; [by apply strip_update_system|].
    intros ->. unfold Facts.system_fields in Hk.
    rewrite !elem_of_cons, elem_of_nil in Hk.
    decompose [or] Hk; discriminate || assumption.
  - unfold update. rewrite parse_dateOfBirth_lookup_ne by discriminate.
    apply strip_update_id.
  - unfold update. rewrite parse_dateOfBirth_lookup_ne by discriminate.
    apply strip_update_phone.
  - exact Hdate.
  - intros k Hk. unfold update.
    rewrite parse_dateOfBirth_lookup_ne
      by (intros ->; apply Hk; rewrite !elem_of_cons; tauto).
    apply Hother. intros H. apply Hk. rewrite !elem_of_cons in H.
    rewrite !elem_of_cons. tauto.
  - intros k Hk. destruct (decide (k = "dateOfBirth")) as [->|Hne].
    + rewrite Hdate in Hk.
      destruct (body !! "dateOfBirth") as [v|]; [by eexists|].
      by destruct Hk.
    + unfold update in Hk. rewrite parse_dateOfBirth_lookup_ne in Hk by exact Hne.
      destruct Hk as [v Hk].
      exists v. by apply (lookup_weaken _ _ _ _ Hk), strip_update_subseteq.
Qed.

(** The bodies of which nothing is left to update. *)
Lemma strip_update_empty_iff (body : gmap string value) :
  AuthRoutes.strip_update body = ∅
  <-> forall k v, body !! k = Some v ->
        k ∈ Facts.system_fields
        \/ (k = "phone" \/ k = "_id") /\ truthy v = true.
Proof.
  rewrite map_empty. split.
  - intros Hempty k v Hk.
    destruct (decide (k ∈ Facts.system_fields)) as [|Hsys]; [by left|right].
    destruct (decide (k = "phone")) as [->|Hphone].
    { split; [by left|]. specialize (Hempty "phone").
      rewrite strip_update_phone in Hempty. unfold truthy_field in Hempty.
      rewrite Hk in Hempty. by destruct (truthy v). }
    destruct (decide (k = "_id")) as [->|Hid].
    { split; [by right|]. specialize (Hempty "_id").
      rewrite strip_update_id in Hempty. unfold truthy_field in Hempty.
      rewrite Hk in Hempty. by destruct (truthy v). }
    specialize (Hempty k). rewrite strip_update_lookup in Hempty; try congruence;
      intros ->; apply Hsys; unfold Facts.system_fields; set_solver.
  - intros Hall k.
    destruct (decide (k ∈ Facts.system_fields)) as [|Hsys];
      [by apply strip_update_system|].
    destruct (decide (k = "phone")) as [->|Hphone].
    { rewrite strip_update_phone. unfold truthy_field.
      destruct (body !! "phone") as [v|] eqn:Hk; [|reflexivity].
      destruct (Hall _ _ Hk) as [?|[_ ->]]; [contradiction|reflexivity]. }
    destruct (decide (k = "_id")) as [->|Hid].
    { rewrite strip_update_id. unfold truthy_field.
      destruct (body !! "_id") as [v|] eqn:Hk; [|reflexivity].
      destruct (Hall _ _ Hk) as [?|[_ ->]]; [contradiction|reflexivity]. }
    rewrite strip_update_lookup; try congruence;
      try (intros ->; apply Hsys; unfold Facts.system_fields; set_solver).
    destruct (body !! k) as [v|] eqn:Hk; [|reflexivity].
    destruct (Hall _ _ Hk) as [?|[[?|?] _]]; contradiction.
Qed.

(** X17: the update handler answers 400 "No fields to update" exactly
    for the bodies whose every property is one of [__v], [createdAt],
    [updatedAt], [joinedDate], or is [phone] or [_id] with a truthy value
    (the empty body among them); it then leaves the collection as it
    was. *)
Theorem X17_no_fields_to_update (orm : Users.mongoose)
    (new_Date : value -> value) (now : Z) (userId : string)
    (body : gmap string value) (db : Users.database) :
  ((AuthRoutes.update_profile_handler orm new_Date now userId body db).1
   = Respond AuthRoutes.no_fields
   <-> forall k v, body !! k = Some v ->
         k ∈ Facts.system_fields
         \/ (k = "phone" \/ k = "_id") /\ truthy v = true)
  /\ ((AuthRoutes.update_profile_handler orm new_Date now userId body db).1
      = Respond AuthRoutes.no_fields ->
      (AuthRoutes.update_profile_handler orm new_Date now userId body db).2 = db).
Proof.
  rewrite <- strip_update_empty_iff, <- map_size_empty_iff.
  unfold AuthRoutes.update_profile_handler.
  case_bool_decide as Hsize.
  - split; [split; [intros _; exact Hsize|reflexivity]|reflexivity].
  - pose proof (update_outcome_not_no_fields orm now userId
                  (AuthRoutes.parse_dateOfBirth new_Date (AuthRoutes.strip_update body))
                  db) as Hnot.
    split; [split; [intros H; by apply Hnot in H|intros H; by apply Hsize in H]|].
    intros H. by apply Hnot in H.
Qed.

(** X18: an update changes at most the profile whose [_id] is the
    subject of the token: the collection keeps its length, every profile
    with another [_id] stays in its place unchanged, and when no profile
    has that [_id] the collection is returned as it was and the answer is
    not a 200. *)
Theorem X18_update_touches_one_profile (orm : Users.mongoose)
    (new_Date : value -> value) (now : Z) (userId : string)
    (body : gmap string value) (db : Users.database) :
  let r := AuthRoutes.update_profile_handler orm new_Date now userId body db in
  length (Users.users r.2) = length (Users.users db)
  /\ Users.ids_issued r.2 = Users.ids_issued db
  /\ (forall (i : nat) (d : Users.document),
        Users.users db !! i = Some d -> Users.is_id userId d = false ->
        Users.users r.2 !! i = Some d)
  /\ (Users.findById userId db = None ->
      r.2 = db /\ status_of r.1 <> Some 200).
Proof.
  cbn zeta. unfold AuthRoutes.update_profile_handler.
  case_bool_decide as Hsize;
    [cbn; by repeat split; try discriminate|].
  unfold Users.findByIdAndUpdate.
  destruct (negb (Users.cast_id orm userId)).
  { cbn. by repeat split; try discriminate. }
  destruct (Users.cast_update orm _) as [error|update].
  { cbn [fst snd]. repeat split; try done.
    unfold AuthRoutes.update_catch.
    destruct (String.eqb _ "ValidationError"); [discriminate|].
    destruct (String.eqb _ "CastError"); discriminate. }
  destruct (Users.findById userId db) as [d0|] eqn:Hfind;
    [|cbn; by repeat split; try discriminate].
  destruct (Users.phone_taken _ _).
  { cbn [fst snd]. by repeat split; try discriminate. }
  cbn [fst snd Users.users Users.ids_issued].
  split; [apply length_fmap|]. split; [reflexivity|]. split; [|discriminate].
  intros i d Hi Hd. rewrite list_lookup_fmap, Hi. cbn. by rewrite Hd.
Qed.

(** ** Registration: what reaches the new document *)

Lemma filter_key_lookup (keys : list string) (m : gmap string value) (k : string) :
  filter (fun kv : string * value => kv.1 ∈ keys) m !! k
  = if decide (k ∈ keys) then m !! k else None.
Proof.
  rewrite map_lookup_filter. destruct (m !! k) as [v|]; cbn.
  - destruct (decide (k ∈ keys)) as [Hin|Hout].
    + by rewrite option_guard_True.
    + by rewrite option_guard_False.
  - by destruct (decide (k ∈ keys)).
Qed.

(** X19: the document of a new profile holds the validated phone number
    and name and [isProfileComplete: true], the optional properties the
    handler names (copied from the body as they are) and nothing else: a
    property of the body outside that list -- [_id], [email], [joinedDate],
    [createdAt], any unknown key -- never reaches it, and [phone], [name]
    and [isProfileComplete] of the document are not the body's. *)
Theorem X19_registration_copies_only_named_fields
    (new_Date parseInt : value -> value) (phone name : string)
    (body : gmap string value) :
  let fields := AuthRoutes.register_fields new_Date parseInt phone name body in
  (forall k, k ∉ Facts.registered_fields -> fields !! k = None)
  /\ (forall k, k ∈ AuthRoutes.copied_fields -> fields !! k = body !! k)
  /\ fields !! "phone" = Some (JStr phone)
  /\ fields !! "name" = Some (JStr name)
  /\ fields !! "isProfileComplete" = Some (JBool true)
  /\ fields !! "_id" = None
  /\ fields !! "email" = None.
Proof.
  cbn zeta.
  assert (Hout : forall k, k ∉ Facts.registered_fields ->
            AuthRoutes.register_fields new_Date parseInt phone name body !! k = None).
  { intros k Hk. unfold AuthRoutes.register_fields.
    unfold Facts.registered_fields in Hk.
    rewrite !lookup_insert_ne by (intros <-; apply Hk; set_solver).
    rewrite filter_key_lookup. destruct (decide _) as [Hin|]; [|reflexivity].
    exfalso. apply Hk. apply elem_of_app. by right. }
  split; [exact Hout|]. split.
  - intros k Hk. unfold AuthRoutes.register_fields.
    assert (Hne : k <> "phone" /\ k <> "name" /\ k <> "dateOfBirth"
                  /\ k <> "numberOfChildren" /\ k <> "isProfileComplete").
    { unfold AuthRoutes.copied_fields in Hk.
      repeat (apply elem_of_cons in Hk as [->|Hk]);
        [..|by apply elem_of_nil in Hk]; repeat split; discriminate. }
    destruct Hne as (? & ? & ? & ? & ?).
    rewrite !lookup_insert_ne by congruence.
    rewrite filter_key_lookup. by rewrite decide_True.
  - unfold AuthRoutes.register_fields.
    split; [apply lookup_insert_eq|].
    split; [by rewrite lookup_insert_ne, lookup_insert_eq by discriminate|].
    split; [by rewrite !lookup_insert_ne, lookup_insert_eq by discriminate|].
    split; apply Hout; vm_compute; intros H;
      repeat (apply elem_of_cons in H as [H|H]; [discriminate H|]);
      by apply elem_of_nil in H.
Qed.

(** ** The member list *)

(** X20: when the database returns the selected documents in some
    order, the member list answers with one entry per profile, [total]
    being their number, and every entry is a profile cut down to [_id],
    [name], [phone], [email], [occupation], [residenceAddress] and
    [dateOfBirth]: no other property of a profile, [aadhaar] among them,
    is listed. *)
Theorem X20_member_list_shows_selected_fields
    (by_name : list Users.document -> list Users.document)
    (db : Users.database) :
  (forall l, by_name l ≡ₚ l) ->
  let r := UsersRoutes.list_users by_name db in
  r.2 = length (Users.users db)
  /\ r.2 = length r.1
  /\ forall d, d ∈ r.1 ->
       (exists profile, profile ∈ Users.users db
                        /\ d = UsersRoutes.select_listed profile)
       /\ (forall k, is_Some (d !! k) -> k ∈ UsersRoutes.selected_fields)
       /\ d !! "aadhaar" = None.
Proof.
  intros Hsort. cbn zeta. unfold UsersRoutes.list_users, UsersRoutes.find_listed.
  cbn [fst snd]. split; [by rewrite Hsort, length_fmap|]. split; [reflexivity|].
  intros d Hd. rewrite Hsort in Hd.
  apply list_elem_of_fmap in Hd as (profile & -> & Hprofile).
  split; [by exists profile|].
  unfold UsersRoutes.select_listed. split.
  - intros k [v Hk]. rewrite filter_key_lookup in Hk.
    by destruct (decide (k ∈ UsersRoutes.selected_fields)).
  - rewrite filter_key_lookup. rewrite decide_False; [reflexivity|].
    vm_compute. intros H.
    repeat (apply elem_of_cons in H as [H|H]; [discriminate H|]).
    by apply elem_of_nil in H.
Qed.

Lemma X20_member_list_shows_selected_fields_witness :
  (UsersRoutes.list_users (fun l => l) Users.one_profile).2
  = length (Users.users Users.one_profile).
Proof.
  refine (proj1 (X20_member_list_shows_selected_fields (fun l => l)
                   Users.one_profile _)).
  reflexivity.
Defined.

(** ** Health *)

(** X21: the health route always answers 200 with [success: true];
    the server is reported "healthy" exactly when the connection state is
    1, which is when the database is reported connected, and "degraded"
    otherwise; a state outside 0..3 is reported as "unknown". *)
Theorem X21_health_is_degraded_without_database (dbState : Z)
    (iso_now : string) (process_uptime : float) (NODE_ENV : option string) :
  let r := Health.health dbState iso_now process_uptime NODE_ENV in
  r.1 = 200
  /\ Health.success r.2 = true
  /\ (Health.database_connected r.2 = true <-> dbState = 1)
  /\ (Health.server_status r.2 = "healthy" <-> dbState = 1)
  /\ (Health.server_status r.2 = "degraded" <-> dbState <> 1)
  /\ (Health.database_status r.2 = "connected" <-> dbState = 1)
  /\ (~ 0 <= dbState <= 3 -> Health.database_status r.2 = "unknown").
Proof.
  cbn zeta. unfold Health.health, Health.dbStatus.
  destruct (Z.eqb_spec dbState 1) as [->|H1]; cbn.
  - repeat split; try reflexivity; try discriminate; try lia; try congruence.
  - destruct (Z.eqb_spec dbState 0), (Z.eqb_spec dbState 2),
      (Z.eqb_spec dbState 3); cbn;
      repeat split; try reflexivity; try discriminate; try lia; try congruence.
Qed.

(** ** Rate limiter: the block window *)

Lemma blocked_check (now : Z) (phone : string) (e : RateLimiter.entry)
    (st : gmap string RateLimiter.entry) :
  phone <> "" ->
  st !! Js.strip_non_digits phone = Some e ->
  RateLimiter.blocked e = true ->
  now <= RateLimiter.resetTime e ->
  RateLimiter.otpRateLimiter now (Some phone) st
  = (Respond (failure 429
       (RateLimiter.blocked_message
          (Js.ceil_div (RateLimiter.resetTime e - now) 1000))), st).
Proof.
  intros Hphone Hk Hb Hle. rewrite otpRateLimiter_policy by exact Hphone.
  unfold RateLimiter.policy, RateLimiter.standing_of. rewrite Hk, Hb.
  destruct (Z.ltb_spec (RateLimiter.resetTime e) now); [lia|reflexivity].
Qed.

(** X22: while a number is blocked the refusal tells how many seconds
    are left, never a negative number, and a request made more than that
    many seconds later is let through. *)
Theorem X22_waiting_the_told_seconds_is_enough (now now' : Z) (phone : string)
    (e : RateLimiter.entry) (st : gmap string RateLimiter.entry) :
  phone <> "" ->
  st !! Js.strip_non_digits phone = Some e ->
  RateLimiter.blocked e = true ->
  now <= RateLimiter.resetTime e ->
  let seconds := Js.ceil_div (RateLimiter.resetTime e - now) 1000 in
  RateLimiter.otpRateLimiter now (Some phone) st
  = (Respond (failure 429 (RateLimiter.blocked_message seconds)), st)
  /\ 0 <= seconds
  /\ (now + 1000 * seconds < now' ->
      (RateLimiter.otpRateLimiter now' (Some phone) st).1 = Next).
Proof.
  intros Hphone Hk Hb Hle seconds.
  pose proof (ceil_div_least (RateLimiter.resetTime e - now)) as Hceil.
  fold seconds in Hceil.
  split; [by apply blocked_check|]. split; [lia|].
  intros Hlater. rewrite otpRateLimiter_policy by exact Hphone.
  rewrite policy_fresh; [reflexivity|].
  intros e' He'. assert (e' = e) as -> by congruence. lia.
Qed.

Lemma X22_waiting_the_told_seconds_is_enough_witness :
  (RateLimiter.otpRateLimiter 330001 (Some "+919876543210")
     RateLimiter.blocked_example).1 = Next.
Proof.
  refine (proj2 (proj2 (X22_waiting_the_told_seconds_is_enough 40000 330001
                          "+919876543210" (RateLimiter.Entry 4 330000 true)
                          RateLimiter.blocked_example _ _ _ _)) _).
  - discriminate.
  - vm_compute. reflexivity.
  - reflexivity.
  - cbn. lia.
  - vm_compute. reflexivity.
Defined.

(** X23: while a number is blocked, every request for it up to the end
    of the block is refused with 429, however many are made, and none of
    them changes the map: refused requests do not prolong the block. *)
Theorem X23_refusals_do_not_prolong_the_block (times : list Z) (phone : string)
    (e : RateLimiter.entry) (st : gmap string RateLimiter.entry) :
  phone <> "" ->
  st !! Js.strip_non_digits phone = Some e ->
  RateLimiter.blocked e = true ->
  Forall (fun now => now <= RateLimiter.resetTime e) times ->
  Forall (fun o => status_of o = Some 429) (Facts.check_each times phone st).1
  /\ length (Facts.check_each times phone st).1 = length times
  /\ (Facts.check_each times phone st).2 = st.
Proof.
  intros Hphone Hk Hb. induction 1 as [|now times Hnow _ IH];
    cbn [Facts.check_each].
  - by repeat split.
  - rewrite (blocked_check now phone e st Hphone Hk Hb Hnow).
    destruct (Facts.check_each times phone st) as [os st'].
    cbn [fst snd] in *. destruct IH as (Hos & Hlen & ->).
    split; [by constructor|]. split; [cbn; by rewrite Hlen|reflexivity].
Qed.

Lemma X23_refusals_do_not_prolong_the_block_witness :
  (Facts.check_each [40000; 100000; 330000] "+919876543210"
     RateLimiter.blocked_example).2
  = RateLimiter.blocked_example.
Proof.
  refine (proj2 (proj2 (X23_refusals_do_not_prolong_the_block
                          [40000; 100000; 330000] "+919876543210"
                          (RateLimiter.Entry 4 330000 true)
                          RateLimiter.blocked_example _ _ _ _))).
  - discriminate.
  - vm_compute. reflexivity.
  - reflexivity.
  - repeat constructor; cbn; lia.
Defined.

(** ** The profile of the signed-in user *)

Lemma authenticate_refuses_with_401 (jwt : Jwt.jsonwebtoken) (env : environment)
    (now : Z) (authorization : option string) (r : response) :
  Auth.authenticate jwt env now authorization = inl r -> status r = 401.
Proof.
  unfold Auth.authenticate.
  destruct authorization as [[|a h]|]; try (by intros [= <-]).
  destruct (Auth.split " " (String a h)) as [|bearer [|token [|? ?]]];
    try (by intros [= <-]).
  destruct (negb _); [by intros [= <-]|].
  destruct (String.eqb token ""); [by intros [= <-]|].
  destruct (Jwt.verifyToken jwt env now token) as [error|c]; [|discriminate].
  destruct (String.eqb _ "TokenExpiredError"); [by intros [= <-]|].
  destruct (String.eqb _ "JsonWebTokenError"); by intros [= <-].
Qed.

(** X24: with an accepted token, [GET /me] answers 400 "Invalid user
    ID" when the subject id of the token is a string mongoose cannot cast
    to an [ObjectId]; for an id it can cast, 404 "User not found" when no
    profile has it and 200 otherwise, the [user] of the answer being the
    stored profile without [__v]; any other error of the lookup goes to
    the error handler; without an accepted token it answers what
    [authenticate] answers, a 401. *)
Theorem X24_me_needs_a_token_and_a_profile (jwt : Jwt.jsonwebtoken)
    (env : environment) (orm : Users.mongoose) (now : Z)
    (authorization : option string) (db : Users.database) :
  (forall u, Auth.authenticate jwt env now authorization = inr u ->
     if Users.cast_id orm (Auth.userId u) then
       match Users.findById (Auth.userId u) db with
       | None => Me.me jwt env orm now authorization db
                 = Respond (failure 404 "User not found")
       | Some profile =>
           exists r,
             Me.me jwt env orm now authorization db = Respond r
             /\ status r = 200
             /\ body r !! "user" = Some (JObj (map_to_list (delete "__v" profile)))
             /\ delete "__v" profile ⊆ profile
             /\ delete "__v" profile !! "__v" = None
       end
     else Me.me jwt env orm now authorization db
          = Respond (failure 400 "Invalid user ID"))
  /\ (forall r, Auth.authenticate jwt env now authorization = inl r ->
        Me.me jwt env orm now authorization db = Respond r
        /\ status r = 401)
  /\ (forall error,
        Me.me_handler (inl error)
        = if String.eqb (err_name error) "CastError"
          then Respond (failure 400 "Invalid user ID")
          else NextError error).
Proof.
  split; [|split].
  - intros u Hu. unfold Me.me, Me.findById. rewrite Hu.
    destruct (Users.cast_id orm (Auth.userId u)); [|reflexivity]. cbn.
    destruct (Users.findById (Auth.userId u) db) as [profile|]; [|reflexivity].
    eexists. split; [reflexivity|]. cbn.
    split; [reflexivity|]. split; [reflexivity|].
    split; [apply delete_subseteq|apply lookup_delete_eq].
  - intros r Hr. unfold Me.me. rewrite Hr. split; [reflexivity|].
    by apply (authenticate_refuses_with_401 jwt env now authorization).
  - reflexivity.
Qed.

(** ** Send-code and verify-code disagree on the bare number *)

Lemma digit_not_space (c : ascii) :
  Js.is_digit c = true -> negb (Js.is_space c) = true.
Proof. intros Hc. apply digit_or_plus_not_space. by rewrite Hc. Qed.

Lemma normalizePhone_bare (n : string) :
  Js.matches_mobile n = true ->
  Validators.normalizePhone (Some n) = Some ("+91" +:+ n).
Proof.
  intros Hn. destruct (matches_mobile_shape n Hn) as (Hlen & Hdigits & Hplus).
  destruct n as [|c r]; [discriminate Hn|].
  cbn [Validators.normalizePhone].
  rewrite (strip_digits_id _ Hdigits), Hplus, Hlen. cbn [negb Z.eqb Pos.eqb].
  by rewrite andb_false_r.
Qed.

(** X25: a bare ten-digit mobile number is accepted by the send-code
    route, which normalizes it to the +91 form before validating, but is
    refused by the verify-code route, which does not normalize: whatever
    the code, it answers 400 "Invalid phone number format. Must be
    +91XXXXXXXXXX" and does not reach the gateway or the collection. *)
Theorem X25_verify_code_wants_the_normalized_phone (env : environment)
    (jwt : Jwt.jsonwebtoken) (twilio : TwilioService.provider) (now : Z)
    (n : string) (otp : option string) (db : Users.database) :
  Js.matches_mobile n = true ->
  Validators.sendOtpValidation (Validators.normalizePhone (Some n))
  = ("+91" +:+ n, [])
  /\ AuthRoutes.verify_otp env jwt twilio now (Some n) otp db
     = (Respond (failure 400 "Invalid phone number format. Must be +91XXXXXXXXXX"),
        db).
Proof.
  intros Hn. destruct (matches_mobile_shape n Hn) as (Hlen & Hdigits & Hplus).
  assert (Htrim : Js.trim n = n).
  { apply trim_no_space. revert Hdigits. apply all_chars_weaken, digit_not_space. }
  split.
  - rewrite (normalizePhone_bare n Hn). unfold Validators.sendOtpValidation.
    assert (Htrim' : Validators.sanitized (Some ("+91" +:+ n)) = "+91" +:+ n).
    { apply trim_no_space.
      change ("+91" +:+ n) with (String "+" (String "9" (String "1" n))).
      cbn [Js.all_chars]. revert Hdigits.
      intros Hd. rewrite (all_chars_weaken _ _ n digit_not_space Hd). reflexivity. }
    rewrite Htrim'.
    change (Validators.notEmpty ("+91" +:+ n)) with true.
    unfold Js.matches_optional_plus91_mobile.
    change (Js.matches_plus91_mobile ("+91" +:+ n)) with (Js.matches_mobile n).
    by rewrite Hn.
  - unfold AuthRoutes.verify_otp, Validators.verifyOtpValidation.
    change (Validators.sanitized (Some n)) with (Js.trim n). rewrite Htrim.
    assert (Hne : Validators.notEmpty n = true) by (by destruct n).
    assert (Hnot : Js.matches_plus91_mobile n = false).
    { destruct n as [|c r]; [reflexivity|].
      unfold Js.startsWith in Hplus. cbn [String.prefix] in Hplus.
      destruct (Ascii.ascii_dec "+" c) as [<-|Hc]; [discriminate Hn|].
      destruct c as [[] [] [] [] [] [] [] []]; try reflexivity.
      by destruct Hc. }
    rewrite Hne, Hnot. reflexivity.
Qed.

Lemma X25_verify_code_wants_the_normalized_phone_witness :
  AuthRoutes.verify_otp test_env Jwt.binary TwilioService.unreachable 0
    (Some "9876543210") (Some "123456") (Users.Database [] 0)
  = (Respond (failure 400 "Invalid phone number format. Must be +91XXXXXXXXXX"),
     Users.Database [] 0).
Proof.
  refine (proj2 (X25_verify_code_wants_the_normalized_phone test_env Jwt.binary
                   TwilioService.unreachable 0 "9876543210" (Some "123456")
                   (Users.Database [] 0) _)).
  reflexivity.
Defined.
